(** * Raw input for Windows: device catalog, name tables and event decoding

    A shallow embedding of [winrawin/_win_raw_input.py] and
    [winrawin/_api.py].  Python values are represented as follows:
    - [int] and every ctypes integer field read back as an [int]: [Z];
    - [str]: the list of its Unicode code points, [list Z];
    - [dict]: [gmap]; a dict display keeps the last binding of a repeated key;
    - [Optional[T]]: [option T];
    - raising an exception: the [Raise] outcome of the monad [M] below.  *)

From stdpp Require Import gmap strings list fin_maps pretty.
From Stdlib Require Import ZArith Lia.

Open Scope Z_scope.

(** ** Python strings and dictionaries *)

Module Py.

(** A [str] is the sequence of its code points. *)
Abbreviation str := (list Z).

(** The [str] written by an ASCII literal. *)
Fixpoint u (s : string) : str :=
  match s with
  | EmptyString => []
  | String a s' => Z.of_N (Ascii.N_of_ascii a) :: u s'
  end.

(** The lower-case mapping of single code points, in runs: the code
    points [first], [first + step], ... up to [last] map to themselves plus
    [offset].  These are the mappings of [str.lower] under Unicode 14.0
    for every code point but U+0130, which maps to two code points, and
    U+03A3, which depends on its context. *)
Definition lower_runs : list (Z * Z * Z * Z) :=
  [ (0x41, 0x5a, 1, 32); (0xc0, 0xd6, 1, 32); (0xd8, 0xde, 1, 32);
    (0x100, 0x12e, 2, 1); (0x132, 0x136, 2, 1); (0x139, 0x147, 2, 1);
    (0x14a, 0x176, 2, 1); (0x178, 0x178, 1, (-121)); (0x179, 0x17d, 2, 1);
    (0x181, 0x181, 1, 210); (0x182, 0x184, 2, 1); (0x186, 0x186, 1, 206);
    (0x187, 0x187, 1, 1); (0x189, 0x18a, 1, 205); (0x18b, 0x18b, 1, 1);
    (0x18e, 0x18e, 1, 79); (0x18f, 0x18f, 1, 202); (0x190, 0x190, 1, 203);
    (0x191, 0x191, 1, 1); (0x193, 0x193, 1, 205); (0x194, 0x194, 1, 207);
    (0x196, 0x196, 1, 211); (0x197, 0x197, 1, 209); (0x198, 0x198, 1, 1);
    (0x19c, 0x19c, 1, 211); (0x19d, 0x19d, 1, 213); (0x19f, 0x19f, 1, 214);
    (0x1a0, 0x1a4, 2, 1); (0x1a6, 0x1a6, 1, 218); (0x1a7, 0x1a7, 1, 1);
    (0x1a9, 0x1a9, 1, 218); (0x1ac, 0x1ac, 1, 1); (0x1ae, 0x1ae, 1, 218);
    (0x1af, 0x1af, 1, 1); (0x1b1, 0x1b2, 1, 217); (0x1b3, 0x1b5, 2, 1);
    (0x1b7, 0x1b7, 1, 219); (0x1b8, 0x1b8, 1, 1); (0x1bc, 0x1bc, 1, 1);
    (0x1c4, 0x1c4, 1, 2); (0x1c5, 0x1c5, 1, 1); (0x1c7, 0x1c7, 1, 2);
    (0x1c8, 0x1c8, 1, 1); (0x1ca, 0x1ca, 1, 2); (0x1cb, 0x1db, 2, 1);
    (0x1de, 0x1ee, 2, 1); (0x1f1, 0x1f1, 1, 2); (0x1f2, 0x1f4, 2, 1);
    (0x1f6, 0x1f6, 1, (-97)); (0x1f7, 0x1f7, 1, (-56)); (0x1f8, 0x21e, 2, 1);
    (0x220, 0x220, 1, (-130)); (0x222, 0x232, 2, 1); (0x23a, 0x23a, 1, 10795);
    (0x23b, 0x23b, 1, 1); (0x23d, 0x23d, 1, (-163)); (0x23e, 0x23e, 1, 10792);
    (0x241, 0x241, 1, 1); (0x243, 0x243, 1, (-195)); (0x244, 0x244, 1, 69);
    (0x245, 0x245, 1, 71); (0x246, 0x24e, 2, 1); (0x370, 0x372, 2, 1);
    (0x376, 0x376, 1, 1); (0x37f, 0x37f, 1, 116); (0x386, 0x386, 1, 38);
    (0x388, 0x38a, 1, 37); (0x38c, 0x38c, 1, 64); (0x38e, 0x38f, 1, 63);
    (0x391, 0x3a1, 1, 32); (0x3a3, 0x3ab, 1, 32); (0x3cf, 0x3cf, 1, 8);
    (0x3d8, 0x3ee, 2, 1); (0x3f4, 0x3f4, 1, (-60)); (0x3f7, 0x3f7, 1, 1);
    (0x3f9, 0x3f9, 1, (-7)); (0x3fa, 0x3fa, 1, 1); (0x3fd, 0x3ff, 1, (-130));
    (0x400, 0x40f, 1, 80); (0x410, 0x42f, 1, 32); (0x460, 0x480, 2, 1);
    (0x48a, 0x4be, 2, 1); (0x4c0, 0x4c0, 1, 15); (0x4c1, 0x4cd, 2, 1);
    (0x4d0, 0x52e, 2, 1); (0x531, 0x556, 1, 48); (0x10a0, 0x10c5, 1, 7264);
    (0x10c7, 0x10c7, 1, 7264); (0x10cd, 0x10cd, 1, 7264); (0x13a0, 0x13ef, 1, 38864);
    (0x13f0, 0x13f5, 1, 8); (0x1c90, 0x1cba, 1, (-3008)); (0x1cbd, 0x1cbf, 1, (-3008));
    (0x1e00, 0x1e94, 2, 1); (0x1e9e, 0x1e9e, 1, (-7615)); (0x1ea0, 0x1efe, 2, 1);
    (0x1f08, 0x1f0f, 1, (-8)); (0x1f18, 0x1f1d, 1, (-8)); (0x1f28, 0x1f2f, 1, (-8));
    (0x1f38, 0x1f3f, 1, (-8)); (0x1f48, 0x1f4d, 1, (-8)); (0x1f59, 0x1f5f, 2, (-8));
    (0x1f68, 0x1f6f, 1, (-8)); (0x1f88, 0x1f8f, 1, (-8)); (0x1f98, 0x1f9f, 1, (-8));
    (0x1fa8, 0x1faf, 1, (-8)); (0x1fb8, 0x1fb9, 1, (-8)); (0x1fba, 0x1fbb, 1, (-74));
    (0x1fbc, 0x1fbc, 1, (-9)); (0x1fc8, 0x1fcb, 1, (-86)); (0x1fcc, 0x1fcc, 1, (-9));
    (0x1fd8, 0x1fd9, 1, (-8)); (0x1fda, 0x1fdb, 1, (-100)); (0x1fe8, 0x1fe9, 1, (-8));
    (0x1fea, 0x1feb, 1, (-112)); (0x1fec, 0x1fec, 1, (-7)); (0x1ff8, 0x1ff9, 1, (-128));
    (0x1ffa, 0x1ffb, 1, (-126)); (0x1ffc, 0x1ffc, 1, (-9)); (0x2126, 0x2126, 1, (-7517));
    (0x212a, 0x212a, 1, (-8383)); (0x212b, 0x212b, 1, (-8262)); (0x2132, 0x2132, 1, 28);
    (0x2160, 0x216f, 1, 16); (0x2183, 0x2183, 1, 1); (0x24b6, 0x24cf, 1, 26);
    (0x2c00, 0x2c2f, 1, 48); (0x2c60, 0x2c60, 1, 1); (0x2c62, 0x2c62, 1, (-10743));
    (0x2c63, 0x2c63, 1, (-3814)); (0x2c64, 0x2c64, 1, (-10727)); (0x2c67, 0x2c6b, 2, 1);
    (0x2c6d, 0x2c6d, 1, (-10780)); (0x2c6e, 0x2c6e, 1, (-10749)); (0x2c6f, 0x2c6f, 1, (-10783));
    (0x2c70, 0x2c70, 1, (-10782)); (0x2c72, 0x2c72, 1, 1); (0x2c75, 0x2c75, 1, 1);
    (0x2c7e, 0x2c7f, 1, (-10815)); (0x2c80, 0x2ce2, 2, 1); (0x2ceb, 0x2ced, 2, 1);
    (0x2cf2, 0x2cf2, 1, 1); (0xa640, 0xa66c, 2, 1); (0xa680, 0xa69a, 2, 1);
    (0xa722, 0xa72e, 2, 1); (0xa732, 0xa76e, 2, 1); (0xa779, 0xa77b, 2, 1);
    (0xa77d, 0xa77d, 1, (-35332)); (0xa77e, 0xa786, 2, 1); (0xa78b, 0xa78b, 1, 1);
    (0xa78d, 0xa78d, 1, (-42280)); (0xa790, 0xa792, 2, 1); (0xa796, 0xa7a8, 2, 1);
    (0xa7aa, 0xa7aa, 1, (-42308)); (0xa7ab, 0xa7ab, 1, (-42319)); (0xa7ac, 0xa7ac, 1, (-42315));
    (0xa7ad, 0xa7ad, 1, (-42305)); (0xa7ae, 0xa7ae, 1, (-42308)); (0xa7b0, 0xa7b0, 1, (-42258));
    (0xa7b1, 0xa7b1, 1, (-42282)); (0xa7b2, 0xa7b2, 1, (-42261)); (0xa7b3, 0xa7b3, 1, 928);
    (0xa7b4, 0xa7c2, 2, 1); (0xa7c4, 0xa7c4, 1, (-48)); (0xa7c5, 0xa7c5, 1, (-42307));
    (0xa7c6, 0xa7c6, 1, (-35384)); (0xa7c7, 0xa7c9, 2, 1); (0xa7d0, 0xa7d0, 1, 1);
    (0xa7d6, 0xa7d8, 2, 1); (0xa7f5, 0xa7f5, 1, 1); (0xff21, 0xff3a, 1, 32);
    (0x10400, 0x10427, 1, 40); (0x104b0, 0x104d3, 1, 40); (0x10570, 0x1057a, 1, 39);
    (0x1057c, 0x1058a, 1, 39); (0x1058c, 0x10592, 1, 39); (0x10594, 0x10595, 1, 39);
    (0x10c80, 0x10cb2, 1, 64); (0x118a0, 0x118bf, 1, 32); (0x16e40, 0x16e5f, 1, 32);
    (0x1e900, 0x1e921, 1, 34) ].

(** The code points with the property Cased, in ranges. *)
Definition Cased : list (Z * Z) :=
  [ (0x41, 0x5a); (0x61, 0x7a); (0xaa, 0xaa); (0xb5, 0xb5);
    (0xba, 0xba); (0xc0, 0xd6); (0xd8, 0xf6); (0xf8, 0x1ba);
    (0x1bc, 0x1bf); (0x1c4, 0x293); (0x295, 0x2b8); (0x2c0, 0x2c1);
    (0x2e0, 0x2e4); (0x345, 0x345); (0x370, 0x373); (0x376, 0x377);
    (0x37a, 0x37d); (0x37f, 0x37f); (0x386, 0x386); (0x388, 0x38a);
    (0x38c, 0x38c); (0x38e, 0x3a1); (0x3a3, 0x3f5); (0x3f7, 0x481);
    (0x48a, 0x52f); (0x531, 0x556); (0x560, 0x588); (0x10a0, 0x10c5);
    (0x10c7, 0x10c7); (0x10cd, 0x10cd); (0x10d0, 0x10fa); (0x10fd, 0x10ff);
    (0x13a0, 0x13f5); (0x13f8, 0x13fd); (0x1c80, 0x1c88); (0x1c90, 0x1cba);
    (0x1cbd, 0x1cbf); (0x1d00, 0x1dbf); (0x1e00, 0x1f15); (0x1f18, 0x1f1d);
    (0x1f20, 0x1f45); (0x1f48, 0x1f4d); (0x1f50, 0x1f57); (0x1f59, 0x1f59);
    (0x1f5b, 0x1f5b); (0x1f5d, 0x1f5d); (0x1f5f, 0x1f7d); (0x1f80, 0x1fb4);
    (0x1fb6, 0x1fbc); (0x1fbe, 0x1fbe); (0x1fc2, 0x1fc4); (0x1fc6, 0x1fcc);
    (0x1fd0, 0x1fd3); (0x1fd6, 0x1fdb); (0x1fe0, 0x1fec); (0x1ff2, 0x1ff4);
    (0x1ff6, 0x1ffc); (0x2071, 0x2071); (0x207f, 0x207f); (0x2090, 0x209c);
    (0x2102, 0x2102); (0x2107, 0x2107); (0x210a, 0x2113); (0x2115, 0x2115);
    (0x2119, 0x211d); (0x2124, 0x2124); (0x2126, 0x2126); (0x2128, 0x2128);
    (0x212a, 0x212d); (0x212f, 0x2134); (0x2139, 0x2139); (0x213c, 0x213f);
    (0x2145, 0x2149); (0x214e, 0x214e); (0x2160, 0x217f); (0x2183, 0x2184);
    (0x24b6, 0x24e9); (0x2c00, 0x2ce4); (0x2ceb, 0x2cee); (0x2cf2, 0x2cf3);
    (0x2d00, 0x2d25); (0x2d27, 0x2d27); (0x2d2d, 0x2d2d); (0xa640, 0xa66d);
    (0xa680, 0xa69d); (0xa722, 0xa787); (0xa78b, 0xa78e); (0xa790, 0xa7ca);
    (0xa7d0, 0xa7d1); (0xa7d3, 0xa7d3); (0xa7d5, 0xa7d9); (0xa7f5, 0xa7f6);
    (0xa7f8, 0xa7fa); (0xab30, 0xab5a); (0xab5c, 0xab68); (0xab70, 0xabbf);
    (0xfb00, 0xfb06); (0xfb13, 0xfb17); (0xff21, 0xff3a); (0xff41, 0xff5a);
    (0x10400, 0x1044f); (0x104b0, 0x104d3); (0x104d8, 0x104fb); (0x10570, 0x1057a);
    (0x1057c, 0x1058a); (0x1058c, 0x10592); (0x10594, 0x10595); (0x10597, 0x105a1);
    (0x105a3, 0x105b1); (0x105b3, 0x105b9); (0x105bb, 0x105bc); (0x10780, 0x10780);
    (0x10783, 0x10785); (0x10787, 0x107b0); (0x107b2, 0x107ba); (0x10c80, 0x10cb2);
    (0x10cc0, 0x10cf2); (0x118a0, 0x118df); (0x16e40, 0x16e7f); (0x1d400, 0x1d454);
    (0x1d456, 0x1d49c); (0x1d49e, 0x1d49f); (0x1d4a2, 0x1d4a2); (0x1d4a5, 0x1d4a6);
    (0x1d4a9, 0x1d4ac); (0x1d4ae, 0x1d4b9); (0x1d4bb, 0x1d4bb); (0x1d4bd, 0x1d4c3);
    (0x1d4c5, 0x1d505); (0x1d507, 0x1d50a); (0x1d50d, 0x1d514); (0x1d516, 0x1d51c);
    (0x1d51e, 0x1d539); (0x1d53b, 0x1d53e); (0x1d540, 0x1d544); (0x1d546, 0x1d546);
    (0x1d54a, 0x1d550); (0x1d552, 0x1d6a5); (0x1d6a8, 0x1d6c0); (0x1d6c2, 0x1d6da);
    (0x1d6dc, 0x1d6fa); (0x1d6fc, 0x1d714); (0x1d716, 0x1d734); (0x1d736, 0x1d74e);
    (0x1d750, 0x1d76e); (0x1d770, 0x1d788); (0x1d78a, 0x1d7a8); (0x1d7aa, 0x1d7c2);
    (0x1d7c4, 0x1d7cb); (0x1df00, 0x1df09); (0x1df0b, 0x1df1e); (0x1e900, 0x1e943);
    (0x1f130, 0x1f149); (0x1f150, 0x1f169); (0x1f170, 0x1f189) ].

(** The code points with the property Case_Ignorable, in ranges. *)
Definition Case_Ignorable : list (Z * Z) :=
  [ (0x27, 0x27); (0x2e, 0x2e); (0x3a, 0x3a); (0x5e, 0x5e);
    (0x60, 0x60); (0xa8, 0xa8); (0xad, 0xad); (0xaf, 0xaf);
    (0xb4, 0xb4); (0xb7, 0xb8); (0x2b0, 0x36f); (0x374, 0x375);
    (0x37a, 0x37a); (0x384, 0x385); (0x387, 0x387); (0x483, 0x489);
    (0x559, 0x559); (0x55f, 0x55f); (0x591, 0x5bd); (0x5bf, 0x5bf);
    (0x5c1, 0x5c2); (0x5c4, 0x5c5); (0x5c7, 0x5c7); (0x5f4, 0x5f4);
    (0x600, 0x605); (0x610, 0x61a); (0x61c, 0x61c); (0x640, 0x640);
    (0x64b, 0x65f); (0x670, 0x670); (0x6d6, 0x6dd); (0x6df, 0x6e8);
    (0x6ea, 0x6ed); (0x70f, 0x70f); (0x711, 0x711); (0x730, 0x74a);
    (0x7a6, 0x7b0); (0x7eb, 0x7f5); (0x7fa, 0x7fa); (0x7fd, 0x7fd);
    (0x816, 0x82d); (0x859, 0x85b); (0x888, 0x888); (0x890, 0x891);
    (0x898, 0x89f); (0x8c9, 0x902); (0x93a, 0x93a); (0x93c, 0x93c);
    (0x941, 0x948); (0x94d, 0x94d); (0x951, 0x957); (0x962, 0x963);
    (0x971, 0x971); (0x981, 0x981); (0x9bc, 0x9bc); (0x9c1, 0x9c4);
    (0x9cd, 0x9cd); (0x9e2, 0x9e3); (0x9fe, 0x9fe); (0xa01, 0xa02);
    (0xa3c, 0xa3c); (0xa41, 0xa42); (0xa47, 0xa48); (0xa4b, 0xa4d);
    (0xa51, 0xa51); (0xa70, 0xa71); (0xa75, 0xa75); (0xa81, 0xa82);
    (0xabc, 0xabc); (0xac1, 0xac5); (0xac7, 0xac8); (0xacd, 0xacd);
    (0xae2, 0xae3); (0xafa, 0xaff); (0xb01, 0xb01); (0xb3c, 0xb3c);
    (0xb3f, 0xb3f); (0xb41, 0xb44); (0xb4d, 0xb4d); (0xb55, 0xb56);
    (0xb62, 0xb63); (0xb82, 0xb82); (0xbc0, 0xbc0); (0xbcd, 0xbcd);
    (0xc00, 0xc00); (0xc04, 0xc04); (0xc3c, 0xc3c); (0xc3e, 0xc40);
    (0xc46, 0xc48); (0xc4a, 0xc4d); (0xc55, 0xc56); (0xc62, 0xc63);
    (0xc81, 0xc81); (0xcbc, 0xcbc); (0xcbf, 0xcbf); (0xcc6, 0xcc6);
    (0xccc, 0xccd); (0xce2, 0xce3); (0xd00, 0xd01); (0xd3b, 0xd3c);
    (0xd41, 0xd44); (0xd4d, 0xd4d); (0xd62, 0xd63); (0xd81, 0xd81);
    (0xdca, 0xdca); (0xdd2, 0xdd4); (0xdd6, 0xdd6); (0xe31, 0xe31);
    (0xe34, 0xe3a); (0xe46, 0xe4e); (0xeb1, 0xeb1); (0xeb4, 0xebc);
    (0xec6, 0xec6); (0xec8, 0xecd); (0xf18, 0xf19); (0xf35, 0xf35);
    (0xf37, 0xf37); (0xf39, 0xf39); (0xf71, 0xf7e); (0xf80, 0xf84);
    (0xf86, 0xf87); (0xf8d, 0xf97); (0xf99, 0xfbc); (0xfc6, 0xfc6);
    (0x102d, 0x1030); (0x1032, 0x1037); (0x1039, 0x103a); (0x103d, 0x103e);
    (0x1058, 0x1059); (0x105e, 0x1060); (0x1071, 0x1074); (0x1082, 0x1082);
    (0x1085, 0x1086); (0x108d, 0x108d); (0x109d, 0x109d); (0x10fc, 0x10fc);
    (0x135d, 0x135f); (0x1712, 0x1714); (0x1732, 0x1733); (0x1752, 0x1753);
    (0x1772, 0x1773); (0x17b4, 0x17b5); (0x17b7, 0x17bd); (0x17c6, 0x17c6);
    (0x17c9, 0x17d3); (0x17d7, 0x17d7); (0x17dd, 0x17dd); (0x180b, 0x180f);
    (0x1843, 0x1843); (0x1885, 0x1886); (0x18a9, 0x18a9); (0x1920, 0x1922);
    (0x1927, 0x1928); (0x1932, 0x1932); (0x1939, 0x193b); (0x1a17, 0x1a18);
    (0x1a1b, 0x1a1b); (0x1a56, 0x1a56); (0x1a58, 0x1a5e); (0x1a60, 0x1a60);
    (0x1a62, 0x1a62); (0x1a65, 0x1a6c); (0x1a73, 0x1a7c); (0x1a7f, 0x1a7f);
    (0x1aa7, 0x1aa7); (0x1ab0, 0x1ace); (0x1b00, 0x1b03); (0x1b34, 0x1b34);
    (0x1b36, 0x1b3a); (0x1b3c, 0x1b3c); (0x1b42, 0x1b42); (0x1b6b, 0x1b73);
    (0x1b80, 0x1b81); (0x1ba2, 0x1ba5); (0x1ba8, 0x1ba9); (0x1bab, 0x1bad);
    (0x1be6, 0x1be6); (0x1be8, 0x1be9); (0x1bed, 0x1bed); (0x1bef, 0x1bf1);
    (0x1c2c, 0x1c33); (0x1c36, 0x1c37); (0x1c78, 0x1c7d); (0x1cd0, 0x1cd2);
    (0x1cd4, 0x1ce0); (0x1ce2, 0x1ce8); (0x1ced, 0x1ced); (0x1cf4, 0x1cf4);
    (0x1cf8, 0x1cf9); (0x1d2c, 0x1d6a); (0x1d78, 0x1d78); (0x1d9b, 0x1dff);
    (0x1fbd, 0x1fbd); (0x1fbf, 0x1fc1); (0x1fcd, 0x1fcf); (0x1fdd, 0x1fdf);
    (0x1fed, 0x1fef); (0x1ffd, 0x1ffe); (0x200b, 0x200f); (0x2018, 0x2019);
    (0x2024, 0x2024); (0x2027, 0x2027); (0x202a, 0x202e); (0x2060, 0x2064);
    (0x2066, 0x206f); (0x2071, 0x2071); (0x207f, 0x207f); (0x2090, 0x209c);
    (0x20d0, 0x20f0); (0x2c7c, 0x2c7d); (0x2cef, 0x2cf1); (0x2d6f, 0x2d6f);
    (0x2d7f, 0x2d7f); (0x2de0, 0x2dff); (0x2e2f, 0x2e2f); (0x3005, 0x3005);
    (0x302a, 0x302d); (0x3031, 0x3035); (0x303b, 0x303b); (0x3099, 0x309e);
    (0x30fc, 0x30fe); (0xa015, 0xa015); (0xa4f8, 0xa4fd); (0xa60c, 0xa60c);
    (0xa66f, 0xa672); (0xa674, 0xa67d); (0xa67f, 0xa67f); (0xa69c, 0xa69f);
    (0xa6f0, 0xa6f1); (0xa700, 0xa721); (0xa770, 0xa770); (0xa788, 0xa78a);
    (0xa7f2, 0xa7f4); (0xa7f8, 0xa7f9); (0xa802, 0xa802); (0xa806, 0xa806);
    (0xa80b, 0xa80b); (0xa825, 0xa826); (0xa82c, 0xa82c); (0xa8c4, 0xa8c5);
    (0xa8e0, 0xa8f1); (0xa8ff, 0xa8ff); (0xa926, 0xa92d); (0xa947, 0xa951);
    (0xa980, 0xa982); (0xa9b3, 0xa9b3); (0xa9b6, 0xa9b9); (0xa9bc, 0xa9bd);
    (0xa9cf, 0xa9cf); (0xa9e5, 0xa9e6); (0xaa29, 0xaa2e); (0xaa31, 0xaa32);
    (0xaa35, 0xaa36); (0xaa43, 0xaa43); (0xaa4c, 0xaa4c); (0xaa70, 0xaa70);
    (0xaa7c, 0xaa7c); (0xaab0, 0xaab0); (0xaab2, 0xaab4); (0xaab7, 0xaab8);
    (0xaabe, 0xaabf); (0xaac1, 0xaac1); (0xaadd, 0xaadd); (0xaaec, 0xaaed);
    (0xaaf3, 0xaaf4); (0xaaf6, 0xaaf6); (0xab5b, 0xab5f); (0xab69, 0xab6b);
    (0xabe5, 0xabe5); (0xabe8, 0xabe8); (0xabed, 0xabed); (0xfb1e, 0xfb1e);
    (0xfbb2, 0xfbc2); (0xfe00, 0xfe0f); (0xfe13, 0xfe13); (0xfe20, 0xfe2f);
    (0xfe52, 0xfe52); (0xfe55, 0xfe55); (0xfeff, 0xfeff); (0xff07, 0xff07);
    (0xff0e, 0xff0e); (0xff1a, 0xff1a); (0xff3e, 0xff3e); (0xff40, 0xff40);
    (0xff70, 0xff70); (0xff9e, 0xff9f); (0xffe3, 0xffe3); (0xfff9, 0xfffb);
    (0x101fd, 0x101fd); (0x102e0, 0x102e0); (0x10376, 0x1037a); (0x10780, 0x10785);
    (0x10787, 0x107b0); (0x107b2, 0x107ba); (0x10a01, 0x10a03); (0x10a05, 0x10a06);
    (0x10a0c, 0x10a0f); (0x10a38, 0x10a3a); (0x10a3f, 0x10a3f); (0x10ae5, 0x10ae6);
    (0x10d24, 0x10d27); (0x10eab, 0x10eac); (0x10f46, 0x10f50); (0x10f82, 0x10f85);
    (0x11001, 0x11001); (0x11038, 0x11046); (0x11070, 0x11070); (0x11073, 0x11074);
    (0x1107f, 0x11081); (0x110b3, 0x110b6); (0x110b9, 0x110ba); (0x110bd, 0x110bd);
    (0x110c2, 0x110c2); (0x110cd, 0x110cd); (0x11100, 0x11102); (0x11127, 0x1112b);
    (0x1112d, 0x11134); (0x11173, 0x11173); (0x11180, 0x11181); (0x111b6, 0x111be);
    (0x111c9, 0x111cc); (0x111cf, 0x111cf); (0x1122f, 0x11231); (0x11234, 0x11234);
    (0x11236, 0x11237); (0x1123e, 0x1123e); (0x112df, 0x112df); (0x112e3, 0x112ea);
    (0x11300, 0x11301); (0x1133b, 0x1133c); (0x11340, 0x11340); (0x11366, 0x1136c);
    (0x11370, 0x11374); (0x11438, 0x1143f); (0x11442, 0x11444); (0x11446, 0x11446);
    (0x1145e, 0x1145e); (0x114b3, 0x114b8); (0x114ba, 0x114ba); (0x114bf, 0x114c0);
    (0x114c2, 0x114c3); (0x115b2, 0x115b5); (0x115bc, 0x115bd); (0x115bf, 0x115c0);
    (0x115dc, 0x115dd); (0x11633, 0x1163a); (0x1163d, 0x1163d); (0x1163f, 0x11640);
    (0x116ab, 0x116ab); (0x116ad, 0x116ad); (0x116b0, 0x116b5); (0x116b7, 0x116b7);
    (0x1171d, 0x1171f); (0x11722, 0x11725); (0x11727, 0x1172b); (0x1182f, 0x11837);
    (0x11839, 0x1183a); (0x1193b, 0x1193c); (0x1193e, 0x1193e); (0x11943, 0x11943);
    (0x119d4, 0x119d7); (0x119da, 0x119db); (0x119e0, 0x119e0); (0x11a01, 0x11a0a);
    (0x11a33, 0x11a38); (0x11a3b, 0x11a3e); (0x11a47, 0x11a47); (0x11a51, 0x11a56);
    (0x11a59, 0x11a5b); (0x11a8a, 0x11a96); (0x11a98, 0x11a99); (0x11c30, 0x11c36);
    (0x11c38, 0x11c3d); (0x11c3f, 0x11c3f); (0x11c92, 0x11ca7); (0x11caa, 0x11cb0);
    (0x11cb2, 0x11cb3); (0x11cb5, 0x11cb6); (0x11d31, 0x11d36); (0x11d3a, 0x11d3a);
    (0x11d3c, 0x11d3d); (0x11d3f, 0x11d45); (0x11d47, 0x11d47); (0x11d90, 0x11d91);
    (0x11d95, 0x11d95); (0x11d97, 0x11d97); (0x11ef3, 0x11ef4); (0x13430, 0x13438);
    (0x16af0, 0x16af4); (0x16b30, 0x16b36); (0x16b40, 0x16b43); (0x16f4f, 0x16f4f);
    (0x16f8f, 0x16f9f); (0x16fe0, 0x16fe1); (0x16fe3, 0x16fe4); (0x1aff0, 0x1aff3);
    (0x1aff5, 0x1affb); (0x1affd, 0x1affe); (0x1bc9d, 0x1bc9e); (0x1bca0, 0x1bca3);
    (0x1cf00, 0x1cf2d); (0x1cf30, 0x1cf46); (0x1d167, 0x1d169); (0x1d173, 0x1d182);
    (0x1d185, 0x1d18b); (0x1d1aa, 0x1d1ad); (0x1d242, 0x1d244); (0x1da00, 0x1da36);
    (0x1da3b, 0x1da6c); (0x1da75, 0x1da75); (0x1da84, 0x1da84); (0x1da9b, 0x1da9f);
    (0x1daa1, 0x1daaf); (0x1e000, 0x1e006); (0x1e008, 0x1e018); (0x1e01b, 0x1e021);
    (0x1e023, 0x1e024); (0x1e026, 0x1e02a); (0x1e130, 0x1e13d); (0x1e2ae, 0x1e2ae);
    (0x1e2ec, 0x1e2ef); (0x1e8d0, 0x1e8d6); (0x1e944, 0x1e94b); (0x1f3fb, 0x1f3ff);
    (0xe0001, 0xe0001); (0xe0020, 0xe007f); (0xe0100, 0xe01ef) ].

Definition in_ranges (ranges : list (Z * Z)) (c : Z) : bool :=
  existsb (λ r, (r.1 <=? c) && (c <=? r.2)) ranges.

(** The full lower-case mapping of a code point other than U+03A3. *)
Definition to_lower (c : Z) : str :=
  if c =? 0x130 then [0x69; 0x307]
  else
    match find (λ '(first, last, step, _),
                  (first <=? c) && (c <=? last) && ((c - first) mod step =? 0))
            lower_runs with
    | Some (_, _, _, offset) => [c + offset]
    | None => [c]
    end.

Fixpoint skip_case_ignorable (s : str) : str :=
  match s with
  | [] => []
  | c :: s' => if in_ranges Case_Ignorable c then skip_case_ignorable s' else s
  end.

(** Whether a capital sigma is in final position: the nearest code point
    before it that is not case-ignorable is cased, and the nearest such
    code point after it, if any, is not.  [before] holds the code points
    before the sigma, the nearest first. *)
Definition final_sigma (before after : str) : bool :=
  match skip_case_ignorable before with
  | [] => false
  | c :: _ =>
      in_ranges Cased c &&
      match skip_case_ignorable after with
      | [] => true
      | c' :: _ => negb (in_ranges Cased c')
      end
  end.

Fixpoint lower_from (before s : str) : str :=
  match s with
  | [] => []
  | c :: s' =>
      (if c =? 0x3a3 then [if final_sigma before s' then 0x3c2 else 0x3c3]
       else to_lower c) ++ lower_from (c :: before) s'
  end.

(** [s.lower()] *)
Definition lower (s : str) : str := lower_from [] s.

(** [s.replace(a, b)] for one-character [a] and [b]. *)
Definition replace (a b : Z) (s : str) : str :=
  (λ c, if c =? a then b else c) <$> s.

(** [s[-1]], which raises [IndexError] on the empty string. *)
Definition last_char (s : str) : option str :=
  match reverse s with
  | [] => None
  | c :: _ => Some [c]
  end.

(** Truthiness of an [int]. *)
Definition truthy (n : Z) : bool := negb (n =? 0).

(** A dict display [{k1: v1, k2: v2, ...}]: the items are inserted from
    left to right, so a repeated key keeps its last value. *)
Definition dict_display `{Countable K} {V} (items : list (K * V)) : gmap K V :=
  fold_left (λ m kv, <[kv.1 := kv.2]> m) items ∅.

(** [d.get(k, default)] *)
Definition get `{Countable K} {V} (d : gmap K V) (k : K) (default : V) : V :=
  match d !! k with
  | Some v => v
  | None => default
  end.

(** [str(n)] for an [int], as used by f-string fields. *)
Definition str_of_int (n : Z) : str := u (pretty n).

End Py.

Import Py.

(** ** Constants and tables of [_win_raw_input.py] *)

Definition RID_INPUT : Z := 0x10000003.
Definition RIDEV_INPUTSINK : Z := 0x00000100.
Definition MAPVK_VK_TO_VSC : Z := 0.
Definition RIDI_DEVICENAME : Z := 0x20000007.
Definition RIDI_DEVICEINFO : Z := 0x2000000b.
Definition WM_INPUT : Z := 0x00FF.
Definition WM_KEYDOWN : Z := 0x0100.
Definition WM_KEYUP : Z := 0x0101.
Definition WM_SYSKEYDOWN : Z := 0x104.
Definition WM_SYSKEYUP : Z := 0x105.

(** The items of the [VIRTUAL_KEYBOARD] display, in source order (the
    virtual-key codes 0x15 and 0x19 are written more than once). *)
Definition VIRTUAL_KEYBOARD_items : list (Z * (list Z * bool)) :=
  [ (0x03, (u "control-break processing", false));
    (0x08, (u "backspace", false));
    (0x09, (u "tab", false));
    (0x0c, (u "clear", false));
    (0x0d, (u "enter", false));
    (0x10, (u "shift", false));
    (0x11, (u "ctrl", false));
    (0x12, (u "alt", false));
    (0x13, (u "pause", false));
    (0x14, (u "caps lock", false));
    (0x15, (u "ime kana mode", false));
    (0x15, (u "ime hanguel mode", false));
    (0x15, (u "ime hangul mode", false));
    (0x17, (u "ime junja mode", false));
    (0x18, (u "ime final mode", false));
    (0x19, (u "ime hanja mode", false));
    (0x19, (u "ime kanji mode", false));
    (0x1b, (u "esc", false));
    (0x1c, (u "ime convert", false));
    (0x1d, (u "ime nonconvert", false));
    (0x1e, (u "ime accept", false));
    (0x1f, (u "ime mode change request", false));
    (0x20, (u "spacebar", false));
    (0x21, (u "page up", false));
    (0x22, (u "page down", false));
    (0x23, (u "end", false));
    (0x24, (u "home", false));
    (0x25, (u "left", false));
    (0x26, (u "up", false));
    (0x27, (u "right", false));
    (0x28, (u "down", false));
    (0x29, (u "select", false));
    (0x2a, (u "print", false));
    (0x2b, (u "execute", false));
    (0x2c, (u "print screen", false));
    (0x2d, (u "insert", false));
    (0x2e, (u "delete", false));
    (0x2f, (u "help", false));
    (0x30, (u "0", false));
    (0x31, (u "1", false));
    (0x32, (u "2", false));
    (0x33, (u "3", false));
    (0x34, (u "4", false));
    (0x35, (u "5", false));
    (0x36, (u "6", false));
    (0x37, (u "7", false));
    (0x38, (u "8", false));
    (0x39, (u "9", false));
    (0x41, (u "a", false));
    (0x42, (u "b", false));
    (0x43, (u "c", false));
    (0x44, (u "d", false));
    (0x45, (u "e", false));
    (0x46, (u "f", false));
    (0x47, (u "g", false));
    (0x48, (u "h", false));
    (0x49, (u "i", false));
    (0x4a, (u "j", false));
    (0x4b, (u "k", false));
    (0x4c, (u "l", false));
    (0x4d, (u "m", false));
    (0x4e, (u "n", false));
    (0x4f, (u "o", false));
    (0x50, (u "p", false));
    (0x51, (u "q", false));
    (0x52, (u "r", false));
    (0x53, (u "s", false));
    (0x54, (u "t", false));
    (0x55, (u "u", false));
    (0x56, (u "v", false));
    (0x57, (u "w", false));
    (0x58, (u "x", false));
    (0x59, (u "y", false));
    (0x5a, (u "z", false));
    (0x5b, (u "left windows", false));
    (0x5c, (u "right windows", false));
    (0x5d, (u "applications", false));
    (0x5f, (u "sleep", false));
    (0x60, (u "0", true));
    (0x61, (u "1", true));
    (0x62, (u "2", true));
    (0x63, (u "3", true));
    (0x64, (u "4", true));
    (0x65, (u "5", true));
    (0x66, (u "6", true));
    (0x67, (u "7", true));
    (0x68, (u "8", true));
    (0x69, (u "9", true));
    (0x6a, (u "*", true));
    (0x6b, (u "+", true));
    (0x6c, (u "separator", true));
    (0x6d, (u "-", true));
    (0x6e, (u "decimal", true));
    (0x6f, (u "/", true));
    (0x70, (u "f1", false));
    (0x71, (u "f2", false));
    (0x72, (u "f3", false));
    (0x73, (u "f4", false));
    (0x74, (u "f5", false));
    (0x75, (u "f6", false));
    (0x76, (u "f7", false));
    (0x77, (u "f8", false));
    (0x78, (u "f9", false));
    (0x79, (u "f10", false));
    (0x7a, (u "f11", false));
    (0x7b, (u "f12", false));
    (0x7c, (u "f13", false));
    (0x7d, (u "f14", false));
    (0x7e, (u "f15", false));
    (0x7f, (u "f16", false));
    (0x80, (u "f17", false));
    (0x81, (u "f18", false));
    (0x82, (u "f19", false));
    (0x83, (u "f20", false));
    (0x84, (u "f21", false));
    (0x85, (u "f22", false));
    (0x86, (u "f23", false));
    (0x87, (u "f24", false));
    (0x90, (u "num lock", true));
    (0x91, (u "scroll lock", false));
    (0xa0, (u "left shift", false));
    (0xa1, (u "right shift", false));
    (0xa2, (u "left ctrl", false));
    (0xa3, (u "right ctrl", false));
    (0xa4, (u "left menu", false));
    (0xa5, (u "right menu", false));
    (0xa6, (u "browser back", false));
    (0xa7, (u "browser forward", false));
    (0xa8, (u "browser refresh", false));
    (0xa9, (u "browser stop", false));
    (0xaa, (u "browser search key ", false));
    (0xab, (u "browser favorites", false));
    (0xac, (u "browser start and home", false));
    (0xad, (u "volume mute", false));
    (0xae, (u "volume down", false));
    (0xaf, (u "volume up", false));
    (0xb0, (u "next track", false));
    (0xb1, (u "previous track", false));
    (0xb2, (u "stop media", false));
    (0xb3, (u "play/pause media", false));
    (0xb4, (u "start mail", false));
    (0xb5, (u "select media", false));
    (0xb6, (u "start application 1", false));
    (0xb7, (u "start application 2", false));
    (0xbb, (u "+", false));
    (0xbc, (u ",", false));
    (0xbd, (u "-", false));
    (0xbe, (u ".", false));
    (0xe5, (u "ime process", false));
    (0xf6, (u "attn", false));
    (0xf7, (u "crsel", false));
    (0xf8, (u "exsel", false));
    (0xf9, (u "erase eof", false));
    (0xfa, (u "play", false));
    (0xfb, (u "zoom", false));
    (0xfc, (u "reserved ", false));
    (0xfd, (u "pa1", false));
    (0xfe, (u "clear", false)) ].

Definition VIRTUAL_KEYBOARD : gmap Z (str * bool) :=
  dict_display VIRTUAL_KEYBOARD_items.

Definition canonical_names_items : list (list Z * list Z) :=
  [ (u "escape", u "esc");
    (u "return", u "enter");
    (u "del", u "delete");
    (u "control", u "ctrl");
    (u "altgr", u "alt gr");
    (u "left arrow", u "left");
    (u "up arrow", u "up");
    (u "down arrow", u "down");
    (u "right arrow", u "right");
    (u " ", u "space");
    ([0x1b], u "esc");
    ([0x8], u "backspace");
    ([0xa], u "enter");
    ([0x9], u "tab");
    ([0xd], u "enter");
    (u "scrlk", u "scroll lock");
    (u "prtscn", u "print screen");
    (u "prnt scrn", u "print screen");
    (u "snapshot", u "print screen");
    (u "ins", u "insert");
    (u "pause break", u "pause");
    (u "ctrll lock", u "caps lock");
    (u "capslock", u "caps lock");
    (u "number lock", u "num lock");
    (u "numlock:", u "num lock");
    (u "space bar", u "space");
    (u "spacebar", u "space");
    (u "linefeed", u "enter");
    (u "win", u "windows");
    (u "app", u "menu");
    (u "apps", u "menu");
    (u "application", u "menu");
    (u "applications", u "menu");
    (u "pagedown", u "page down");
    (u "pageup", u "page up");
    (u "pgdown", u "page down");
    (u "pgup", u "page up");
    (u "next", u "page down");
    (u "prior", u "page up");
    (u "underscore", u "_");
    (u "equal", u "=");
    (u "minplus", u "+");
    (u "plus", u "+");
    (u "add", u "+");
    (u "subtract", u "-");
    (u "minus", u "-");
    (u "multiply", u "*");
    (u "asterisk", u "*");
    (u "divide", u "/");
    (u "question", u "?");
    (u "exclam", u "!");
    (u "slash", u "/");
    (u "bar", u "|");
    (u "backslash", [0x5c]);
    (u "braceleft", u "{");
    (u "braceright", u "}");
    (u "bracketleft", u "[");
    (u "bracketright", u "]");
    (u "parenleft", u "(");
    (u "parenright", u ")");
    (u "period", u ".");
    (u "dot", u ".");
    (u "comma", u ",");
    (u "semicolon", u ";");
    (u "colon", u ":");
    (u "less", u "<");
    (u "greater", u ">");
    (u "ampersand", u "&");
    (u "at", u "@");
    (u "numbersign", u "#");
    (u "hash", u "#");
    (u "hashtag", u "#");
    (u "dollar", u "$");
    (u "sterling", [0xa3]);
    (u "pound", [0xa3]);
    (u "yen", [0xa5]);
    (u "euro", [0x20ac]);
    (u "cent", [0xa2]);
    (u "currency", [0xa4]);
    (u "registered", [0xae]);
    (u "copyright", [0xa9]);
    (u "notsign", [0xac]);
    (u "percent", u "%");
    (u "diaeresis", [0x22]);
    (u "quotedbl", [0x22]);
    (u "onesuperior", [0xb9]);
    (u "twosuperior", [0xb2]);
    (u "threesuperior", [0xb3]);
    (u "onehalf", [0xbd]);
    (u "onequarter", [0xbc]);
    (u "threequarters", [0xbe]);
    (u "paragraph", [0xb6]);
    (u "section", [0xa7]);
    (u "ssharp", [0xa7]);
    (u "division", [0xf7]);
    (u "questiondown", [0xbf]);
    (u "exclamdown", [0xa1]);
    (u "degree", [0xb0]);
    (u "guillemotright", [0xbb]);
    (u "guillemotleft", [0xab]);
    (u "acute", [0xb4]);
    (u "agudo", [0xb4]);
    (u "grave", u "`");
    (u "tilde", u "~");
    (u "asciitilde", u "~");
    (u "til", u "~");
    (u "cedilla", u ",");
    (u "circumflex", u "^");
    (u "apostrophe", u "'");
    (u "adiaeresis", [0xe4]);
    (u "udiaeresis", [0xfc]);
    (u "odiaeresis", [0xf6]);
    (u "oe", [0x152]);
    (u "oslash", [0xf8]);
    (u "ooblique", [0xd8]);
    (u "ccedilla", [0xe7]);
    (u "ntilde", [0xf1]);
    (u "eacute", [0xe9]);
    (u "uacute", [0xfa]);
    (u "oacute", [0xf3]);
    (u "thorn", [0xfe]);
    (u "ae", [0xe6]);
    (u "eth", [0xf0]);
    (u "masculine", [0xba]);
    (u "feminine", [0xaa]);
    (u "iacute", [0xed]);
    (u "aacute", [0xe1]);
    (u "mu", [0x39c]);
    (u "aring", [0xe5]);
    (u "zero", u "0");
    (u "one", u "1");
    (u "two", u "2");
    (u "three", u "3");
    (u "four", u "4");
    (u "five", u "5");
    (u "six", u "6");
    (u "seven", u "7");
    (u "eight", u "8");
    (u "nine", u "9");
    (u "play/pause", u "play/pause media");
    (u "num multiply", u "*");
    (u "num divide", u "/");
    (u "num add", u "+");
    (u "num plus", u "+");
    (u "num minus", u "-");
    (u "num sub", u "-");
    (u "num enter", u "enter");
    (u "num 0", u "0");
    (u "num 1", u "1");
    (u "num 2", u "2");
    (u "num 3", u "3");
    (u "num 4", u "4");
    (u "num 5", u "5");
    (u "num 6", u "6");
    (u "num 7", u "7");
    (u "num 8", u "8");
    (u "num 9", u "9");
    (u "left win", u "left windows");
    (u "right win", u "right windows");
    (u "left control", u "left ctrl");
    (u "right control", u "right ctrl");
    (u "left menu", u "left alt") ].

Definition canonical_names : gmap str str :=
  dict_display canonical_names_items.

Definition normalize_name (name : str) : str :=
  match name with
  | [] => u "unknown"
  | _ =>
      let name := lower name in
      let name := if decide (name ≠ u "_") then replace 0x5f 0x20 name else name in
      get canonical_names name name
  end.


Definition MOUSE_BUTTONS : gmap Z (str * Z * str) :=
  dict_display
    [ (1, (u "down", 1, u "left"));
      (2, (u "up", 1, u "left"));
      (4, (u "down", 3, u "right"));
      (8, (u "up", 3, u "right"));
      (16, (u "down", 2, u "middle"));
      (32, (u "up", 2, u "middle"));
      (64, (u "down", 4, u "thumb1"));
      (128, (u "up", 4, u "thumb1"));
      (256, (u "down", 5, u "thumb2"));
      (512, (u "up", 5, u "thumb2"));
      (7865344, (u "wheel-up", 2, u "wheel"));
      (4287104000, (u "wheel-down", 2, u "wheel")) ].

Definition KEY_EVENT_TYPE : gmap Z str :=
  dict_display [ (256, u "down"); (257, u "up"); (260, u "down") ].

Definition MOUSE_TYPES : gmap Z str :=
  dict_display
    [ (0x0080, u "HID mouse");
      (0x0100, u "HID wheel mouse");
      (0x8000, u "Mouse with horizontal wheel") ].

Definition KEYBOARD_TYPES : gmap Z str :=
  dict_display
    [ (0x4, u "Enhanced 101- or 102-key keyboards (and compatibles)");
      (0x7, u "Japanese Keyboard");
      (0x8, u "Korean Keyboard");
      (0x51, u "Unknown type or HID keyboard") ].

Definition GENERIC_DESKTOP_CONTROLS_PAGE_items : list (Z * str) :=
  [ (0x01, u "Pointer");
    (0x02, u "Mouse");
    (0x04, u "Joystick");
    (0x05, u "Game Pad");
    (0x06, u "Keyboard");
    (0x07, u "Keypad");
    (0x08, u "Multi-axis Controller") ].

Definition GENERIC_DESKTOP_CONTROLS_PAGE : gmap Z str :=
  dict_display GENERIC_DESKTOP_CONTROLS_PAGE_items.

(** [{v.lower(): (1, k) for k, v in GENERIC_DESKTOP_CONTROLS_PAGE.items()}] *)
Definition USAGE_NAME_TO_VALUE : gmap str (Z * Z) :=
  dict_display ((λ kv, (lower kv.2, (1, kv.1))) <$> GENERIC_DESKTOP_CONTROLS_PAGE_items).

Definition USAGE_PAGE_NAMES : gmap Z (str * gmap Z str) :=
  dict_display
    [ (0x01, (u "Generic Desktop Controls", GENERIC_DESKTOP_CONTROLS_PAGE));
      (0x05, (u "Game Controls", ∅));
      (0x08, (u "LEDs", ∅));
      (0x09, (u "Button", ∅)) ].

(** ** ctypes structures

    A [HANDLE] or [HWND] field is read back as an [int], or as [None] when
    it is null.  A union is represented by the views the code reads; that
    the views share their storage is not represented, so every statement
    below holds for arbitrary views. *)

Abbreviation HANDLE := (option Z).

Module RAWINPUTDEVICELIST.
Record t := { hDevice : HANDLE; dwType : Z }.
End RAWINPUTDEVICELIST.

Module RAWINPUTHEADER.
Record t := { dwType : Z; dwSize : Z; hDevice : HANDLE; wParam : Z }.
End RAWINPUTHEADER.

Module RAWMOUSE.
Record t := {
  usFlags : Z;
  ulButtons : Z;
  ulRawButtons : Z;
  lLastX : Z;
  lLastY : Z;
  ulExtraInformation : Z }.
End RAWMOUSE.

Module RAWKEYBOARD.
Record t := {
  scan_code : Z;
  flags : Z;
  reserved : Z;
  vk_code : Z;
  message : Z;
  dwExtraInfo : Z }.
End RAWKEYBOARD.

(** [bRawData] is declared as [BYTE * 1]; the decoder reads through a
    pointer to it, so the field stands for the bytes of the [RAWINPUT]
    object from the address of [bRawData] to the end of the object. *)
Module RAWHID.
Record t := { dwSizeHid : Z; dwCount : Z; bRawData : list Byte.byte }.
End RAWHID.

Module RAWINPUT.
Record t := {
  header : RAWINPUTHEADER.t;
  mouse : RAWMOUSE.t;
  keyboard : RAWKEYBOARD.t;
  hid : RAWHID.t }.
(** [sizeof(RAWINPUT)]: a header of 24 bytes and a union of 24 bytes, the
    layout for which the asserted payload sizes 40 and 48 are right. *)
Definition sizeof : Z := 48.
(** The offset of [data.hid.bRawData] in the object. *)
Definition offsetof_bRawData : Z := 32.
(** The bytes of a [RAWINPUT()] object from [bRawData] to its end: what
    was written there, in an object that was created zeroed. *)
Definition tail (raw : t) : list Byte.byte :=
  take (Z.to_nat (sizeof - offsetof_bRawData))
    (RAWHID.bRawData (hid raw)
       ++ replicate (Z.to_nat (sizeof - offsetof_bRawData)) Byte.x00).
End RAWINPUT.

Module RID_DEVICE_INFO_MOUSE.
Record t := {
  dwId : Z;
  dwNumberOfButtons : Z;
  dwSampleRate : Z;
  fHasHorizontalWheel : Z }.
End RID_DEVICE_INFO_MOUSE.

Module RID_DEVICE_INFO_KEYBOARD.
Record t := {
  dwType : Z;
  dwSubType : Z;
  dwKeyboardMode : Z;
  dwNumberOfFunctionKeys : Z;
  dwNumberOfIndicators : Z;
  dwNumberOfKeysTotal : Z }.
End RID_DEVICE_INFO_KEYBOARD.

Module RID_DEVICE_INFO_HID.
Record t := {
  dwVendorId : Z;
  dwProductId : Z;
  dwVersionNumber : Z;
  usUsagePage : Z;
  usUsage : Z }.
End RID_DEVICE_INFO_HID.

Module RID_DEVICE_INFO.
Record t := {
  cbSize : Z;
  dwType : Z;
  mouse : RID_DEVICE_INFO_MOUSE.t;
  keyboard : RID_DEVICE_INFO_KEYBOARD.t;
  hid : RID_DEVICE_INFO_HID.t }.
(** [RID_DEVICE_INFO()]: a zero-initialised structure. *)
Definition zero : t :=
  {| cbSize := 0; dwType := 0;
     mouse := RID_DEVICE_INFO_MOUSE.Build_t 0 0 0 0;
     keyboard := RID_DEVICE_INFO_KEYBOARD.Build_t 0 0 0 0 0 0;
     hid := RID_DEVICE_INFO_HID.Build_t 0 0 0 0 0 |}.
End RID_DEVICE_INFO.

(** ** Data classes of [_api.py] *)

Inductive RawInputDevice :=
| Mouse (handle : HANDLE) (name : str) (mouse_type : str) (num_buttons : Z)
    (sample_rate : option Z) (has_horizontal_wheel : bool)
| Keyboard (handle : HANDLE) (name : str) (keyboard_type : str) (subtype : Z)
    (scan_code_mode : Z) (num_function_keys : Z) (num_indicators : Z) (num_keys : Z)
| HID (handle : HANDLE) (name : str) (vendor_id : Z) (product_id : Z)
    (version_number : Z) (usage_page : Z) (usage_page_name : str) (usage : Z)
    (usage_name : str).

(** [d.handle] *)
Definition handle (d : RawInputDevice) : HANDLE :=
  match d with
  | Mouse h _ _ _ _ _ | Keyboard h _ _ _ _ _ _ _ | HID h _ _ _ _ _ _ _ _ => h
  end.

Module RawInputEvent.
Record t := {
  event_type : str;
  code : Z;
  name : option str;
  device_type : str;
  device : RawInputDevice;
  delta_x : option Z;
  delta_y : option Z;
  hwnd : HANDLE;
  (** the reading of [time.perf_counter()], carried unchanged *)
  time : Z;
  data : option (list Byte.byte) }.
End RawInputEvent.

(** ** Exceptions, state and effects *)

(** The exceptions raised, and [Undefined_read]: not an exception but a
    read of memory outside the object read from, whose result the program
    does not determine. *)
Inductive exn :=
| WinError (code : Z)
| AssertionError
| NotImplementedError
| KeyError
| IndexError
| RuntimeError
| NameError
| TypeError
| ArgumentError
| Undefined_read.

Inductive outcome (A : Type) :=
| Ok (a : A)
| Raise (e : exn).
Arguments Ok {A} a.
Arguments Raise {A} e.

#[global] Instance outcome_ret : MRet outcome := λ A a, Ok a.
#[global] Instance outcome_bind : MBind outcome :=
  λ A B k m, match m with Ok a => k a | Raise e => Raise e end.

(** [d[k]], raising [KeyError] for a missing key. *)
Definition subscript `{Countable K} {V} (d : gmap K V) (k : K) : outcome V :=
  match d !! k with
  | Some v => Ok v
  | None => Raise KeyError
  end.

(** [assert b] (assertions enabled) *)
Definition assert (b : bool) : outcome () :=
  if b then Ok () else Raise AssertionError.

(** A loop with an accumulator whose body may raise. *)
Fixpoint foldlM {A B} (f : A → B → outcome A) (l : list B) (a : A) : outcome A :=
  match l with
  | [] => Ok a
  | x :: l' => a' ← f a x; foldlM f l' a'
  end.

(** A callback registered through [hook_raw_input_for_window]: it returns
    or raises. *)
Abbreviation Callback := (RawInputEvent.t → outcome ()).

(** Functions handed over as values are represented by their code and the
    variables they close over.  A [procedure] is the inner function
    [process_message] of [hook_raw_input_for_window], closed over
    [callback], the only one that the two modules pass, or a callable of
    the caller, which returns or raises. *)
Inductive Procedure :=
| hook_process_message (callback : Callback)
| callable (f : HANDLE → Z → Z → Z → outcome ()).

(** A window procedure made by [WNDPROCTYPE]: the inner function
    [process_message] of [set_window_procedure], closed over [procedure]
    and [call_original] (and over [prevWndProc], which is bound when
    [SetWindowLongPtrA] has returned), or the inner function
    [actual_procedure] of [invisible_window], closed over [procedure]. *)
Inductive WNDPROC :=
| set_window_procedure_process_message_of (procedure : Procedure) (call_original : bool)
| invisible_window_actual_procedure_of (procedure : Procedure).

(** What the code does to the outside world, in the order it does it:
    calls into the platform and calls of the user's callback. *)
Inductive Effect :=
| OS_GetRawInputDeviceList (with_buffer : bool)
| OS_GetRawInputDeviceInfoW (hDevice : HANDLE) (uiCommand : Z) (with_buffer : bool)
| OS_GetRawInputData (lParam : Z) (with_buffer : bool)
| OS_SetWindowLongPtrA (hwnd : HANDLE) (new_window_procedure : WNDPROC)
| OS_CallWindowProc (prevWndProc : Z) (hwnd : HANDLE) (msg wParam lParam : Z)
| OS_DefWindowProcA (hwnd : HANDLE) (msg wParam lParam : Z)
| OS_RegisterClassExW (lpfnWndProc : WNDPROC)
| OS_CreateWindowExW
| OS_RegisterRawInputDevices (us_usage_page us_usage dw_flags : Z) (hwnd_target : HANDLE)
| Call_callback (event : RawInputEvent.t).

(** The objects kept alive in [_REGISTERED_PROCEDURES_REFS]: window
    procedures, and window classes with their [lpfnWndProc]. *)
Inductive Registered :=
| new_window_procedure (procedure : WNDPROC)
| window_class (lpfnWndProc : WNDPROC).

(** The module-level mutable state, the thread's last-error code and the
    effects performed so far. *)
Record State := {
  CACHED_DEVICES : gmap HANDLE RawInputDevice;
  _REGISTERED_PROCEDURES_REFS : list Registered;
  last_error : Z;
  trace : list Effect }.

Definition M (A : Type) : Type := State → outcome A * State.

#[global] Instance M_ret : MRet M := λ A a s, (Ok a, s).
#[global] Instance M_bind : MBind M :=
  λ A B k m s, match m s with
               | (Ok a, s') => k a s'
               | (Raise e, s') => (Raise e, s')
               end.

Definition raise {A} (e : exn) : M A := λ s, (Raise e, s).

Definition lift {A} (o : outcome A) : M A := λ s, (o, s).

Definition get_cache : M (gmap HANDLE RawInputDevice) :=
  λ s, (Ok (CACHED_DEVICES s), s).

Definition set_cache (c : gmap HANDLE RawInputDevice) : M () :=
  λ s, (Ok (), {| CACHED_DEVICES := c;
                  _REGISTERED_PROCEDURES_REFS := _REGISTERED_PROCEDURES_REFS s;
                  last_error := last_error s;
                  trace := trace s |}).

Definition keep_alive (r : Registered) : M () :=
  λ s, (Ok (), {| CACHED_DEVICES := CACHED_DEVICES s;
                  _REGISTERED_PROCEDURES_REFS := _REGISTERED_PROCEDURES_REFS s ++ [r];
                  last_error := last_error s;
                  trace := trace s |}).

(** The state after one more effect. *)
Definition performed (e : Effect) (s : State) : State :=
  {| CACHED_DEVICES := CACHED_DEVICES s;
     _REGISTERED_PROCEDURES_REFS := _REGISTERED_PROCEDURES_REFS s;
     last_error := last_error s;
     trace := trace s ++ [e] |}.

Definition log (e : Effect) : M () := λ s, (Ok (), performed e s).

(** The events handed to the callback so far, oldest first. *)
Definition callbacks (s : State) : list RawInputEvent.t :=
  omap (λ e, match e with Call_callback event => Some event | _ => None end) (trace s).

(** The platform calls made so far, oldest first. *)
Definition platform_calls (s : State) : list Effect :=
  omap (λ e, match e with Call_callback _ => None | _ => Some e end) (trace s).

Definition GetLastError : M Z := λ s, (Ok (last_error s), s).

(** [[f(x) for x in l]] *)
Fixpoint comprehension {A B} (f : A → M B) (l : list A) : M (list B) :=
  match l with
  | [] => mret []
  | x :: l' => y ← f x; ys ← comprehension f l'; mret (y :: ys)
  end.

(** [for x in l: f(x)] *)
Fixpoint for_each {A} (f : A → M ()) (l : list A) : M () :=
  match l with
  | [] => mret ()
  | x :: l' => f x;; for_each f l'
  end.

(** ** The platform

    What a platform call answers: its return value, what it stores through
    its output pointers, and the last-error code of the thread afterwards. *)
Record Resp (A : Type) := { ret : Z; out : A; err : Z }.
Arguments ret {A} r.
Arguments out {A} r.
Arguments err {A} r.

(** The answers of the platform. *)
Record Platform := {
  (** [GetRawInputDeviceList(None, count, size)]: the device count *)
  GetRawInputDeviceList_count : Resp Z;
  (** [GetRawInputDeviceList(devices, count, size)]: the entries written *)
  GetRawInputDeviceList_fill : Z → Resp (list RAWINPUTDEVICELIST.t);
  (** [GetRawInputDeviceInfoW(h, command, None, size)]: the size *)
  GetRawInputDeviceInfoW_size : HANDLE → Z → Resp Z;
  (** [GetRawInputDeviceInfoW(h, RIDI_DEVICEINFO, buffer, size)] *)
  GetRawInputDeviceInfoW_info : HANDLE → Resp RID_DEVICE_INFO.t;
  (** [GetRawInputData(lParam, RID_INPUT, NULL, dwSize, ...)]: the size *)
  GetRawInputData_size : Z → Resp Z;
  (** [GetRawInputData(lParam, RID_INPUT, raw, dwSize, ...)], given the
      value of [dwSize] before the call: its value after, and [raw] *)
  GetRawInputData_data : Z → Z → Resp (Z * RAWINPUT.t);
  perf_counter : Z;
  SetWindowLongPtrA : HANDLE → Resp ();
  CallWindowProc : Z → HANDLE → Z → Z → Z → Z;
  DefWindowProcA : HANDLE → Z → Z → Z → Z;
  RegisterClassExW : Resp ();
  CreateWindowExW : Resp HANDLE;
  RegisterRawInputDevices : Z → Z → Z → HANDLE → Resp ();
  MapVirtualKey : Z → Z → Z;
  (** [GetKeyNameText(lParam, buffer, 1024)], given the buffer before the
      call: the return value and the buffer after *)
  GetKeyNameText : Z → list Z → Z * list Z;
  (** [ToUnicode(vk, scan_code, keyboard_state, buffer, size, 0)] *)
  ToUnicode : Z → Z → list Z → list Z → Z → Z → Z * list Z }.

(** A platform call: it is logged, sets the last-error code, and gives its
    return value and outputs. *)
Definition os_call {A} (e : Effect) (r : Resp A) : M (Z * A) :=
  λ s, (Ok (ret r, out r),
        {| CACHED_DEVICES := CACHED_DEVICES s;
           _REGISTERED_PROCEDURES_REFS := _REGISTERED_PROCEDURES_REFS s;
           last_error := err r;
           trace := trace s ++ [e] |}).

(** [raise ctypes.WinError(GetLastError())] and [raise ctypes.WinError()] *)
Definition raise_WinError {A} : M A := code ← GetLastError; raise (WinError code).

(** [get_device_name(handle)], as [get_device] writes it.  Neither module
    binds the name [get_device_name] ([_win_raw_input.py], whose names
    [_api.py] imports, defines [get_device_path]), so evaluating the call
    raises [NameError] before anything is called. *)
Definition get_device_name (handle : HANDLE) : M str := raise NameError.

(** ** The functions of [_win_raw_input.py] *)

Section WithPlatform.
Context (os : Platform).

(** [buffer.value] of a wide-character buffer: the characters before the
    first NUL. *)
Fixpoint value (buffer : list Z) : str :=
  match buffer with
  | [] => []
  | c :: buffer' => if c =? 0 then [] else c :: value buffer'
  end.

(** The first loop of [_create_key_name_tables]: one virtual key per scan
    code, an officially defined one when there is one. *)
Definition scan_code_to_vk_table : gmap Z Z :=
  fold_left
    (λ scan_code_to_vk vk,
       let scan_code := MapVirtualKey os vk MAPVK_VK_TO_VSC in
       if negb (truthy scan_code) then scan_code_to_vk
       else if decide (is_Some (VIRTUAL_KEYBOARD !! get scan_code_to_vk scan_code 0))
            then scan_code_to_vk
            else <[scan_code := vk]> scan_code_to_vk)
    (seqZ 0x01 (0x100 - 0x01)) ∅.

(** The body of the second loop for one scan code; the name buffer is
    shared by all iterations. *)
Definition key_names_for_scan_code (scan_code_to_vk : gmap Z Z)
    (acc : gmap Z (str * str) * list Z) (scan_code : Z)
  : outcome (gmap Z (str * str) * list Z) :=
  let '(key_names_by_scan_code, name_buffer) := acc in
  let key_names_by_scan_code :=
    <[scan_code := (u "unknown", u "unknown")]> key_names_by_scan_code in
  let '(key_names_by_scan_code, name_buffer) :=
    fold_left
      (λ '(key_names_by_scan_code, name_buffer) enhanced,
         let '(ret, name_buffer) :=
           GetKeyNameText os (Z.lor (scan_code ≪ 16) (enhanced ≪ 24)) name_buffer in
         if negb (truthy ret) then (key_names_by_scan_code, name_buffer)
         else
           let name := normalize_name (value name_buffer) in
           (<[scan_code := (name, name)]> key_names_by_scan_code, name_buffer))
      [1; 0] (key_names_by_scan_code, name_buffer) in
  if decide (scan_code_to_vk !! scan_code = None)
  then Ok (key_names_by_scan_code, name_buffer)
  else
    foldlM
      (λ '(key_names_by_scan_code, name_buffer) shift_state,
         let keyboard_state := <[Z.to_nat 0x10 := shift_state * 0xFF]> (replicate 256 0) in
         let vk := get scan_code_to_vk scan_code 0 in
         let '(ret, name_buffer) :=
           ToUnicode os vk scan_code keyboard_state name_buffer 32 0 in
         if truthy ret then
           match last_char (value name_buffer) with
           | None => Raise IndexError
           | Some char =>
               names ← subscript key_names_by_scan_code scan_code;
               let names := if shift_state =? 0 then (char, names.2) else (names.1, char) in
               Ok (<[scan_code := names]> key_names_by_scan_code, name_buffer)
           end
         else Ok (key_names_by_scan_code, name_buffer))
      [0; 1] (key_names_by_scan_code, name_buffer).

Definition _create_key_name_tables : outcome (gmap Z str * gmap Z str) :=
  let scan_code_to_vk := scan_code_to_vk_table in
  let name_buffer := replicate 32 0 in
  match foldlM (key_names_for_scan_code scan_code_to_vk)
          (seqZ 0 (2 ^ (23 - 16))) (∅, name_buffer) with
  | Raise e => Raise e
  | Ok (key_names_by_scan_code, _) =>
      let key_names_by_scan_code :=
        <[541 := (u "alt gr", u "alt gr")]> key_names_by_scan_code in
      Ok (fst <$> key_names_by_scan_code, snd <$> key_names_by_scan_code)
  end.

(** An argument documented as "RAWINPUTDEVICELIST or hDevice". *)
Inductive device_arg :=
| entry (device : RAWINPUTDEVICELIST.t)
| hDevice (device : HANDLE).

(** [device.hDevice if isinstance(device, RAWINPUTDEVICELIST) else device] *)
Definition device_handle (device : device_arg) : HANDLE :=
  match device with
  | entry d => RAWINPUTDEVICELIST.hDevice d
  | hDevice h => h
  end.

(** [(RAWINPUTDEVICELIST * n)()] after the platform has written [written]
    into it. *)
Definition device_array (n : Z) (written : list RAWINPUTDEVICELIST.t)
  : list RAWINPUTDEVICELIST.t :=
  take (Z.to_nat n)
    (written ++ replicate (Z.to_nat n) (RAWINPUTDEVICELIST.Build_t None 0)).

Definition get_raw_input_device_list : M (list RAWINPUTDEVICELIST.t) :=
  '(r, device_count) ← os_call (OS_GetRawInputDeviceList false)
                          (GetRawInputDeviceList_count os);
  if decide (r = -1) then raise_WinError else
  '(r, written) ← os_call (OS_GetRawInputDeviceList true)
                    (GetRawInputDeviceList_fill os device_count);
  if decide (r = -1) then raise_WinError else
  mret (device_array device_count written).

Definition is_connected (device : device_arg) : M bool :=
  let device_handle := device_handle device in
  '(r, _) ← os_call (OS_GetRawInputDeviceInfoW device_handle RIDI_DEVICENAME false)
              (GetRawInputDeviceInfoW_size os device_handle RIDI_DEVICENAME);
  if decide (r = 0) then mret true
  else
    code ← GetLastError;
    if decide (code = 6) then mret false
    else raise_WinError.

(** [device is None] *)
Definition is_None (device : device_arg) : bool :=
  match device with
  | hDevice None => true
  | _ => false
  end.

Definition get_device_info (device : device_arg) : M RID_DEVICE_INFO.t :=
  if is_None device then mret RID_DEVICE_INFO.zero else
  let device_handle := device_handle device in
  '(r, info_size) ← os_call (OS_GetRawInputDeviceInfoW device_handle RIDI_DEVICEINFO false)
                      (GetRawInputDeviceInfoW_size os device_handle RIDI_DEVICEINFO);
  if truthy r then raise_WinError else
  '(r, info) ← os_call (OS_GetRawInputDeviceInfoW device_handle RIDI_DEVICEINFO true)
                 (GetRawInputDeviceInfoW_info os device_handle);
  if negb (truthy r) then raise_WinError else
  (* info_buffer[0] of an array of info_size structures *)
  if decide (info_size = 0) then raise IndexError else
  mret info.

(** The window procedure that [set_window_procedure] hands to the
    platform: its inner function [process_message], closed over
    [procedure], [call_original] and [prevWndProc]. *)
Definition set_window_procedure_process_message
    (procedure : HANDLE → Z → Z → Z → M ()) (call_original : bool)
    (prevWndProc : Z) (hwnd : HANDLE) (msg wParam lParam : Z) : M Z :=
  procedure hwnd msg wParam lParam;;
  if call_original then
    log (OS_CallWindowProc prevWndProc hwnd msg wParam lParam);;
    mret (CallWindowProc os prevWndProc hwnd msg wParam lParam)
  else
    log (OS_DefWindowProcA hwnd msg wParam lParam);;
    mret (DefWindowProcA os hwnd msg wParam lParam).

Definition set_window_procedure (hwnd : HANDLE)
    (procedure : Procedure) (call_original : bool) : M () :=
  (* new_window_procedure = WNDPROCTYPE(process_message) *)
  let wndproc := set_window_procedure_process_message_of procedure call_original in
  keep_alive (new_window_procedure wndproc);;
  '(prevWndProc, _) ← os_call (OS_SetWindowLongPtrA hwnd wndproc)
                        (SetWindowLongPtrA os hwnd);
  if negb (truthy prevWndProc) then raise_WinError else mret ().

(** The window procedure of the helper window: the inner function
    [actual_procedure] of [invisible_window].  After [procedure] it
    evaluates [user32.DefWindowProcA(c_int(hwnd), c_int(msg), ...)]:
    [c_int(hwnd)] raises [TypeError] when [hwnd] is [None], and
    [user32.DefWindowProcA] is the function whose [argtypes] were set to
    [[HWND, UINT, WPARAM, LPARAM]], which do not accept a [c_int], so that
    the call raises [ctypes.ArgumentError] before the platform is
    entered. *)
Definition invisible_window_actual_procedure
    (procedure : HANDLE → Z → Z → Z → M ())
    (hwnd : HANDLE) (msg wParam lParam : Z) : M Z :=
  procedure hwnd msg wParam lParam;;
  match hwnd with
  | None => raise TypeError
  | Some _ => raise ArgumentError
  end.

(** Truthiness of a handle: [None] and [0] are false. *)
Definition truthy_handle (h : HANDLE) : bool :=
  match h with
  | None => false
  | Some n => truthy n
  end.

(** [GetModuleHandleW] and [GetStockObject], whose results are only passed
    on to the window class, are left out. *)
Definition invisible_window (procedure : Procedure) : M HANDLE :=
  (* window_class.lpfnWndProc = WNDPROCTYPE(actual_procedure) *)
  let lpfnWndProc := invisible_window_actual_procedure_of procedure in
  '(r, _) ← os_call (OS_RegisterClassExW lpfnWndProc) (RegisterClassExW os);
  if negb (truthy r) then raise_WinError else
  '(_, h_window) ← os_call OS_CreateWindowExW (CreateWindowExW os);
  if negb (truthy_handle h_window) then raise RuntimeError else
  keep_alive (window_class lpfnWndProc);;
  mret h_window.

Definition enable_raw_input_for_window (hwnd : HANDLE) (device_type : str) : M () :=
  '(usage_page, usage) ← lift (subscript USAGE_NAME_TO_VALUE (lower device_type));
  '(r, _) ← os_call (OS_RegisterRawInputDevices usage_page usage RIDEV_INPUTSINK hwnd)
              (RegisterRawInputDevices os usage_page usage RIDEV_INPUTSINK hwnd);
  if negb (truthy r) then raise_WinError else mret ().

(** ** The functions of [_api.py] *)

(** The module-level table [KEY_NAMES_LOWER], built once at import by
    [_create_key_name_tables]. *)
Context (KEY_NAMES_LOWER : gmap Z str).

(** The branch of [get_device] on [dw_type]: the device built from the
    name and the info block of a handle that is not cached. *)
Definition make_device (dw_type : Z) (handle : HANDLE) (name : str)
    (info : RID_DEVICE_INFO.t) : outcome RawInputDevice :=
  if decide (dw_type = 0) then
    let mouse := RID_DEVICE_INFO.mouse info in
    let mouse_type := get MOUSE_TYPES (RID_DEVICE_INFO_MOUSE.dwId mouse) (u "unknown") in
    let num_buttons := RID_DEVICE_INFO_MOUSE.dwNumberOfButtons mouse in
    let sample_rate :=
      if truthy (RID_DEVICE_INFO_MOUSE.dwSampleRate mouse)
      then Some (RID_DEVICE_INFO_MOUSE.dwSampleRate mouse) else None in
    let has_horizontal_wheel := truthy (RID_DEVICE_INFO_MOUSE.fHasHorizontalWheel mouse) in
    Ok (Mouse handle name mouse_type num_buttons sample_rate has_horizontal_wheel)
  else if decide (dw_type = 1) then
    let keyboard := RID_DEVICE_INFO.keyboard info in
    let kb_type := get KEYBOARD_TYPES (RID_DEVICE_INFO_KEYBOARD.dwType keyboard) (u "unknown") in
    let subtype := RID_DEVICE_INFO_KEYBOARD.dwSubType keyboard in
    let scan_code_mode := RID_DEVICE_INFO_KEYBOARD.dwKeyboardMode keyboard in
    let num_function_keys := RID_DEVICE_INFO_KEYBOARD.dwNumberOfFunctionKeys keyboard in
    let num_indicators := RID_DEVICE_INFO_KEYBOARD.dwNumberOfIndicators keyboard in
    let num_keys := RID_DEVICE_INFO_KEYBOARD.dwNumberOfKeysTotal keyboard in
    Ok (Keyboard handle name kb_type subtype scan_code_mode num_function_keys
          num_indicators num_keys)
  else if decide (dw_type = 2) then
    let hid := RID_DEVICE_INFO.hid info in
    let vendor_id := RID_DEVICE_INFO_HID.dwVendorId hid in
    let product_id := RID_DEVICE_INFO_HID.dwProductId hid in
    let version_number := RID_DEVICE_INFO_HID.dwVersionNumber hid in
    let usage_page := RID_DEVICE_INFO_HID.usUsagePage hid in
    let '(usage_page_name, page_entries) :=
      get USAGE_PAGE_NAMES usage_page (u "unknown", ∅) in
    let usage := RID_DEVICE_INFO_HID.usUsage hid in
    let usage_name := get page_entries usage (u "unknown") in
    Ok (HID handle name vendor_id product_id version_number usage_page
          usage_page_name usage usage_name)
  else Raise NotImplementedError.

Definition get_device (dw_type : Z) (handle : HANDLE) : M RawInputDevice :=
  cache ← get_cache;
  match cache !! handle with
  | Some device => mret device
  | None =>
      name ← get_device_name handle;
      info ← get_device_info (hDevice handle);
      device ← lift (make_device dw_type handle name info);
      cache ← get_cache;
      set_cache (<[handle := device]> cache);;
      mret device
  end.

Definition list_devices : M (list RawInputDevice) :=
  array ← get_raw_input_device_list;
  devices ← comprehension
               (λ dev, get_device (RAWINPUTDEVICELIST.dwType dev)
                         (RAWINPUTDEVICELIST.hDevice dev))
               array;
  (* CACHED_DEVICES.clear() *)
  set_cache ∅;;
  (* CACHED_DEVICES.update({d.handle: d for d in devices}) *)
  cache ← get_cache;
  set_cache (dict_display ((λ d, (handle d, d)) <$> devices) ∪ cache);;
  mret devices.

(** The three branches of [process_message] that build the event, for a
    payload [raw] of [dwSize] bytes sent by [device]. *)
Definition keyboard_event (raw : RAWINPUT.t) (dwSize : Z) (device : RawInputDevice)
    (hwnd : HANDLE) (event_time : Z) : outcome RawInputEvent.t :=
  assert (bool_decide (dwSize = 40));;
  let message := RAWKEYBOARD.message (RAWINPUT.keyboard raw) in
  let vk_code := RAWKEYBOARD.vk_code (RAWINPUT.keyboard raw) in
  let scan_code := RAWKEYBOARD.scan_code (RAWINPUT.keyboard raw) in
  '(key_name, is_keypad) ←
    match VIRTUAL_KEYBOARD !! vk_code with
    | Some found => Ok found
    | None => key_name ← subscript KEY_NAMES_LOWER scan_code; Ok (key_name, false)
    end;
  evt_type ← subscript KEY_EVENT_TYPE message;
  Ok (RawInputEvent.Build_t evt_type scan_code (Some key_name)
        (if is_keypad : bool then u "keypad" else u "keyboard")
        device None None hwnd event_time None).

Definition mouse_event (raw : RAWINPUT.t) (dwSize : Z) (device : RawInputDevice)
    (hwnd : HANDLE) (event_time : Z) : outcome RawInputEvent.t :=
  assert (bool_decide (dwSize = 48));;
  let button := RAWMOUSE.ulButtons (RAWINPUT.mouse raw) in
  if decide (button = 0) then
    Ok (RawInputEvent.Build_t (u "move") (-1) None (u "mouse") device
          (Some (RAWMOUSE.lLastX (RAWINPUT.mouse raw)))
          (Some (RAWMOUSE.lLastY (RAWINPUT.mouse raw))) hwnd event_time None)
  else
    '(evt_type, button_id, button_name) ← subscript MOUSE_BUTTONS button;
    Ok (RawInputEvent.Build_t evt_type button_id (Some button_name) (u "mouse")
          device None None hwnd event_time None).

Definition hid_event (raw : RAWINPUT.t) (device : RawInputDevice)
    (hwnd : HANDLE) (event_time : Z) : outcome RawInputEvent.t :=
  let size_hid := RAWHID.dwSizeHid (RAWINPUT.hid raw) in
  let count := RAWHID.dwCount (RAWINPUT.hid raw) in
  let raw_data := RAWINPUT.tail raw in
  (* string_at(pointer to BYTE * (size_hid * count), size_hid * count):
     a read inside the object [raw] as long as it ends where [raw] ends *)
  if decide (size_hid * count ≤ RAWINPUT.sizeof - RAWINPUT.offsetof_bRawData) then
    let raw_data_bytes := take (Z.to_nat (size_hid * count)) raw_data in
    Ok (RawInputEvent.Build_t (u "data") (-1)
          (Some (str_of_int count ++ u " x " ++ str_of_int size_hid ++ u " bytes"))
          (u "hid") device None None hwnd event_time (Some raw_data_bytes))
  else Raise Undefined_read.

(** The branch of [process_message] on [raw.header.dwType]. *)
Definition decode (raw : RAWINPUT.t) (dwSize : Z) (device : RawInputDevice)
    (hwnd : HANDLE) (event_time : Z) : outcome RawInputEvent.t :=
  let dwType := RAWINPUTHEADER.dwType (RAWINPUT.header raw) in
  if decide (dwType = 1) then keyboard_event raw dwSize device hwnd event_time
  else if decide (dwType = 0) then mouse_event raw dwSize device hwnd event_time
  else if decide (dwType = 2) then hid_event raw device hwnd event_time
  else Raise NotImplementedError.

(** The two calls of [GetRawInputData] at the start of [process_message]:
    the size query and the fetch into a [RAWINPUT]; gives [dwSize.value]
    and [raw]. *)
Definition fetch_raw_input (lParam : Z) : M (Z * RAWINPUT.t) :=
  '(r, dwSize) ← os_call (OS_GetRawInputData lParam false) (GetRawInputData_size os lParam);
  if truthy r then raise_WinError else
  '(r, (dwSize, raw)) ← os_call (OS_GetRawInputData lParam true)
                          (GetRawInputData_data os lParam dwSize);
  lift (assert (bool_decide (r = dwSize)));;
  mret (dwSize, raw).

(** The inner function [process_message] of [hook_raw_input_for_window],
    closed over [callback]. *)
Definition process_message (callback : Callback)
    (hwnd : HANDLE) (msg wParam lParam : Z) : M () :=
  if decide (msg = WM_INPUT) then
    let event_time := perf_counter os in
    '(dwSize, raw) ← fetch_raw_input lParam;
    device ← get_device (RAWINPUTHEADER.dwType (RAWINPUT.header raw))
               (RAWINPUTHEADER.hDevice (RAWINPUT.header raw));
    event ← lift (decode raw dwSize device hwnd event_time);
    log (Call_callback event);;
    lift (callback event)
  else mret ().

Definition hook_raw_input_for_window (hwnd : HANDLE) (callback : Callback)
    (device_types : list str) : M () :=
  hwnd ←
    (if truthy_handle hwnd then
       set_window_procedure hwnd (hook_process_message callback) true;;
       mret hwnd
     else invisible_window (hook_process_message callback));
  for_each (enable_raw_input_for_window hwnd) device_types.

(** Calling a function value. *)
Definition call (procedure : Procedure) (hwnd : HANDLE) (msg wParam lParam : Z) : M () :=
  match procedure with
  | hook_process_message callback => process_message callback hwnd msg wParam lParam
  | callable f => lift (f hwnd msg wParam lParam)
  end.

(** Calling a window procedure; [prevWndProc] is the value that the
    closure variable of that name holds. *)
Definition call_WNDPROC (w : WNDPROC) (prevWndProc : Z)
    (hwnd : HANDLE) (msg wParam lParam : Z) : M Z :=
  match w with
  | set_window_procedure_process_message_of procedure call_original =>
      set_window_procedure_process_message (call procedure) call_original prevWndProc
        hwnd msg wParam lParam
  | invisible_window_actual_procedure_of procedure =>
      invisible_window_actual_procedure (call procedure) hwnd msg wParam lParam
  end.

End WithPlatform.


(** * Auxiliary definitions for the statements *)

(** The three values of [canonical_names] that are not lower-case:
    U+0152, U+00D8 and U+039C. *)
Definition upper_case_values : list str := [[0x152]; [0xd8]; [0x39c]].

(** The code points that [to_lower] may change. *)
Definition lower_domain : list Z :=
  0x130 :: (lower_runs ≫= λ '(first, last, _, _), seqZ first (last - first + 1)).

(** A code point that lower-casing leaves as it is, wherever it stands. *)
Definition lower_case (c : Z) : Prop := c ≠ 0x3a3 ∧ to_lower c = [c].

(** The state when the two modules have been imported:
    [CACHED_DEVICES = {}] and [_REGISTERED_PROCEDURES_REFS = []]. *)
Definition initial_state : State :=
  {| CACHED_DEVICES := ∅; _REGISTERED_PROCEDURES_REFS := []; last_error := 0; trace := [] |}.

(** Every cached device is stored under its own handle. *)
Definition cache_consistent (s : State) : Prop :=
  ∀ h d, CACHED_DEVICES s !! h = Some d → handle d = h.

(** The array that [get_raw_input_device_list] returns when neither call
    reports a failure: the platform's enumeration. *)
Definition enumeration (os : Platform) : list RAWINPUTDEVICELIST.t :=
  let device_count := out (GetRawInputDeviceList_count os) in
  device_array device_count (out (GetRawInputDeviceList_fill os device_count)).

(** System error codes of the platform, as its headers name them.  The
    source compares the last-error code with the literal 6. *)
Definition ERROR_ACCESS_DENIED : Z := 5.
Definition ERROR_INVALID_HANDLE : Z := 6.
Definition ERROR_NOT_FOUND : Z := 1168.



(** The [procedure] that a window procedure closes over. *)
Definition procedure_of (w : WNDPROC) : Procedure :=
  match w with
  | set_window_procedure_process_message_of procedure _ => procedure
  | invisible_window_actual_procedure_of procedure => procedure
  end.

(** [m] leaves the observation [f] of the state unchanged. *)
Definition preserves {X A} (f : State → X) (m : M A) : Prop :=
  ∀ s, f (m s).2 = f s.

(** ** A sample platform

    Three devices are attached; the raw-input handle [lParam] selects one
    of six notifications, and the size query fails for any other handle. *)
Module Demo.

Definition keyboard_handle : HANDLE := Some 65537.
Definition mouse_handle : HANDLE := Some 65539.
Definition hid_handle : HANDLE := Some 65541.

Definition ok {A} (r : Z) (a : A) : Resp A := {| ret := r; out := a; err := 0 |}.

Definition header (dwType dwSize : Z) (h : HANDLE) : RAWINPUTHEADER.t :=
  {| RAWINPUTHEADER.dwType := dwType; RAWINPUTHEADER.dwSize := dwSize;
     RAWINPUTHEADER.hDevice := h; RAWINPUTHEADER.wParam := 0 |}.

Definition no_mouse : RAWMOUSE.t := RAWMOUSE.Build_t 0 0 0 0 0 0.
Definition no_keyboard : RAWKEYBOARD.t := RAWKEYBOARD.Build_t 0 0 0 0 0 0.
Definition no_hid : RAWHID.t := RAWHID.Build_t 0 0 [].

Definition key (scan_code vk_code message : Z) : RAWINPUT.t :=
  {| RAWINPUT.header := header 1 40 keyboard_handle;
     RAWINPUT.mouse := no_mouse;
     RAWINPUT.keyboard := RAWKEYBOARD.Build_t scan_code 0 0 vk_code message 0;
     RAWINPUT.hid := no_hid |}.

Definition pointer (ulButtons lLastX lLastY : Z) : RAWINPUT.t :=
  {| RAWINPUT.header := header 0 48 mouse_handle;
     RAWINPUT.mouse := RAWMOUSE.Build_t 0 ulButtons 0 lLastX lLastY 0;
     RAWINPUT.keyboard := no_keyboard;
     RAWINPUT.hid := no_hid |}.

(** Three reports of four bytes each, in storage that holds sixteen bytes. *)
Definition reports : list Byte.byte :=
  [ Byte.x01; Byte.x02; Byte.x03; Byte.x04; Byte.x05; Byte.x06; Byte.x07; Byte.x08;
    Byte.x09; Byte.x0a; Byte.x0b; Byte.x0c; Byte.xff; Byte.xff; Byte.xff; Byte.xff ].

Definition report : RAWINPUT.t :=
  {| RAWINPUT.header := header 2 44 hid_handle;
     RAWINPUT.mouse := no_mouse;
     RAWINPUT.keyboard := no_keyboard;
     RAWINPUT.hid := RAWHID.Build_t 4 3 reports |}.

Definition notification (lParam : Z) : option (Z * RAWINPUT.t) :=
  if decide (lParam = 1) then Some (40, key 30 0x41 WM_KEYDOWN)
  else if decide (lParam = 2) then Some (48, pointer 0 5 (-3))
  else if decide (lParam = 3) then Some (48, pointer 1 0 0)
  else if decide (lParam = 4) then Some (44, report)
  else if decide (lParam = 5) then Some (40, key 39 0xba WM_KEYDOWN)
  else if decide (lParam = 6) then Some (40, key 56 0x12 WM_SYSKEYUP)
  else None.

Definition info : RID_DEVICE_INFO.t :=
  {| RID_DEVICE_INFO.cbSize := 32; RID_DEVICE_INFO.dwType := 0;
     RID_DEVICE_INFO.mouse := RID_DEVICE_INFO_MOUSE.Build_t 0x0100 5 0 0;
     RID_DEVICE_INFO.keyboard := RID_DEVICE_INFO_KEYBOARD.Build_t 0x51 0 1 12 3 101;
     RID_DEVICE_INFO.hid := RID_DEVICE_INFO_HID.Build_t 0x046d 0xc21d 0x4014 0x01 0x05 |}.

(** The three attached devices, as the enumeration lists them. *)
Definition attached : list RAWINPUTDEVICELIST.t :=
  [ RAWINPUTDEVICELIST.Build_t keyboard_handle 1;
    RAWINPUTDEVICELIST.Build_t mouse_handle 0;
    RAWINPUTDEVICELIST.Build_t hid_handle 2 ].

(** The platform, given the entries that the enumeration writes after it
    has counted three devices, the handles for which a query of the device
    name or info fails, and the last-error code it reports then. *)
Definition platform (written : list RAWINPUTDEVICELIST.t) (gone : list HANDLE) (e : Z)
  : Platform :=
  {| GetRawInputDeviceList_count := ok 0 3;
     GetRawInputDeviceList_fill := λ _, ok (Z.of_nat (length written)) written;
     GetRawInputDeviceInfoW_size := λ h _,
       if bool_decide (h ∈ gone) then {| ret := 4294967295; out := 0; err := e |}
       else ok 0 32;
     GetRawInputDeviceInfoW_info := λ _, ok 32 info;
     GetRawInputData_size := λ lParam,
       match notification lParam with
       | Some (size, _) => ok 0 size
       | None => {| ret := -1; out := 0; err := ERROR_INVALID_HANDLE |}
       end;
     GetRawInputData_data := λ lParam _,
       match notification lParam with
       | Some (size, raw) => ok size (size, raw)
       | None => {| ret := -1; out := (0, key 0 0 0); err := ERROR_INVALID_HANDLE |}
       end;
     perf_counter := 1000;
     SetWindowLongPtrA := λ _, ok 4096 ();
     CallWindowProc := λ _ _ _ _ _, 0;
     DefWindowProcA := λ _ _ _ _, 0;
     RegisterClassExW := ok 1 ();
     CreateWindowExW := ok 0 (Some 8192);
     RegisterRawInputDevices := λ _ _ _ _, ok 1 ();
     MapVirtualKey := λ vk _, if decide (vk = 0x41) then 30
                              else if decide (vk = 0xba) then 39 else 0;
     GetKeyNameText := λ lParam buffer,
       if decide (lParam = Z.lor (39 ≪ 16) (0 ≪ 24)) then (1, [0x3b; 0])
       else if decide (lParam = Z.lor (30 ≪ 16) (0 ≪ 24)) then (1, [0x41; 0])
       else (0, buffer);
     ToUnicode := λ _ _ _ buffer _ _, (0, buffer) |}.

Definition os : Platform := platform attached [] 0.

(** The platform when the mouse and the HID device are unplugged between
    the count and the enumeration: one entry is written into an array of
    three. *)
Definition unplugged : Platform := platform (take 1 attached) [] 0.

(** [KEY_NAMES_LOWER] on this platform. *)
Definition KEY_NAMES_LOWER : gmap Z str :=
  match _create_key_name_tables os with
  | Ok (lower, _) => lower
  | Raise _ => ∅
  end.

(** A callback that returns. *)
Definition callback : Callback := λ _, Ok ().

End Demo.


(** * Further functions of the two modules *)

(** The platform with the call that fetches a device name:
    [GetRawInputDeviceInfoW(h, RIDI_DEVICENAME, name_buffer, name_size)],
    given the number of characters of the buffer, answers with the
    characters it writes. *)
Record NamePlatform := {
  platform_of :> Platform;
  GetRawInputDeviceInfoW_name : HANDLE → Z → Resp (list Z) }.

(** [(WCHAR * n)()] after the platform has written [written] into it. *)
Definition wchar_array (n : Z) (written : list Z) : list Z :=
  take (Z.to_nat n) (written ++ replicate (Z.to_nat n) 0).

Definition get_device_path (os : NamePlatform) (device : device_arg) : M (option str) :=
  if is_None device then mret None else
  let device_handle := device_handle device in
  '(r, name_size) ← os_call (OS_GetRawInputDeviceInfoW device_handle RIDI_DEVICENAME false)
                      (GetRawInputDeviceInfoW_size os device_handle RIDI_DEVICENAME);
  if truthy r then raise_WinError else
  '(r, written) ← os_call (OS_GetRawInputDeviceInfoW device_handle RIDI_DEVICENAME true)
                    (GetRawInputDeviceInfoW_name os device_handle name_size);
  if negb (truthy r) then raise_WinError else
  mret (Some (value (wchar_array name_size written))).

(** The default of the parameter [device_types] of
    [hook_raw_input_for_window]. *)
Definition default_device_types : list str :=
  [u "keyboard"; u "mouse"; u "controller"].

(** The calls of [RegisterRawInputDevices] among the effects. *)
Definition registrations (s : State) : list (Z * Z * Z * HANDLE) :=
  omap (λ e, match e with
             | OS_RegisterRawInputDevices page usage flags target =>
                 Some (page, usage, flags, target)
             | _ => None
             end) (trace s).

(** A virtual key that [VIRTUAL_KEYBOARD] defines. *)
Definition official (vk : Z) : Prop := is_Some (VIRTUAL_KEYBOARD !! vk).

(** The dictionary [scan_code_to_vk] of [_create_key_name_tables] after
    the first [n] rounds of its first loop, that is for the virtual keys
    1 to [n]. *)
Definition scan_code_to_vk_after (os : Platform) (n : nat) : gmap Z Z :=
  fold_left
    (λ scan_code_to_vk vk,
       let scan_code := MapVirtualKey os vk MAPVK_VK_TO_VSC in
       if negb (truthy scan_code) then scan_code_to_vk
       else if decide (is_Some (VIRTUAL_KEYBOARD !! get scan_code_to_vk scan_code 0))
            then scan_code_to_vk
            else <[scan_code := vk]> scan_code_to_vk)
    (seqZ 0x01 (Z.of_nat n)) ∅.

(** The sample platform when every raw-input handle gives the payload
    [raw], announced and fetched with [size] bytes. *)
Module Sample.

Definition with_notification (size : Z) (raw : RAWINPUT.t) : Platform :=
  {| GetRawInputDeviceList_count := GetRawInputDeviceList_count Demo.os;
     GetRawInputDeviceList_fill := GetRawInputDeviceList_fill Demo.os;
     GetRawInputDeviceInfoW_size := GetRawInputDeviceInfoW_size Demo.os;
     GetRawInputDeviceInfoW_info := GetRawInputDeviceInfoW_info Demo.os;
     GetRawInputData_size := λ _, Demo.ok 0 size;
     GetRawInputData_data := λ _ _, Demo.ok size (size, raw);
     perf_counter := perf_counter Demo.os;
     SetWindowLongPtrA := SetWindowLongPtrA Demo.os;
     CallWindowProc := CallWindowProc Demo.os;
     DefWindowProcA := DefWindowProcA Demo.os;
     RegisterClassExW := RegisterClassExW Demo.os;
     CreateWindowExW := CreateWindowExW Demo.os;
     RegisterRawInputDevices := RegisterRawInputDevices Demo.os;
     MapVirtualKey := MapVirtualKey Demo.os;
     GetKeyNameText := GetKeyNameText Demo.os;
     ToUnicode := ToUnicode Demo.os |}.

(** A payload of device class 3. *)
Definition unknown_class : RAWINPUT.t :=
  {| RAWINPUT.header := Demo.header 3 40 Demo.keyboard_handle;
     RAWINPUT.mouse := Demo.no_mouse;
     RAWINPUT.keyboard := Demo.no_keyboard;
     RAWINPUT.hid := Demo.no_hid |}.

(** The platform when the fetch of a payload returns [fetched] bytes after
    the size query announced 40. *)
Definition short_fetch (fetched : Z) : Platform :=
  {| GetRawInputDeviceList_count := GetRawInputDeviceList_count Demo.os;
     GetRawInputDeviceList_fill := GetRawInputDeviceList_fill Demo.os;
     GetRawInputDeviceInfoW_size := GetRawInputDeviceInfoW_size Demo.os;
     GetRawInputDeviceInfoW_info := GetRawInputDeviceInfoW_info Demo.os;
     GetRawInputData_size := λ _, Demo.ok 0 40;
     GetRawInputData_data := λ _ _, Demo.ok fetched (40, Demo.key 30 0x41 WM_KEYDOWN);
     perf_counter := perf_counter Demo.os;
     SetWindowLongPtrA := SetWindowLongPtrA Demo.os;
     CallWindowProc := CallWindowProc Demo.os;
     DefWindowProcA := DefWindowProcA Demo.os;
     RegisterClassExW := RegisterClassExW Demo.os;
     CreateWindowExW := CreateWindowExW Demo.os;
     RegisterRawInputDevices := RegisterRawInputDevices Demo.os;
     MapVirtualKey := MapVirtualKey Demo.os;
     GetKeyNameText := GetKeyNameText Demo.os;
     ToUnicode := ToUnicode Demo.os |}.

(** The platform when it refuses to replace a window procedure and to
    create a window; 1400 is its code for an invalid window handle. *)
Definition no_windows : Platform :=
  {| GetRawInputDeviceList_count := GetRawInputDeviceList_count Demo.os;
     GetRawInputDeviceList_fill := GetRawInputDeviceList_fill Demo.os;
     GetRawInputDeviceInfoW_size := GetRawInputDeviceInfoW_size Demo.os;
     GetRawInputDeviceInfoW_info := GetRawInputDeviceInfoW_info Demo.os;
     GetRawInputData_size := GetRawInputData_size Demo.os;
     GetRawInputData_data := GetRawInputData_data Demo.os;
     perf_counter := perf_counter Demo.os;
     SetWindowLongPtrA := λ _, {| ret := 0; out := (); err := 1400 |};
     CallWindowProc := CallWindowProc Demo.os;
     DefWindowProcA := DefWindowProcA Demo.os;
     RegisterClassExW := RegisterClassExW Demo.os;
     CreateWindowExW := {| ret := 0; out := None; err := 1400 |};
     RegisterRawInputDevices := RegisterRawInputDevices Demo.os;
     MapVirtualKey := MapVirtualKey Demo.os;
     GetKeyNameText := GetKeyNameText Demo.os;
     ToUnicode := ToUnicode Demo.os |}.

End Sample.

(** One call of a function of the two modules or of a window procedure
    that they make, from the state before to the state after; the platform
    may answer differently at each call. *)
Inductive api_step (K : gmap Z str) : State → State → Prop :=
| step_list_devices os s :
    api_step K s (list_devices os s).2
| step_get_device os dw_type handle s :
    api_step K s (get_device os dw_type handle s).2
| step_get_raw_input_device_list os s :
    api_step K s (get_raw_input_device_list os s).2
| step_get_device_info os device s :
    api_step K s (get_device_info os device s).2
| step_is_connected os device s :
    api_step K s (is_connected os device s).2
| step_get_device_path os device s :
    api_step K s (get_device_path os device s).2
| step_hook_raw_input_for_window os hwnd callback device_types s :
    api_step K s (hook_raw_input_for_window os hwnd callback device_types s).2
| step_window_procedure os procedure prevWndProc hwnd msg wParam lParam s :
    api_step K s (call_WNDPROC os K procedure prevWndProc hwnd msg wParam lParam s).2.

(** * Properties *)

(** ** Dictionaries *)

Section dict.
Context `{Countable K} {V : Type}.
Implicit Types (items : list (K * V)) (m : gmap K V).

Lemma fold_insert_lookup items m k v :
  fold_left (λ m kv, <[kv.1 := kv.2]> m) items m !! k = Some v →
  (k, v) ∈ items ∨ m !! k = Some v.
Proof.
  revert m. induction items as [|[k' v'] items IH]; intros m Hk; simpl in *.
  - by right.
  - destruct (IH _ Hk) as [Hin | Hm].
    + left. by right.
    + destruct (decide (k' = k)) as [->|Hne].
      * rewrite lookup_insert_eq in Hm. injection Hm as ->. left. by left.
      * rewrite lookup_insert_ne in Hm by done. by right.
Qed.

Lemma dict_display_lookup items k v :
  dict_display items !! k = Some v → (k, v) ∈ items.
Proof.
  intros Hk. destruct (fold_insert_lookup _ _ _ _ Hk) as [Hin | Hm]; [done|].
  by rewrite lookup_empty in Hm.
Qed.

Lemma fold_insert_is_Some items m k :
  is_Some (fold_left (λ m kv, <[kv.1 := kv.2]> m) items m !! k) ↔
  k ∈ items.*1 ∨ is_Some (m !! k).
Proof.
  revert m. induction items as [|[k' v'] items IH]; intros m; simpl.
  - split; [by right|]. intros [Hin|Hm]; [|done]. by apply elem_of_nil in Hin.
  - rewrite IH, elem_of_cons, lookup_insert_is_Some. split; intros Hx.
    + destruct Hx as [?|[->|[? ?]]]; auto.
    + destruct (decide (k' = k)) as [->|?]; [auto|].
      destruct Hx as [[?|?]|?]; [congruence|auto|auto].
Qed.

Lemma dict_display_is_Some items k :
  is_Some (dict_display items !! k) ↔ k ∈ items.*1.
Proof.
  unfold dict_display. rewrite fold_insert_is_Some, lookup_empty.
  split; [|by left]. intros [?|[? ?]]; done.
Qed.

End dict.

(** ** Name normalisation *)

Lemma canonical_names_display : canonical_names = dict_display canonical_names_items.
Proof. reflexivity. Qed.

(** From here on the tables are looked up by evaluation only. *)
#[global] Opaque VIRTUAL_KEYBOARD canonical_names MOUSE_BUTTONS KEY_EVENT_TYPE
  MOUSE_TYPES KEYBOARD_TYPES GENERIC_DESKTOP_CONTROLS_PAGE USAGE_NAME_TO_VALUE
  USAGE_PAGE_NAMES.

(** *** Lower-casing *)

Lemma to_lower_cases c : to_lower c = [c] ∨ c ∈ lower_domain.
Proof.
  unfold to_lower, lower_domain.
  destruct (Z.eqb_spec c 0x130) as [->|_]; [right; by left|].
  destruct (find _ _) as [[[[first last] step] offset]|] eqn:Hf; [|by left].
  right. right. apply find_some in Hf as [Hin Hc].
  apply list_elem_of_bind. exists (first, last, step, offset).
  split; [|by apply list_elem_of_In].
  apply elem_of_seqZ.
  apply andb_prop in Hc as [Hc _]. apply andb_prop in Hc as [H1 H2].
  apply Z.leb_le in H1, H2. lia.
Qed.

Lemma lower_domain_lower_case :
  Forall (λ c, Forall (λ c', c' ≠ 0x3a3 ∧ to_lower c' = [c']) (to_lower c)) lower_domain.
Proof. apply (bool_decide_unpack _). vm_compute. exact I. Qed.

(** From here on the case tables are used by evaluation only. *)
#[global] Opaque lower_runs Cased Case_Ignorable.

Lemma to_lower_lower_case c : c ≠ 0x3a3 → Forall lower_case (to_lower c).
Proof.
  intros Hc. destruct (to_lower_cases c) as [Hfix|Hin].
  - rewrite Hfix. by apply Forall_singleton.
  - pose proof lower_domain_lower_case as Ht. rewrite Forall_forall in Ht.
    exact (Ht _ Hin).
Qed.

Lemma to_lower_nonempty c : to_lower c ≠ [].
Proof.
  unfold to_lower. destruct (c =? 0x130); [done|].
  by destruct (find _ _) as [[[[? ?] ?] ?]|].
Qed.

Lemma sigma_lower_case : lower_case 0x3c2 ∧ lower_case 0x3c3.
Proof. split; split; by vm_compute. Qed.

Lemma lower_from_lower_case s : ∀ before, Forall lower_case (lower_from before s).
Proof.
  induction s as [|c s IH]; intros before; simpl; [done|].
  apply Forall_app. split; [|apply IH].
  destruct (Z.eqb_spec c 0x3a3) as [->|Hc].
  - apply Forall_singleton. destruct (final_sigma _ _); apply sigma_lower_case.
  - by apply to_lower_lower_case.
Qed.

Lemma lower_from_fixed s : Forall lower_case s → ∀ before, lower_from before s = s.
Proof.
  induction 1 as [|c s [Hc Hl] _ IH]; intros before; simpl; [done|].
  destruct (Z.eqb_spec c 0x3a3); [done|]. by rewrite Hl, IH.
Qed.

Lemma lower_lower_case s : Forall lower_case (lower s).
Proof. apply lower_from_lower_case. Qed.

Lemma lower_fixed s : Forall lower_case s → lower s = s.
Proof. intros Hs. by apply lower_from_fixed. Qed.

Lemma lower_idempotent s : lower (lower s) = lower s.
Proof. apply lower_fixed, lower_lower_case. Qed.

Lemma lower_nonempty s : s ≠ [] → lower s ≠ [].
Proof.
  destruct s as [|c s]; [done|]. intros _. unfold lower. simpl.
  destruct (c =? 0x3a3); [done|].
  pose proof (to_lower_nonempty c). by destruct (to_lower c).
Qed.

Lemma replace_idempotent s : replace 0x5f 0x20 (replace 0x5f 0x20 s) = replace 0x5f 0x20 s.
Proof.
  unfold replace. rewrite <- list_fmap_compose. apply list_fmap_ext.
  intros ? c _. simpl. destruct (Z.eqb_spec c 0x5f) as [->|Hc]; [reflexivity|].
  by destruct (Z.eqb_spec c 0x5f).
Qed.

Lemma replace_lower_case s :
  Forall lower_case s → Forall lower_case (replace 0x5f 0x20 s).
Proof.
  unfold replace. intros Hs. apply Forall_fmap. eapply Forall_impl; [exact Hs|].
  intros c Hc. simpl. destruct (c =? 0x5f); [|done]. split; by vm_compute.
Qed.

Lemma replace_no_underscore s : 0x5f ∉ replace 0x5f 0x20 s.
Proof.
  unfold replace. intros (c & Hc & _)%list_elem_of_fmap.
  destruct (Z.eqb_spec c 0x5f); lia.
Qed.

Lemma lower_replace_lower s :
  lower (replace 0x5f 0x20 (lower s)) = replace 0x5f 0x20 (lower s).
Proof. apply lower_fixed, replace_lower_case, lower_lower_case. Qed.

Lemma canonical_values_normal :
  Forall (λ kv : str * str, kv.2 ∈ upper_case_values ∨ normalize_name kv.2 = kv.2)
    canonical_names_items.
Proof. apply (bool_decide_unpack _). vm_compute. exact I. Qed.

Lemma normalize_name_fixed_when_absent n :
  n ≠ [] → lower n = n →
  (if decide (n ≠ u "_") then replace 0x5f 0x20 n else n) = n →
  canonical_names !! n = None → normalize_name n = n.
Proof.
  intros Hne Hl Hr Hn. unfold normalize_name.
  destruct n as [|c n']; [by destruct Hne|]. rewrite Hl, Hr. unfold get. by rewrite Hn.
Qed.

Lemma replace_nonempty s : s ≠ [] → replace 0x5f 0x20 s ≠ [].
Proof. by destruct s. Qed.

Lemma normalize_name_idempotent s :
  normalize_name s ∉ upper_case_values →
  normalize_name (normalize_name s) = normalize_name s.
Proof.
  destruct s as [|c s']; [intros _; by vm_compute|].
  unfold normalize_name at 1 3 4. set (s := c :: s'). unfold get.
  assert (lower s ≠ []) as Hne by (by apply lower_nonempty).
  set (n := if decide (lower s ≠ u "_") then replace 0x5f 0x20 (lower s) else lower s).
  destruct (canonical_names !! n) as [v|] eqn:Hn; intros Hv.
  - rewrite canonical_names_display in Hn. apply dict_display_lookup in Hn.
    pose proof canonical_values_normal as Ht. rewrite Forall_forall in Ht.
    destruct (Ht _ Hn) as [Hu|Hf]; [by destruct Hv|exact Hf].
  - apply normalize_name_fixed_when_absent; [| | |exact Hn]; subst n; clear Hn Hv.
    + destruct (decide (lower s ≠ u "_")); [by apply replace_nonempty|exact Hne].
    + destruct (decide (lower s ≠ u "_")) as [?|Heq].
      * apply lower_replace_lower.
      * apply lower_idempotent.
    + destruct (decide (lower s ≠ u "_")) as [?|Heq].
      * rewrite replace_idempotent. rewrite decide_True; [reflexivity|].
        intros Hr. pose proof (replace_no_underscore (lower s)) as Hno.
        rewrite Hr in Hno. apply Hno. by left.
      * apply dec_stable in Heq. rewrite Heq. by rewrite decide_False by (by intros []).
Qed.

(** C8, counterexample: normalising the alias "oe" gives U+0152, which
    normalises to U+0153, so normalising twice differs from normalising
    once. *)
Lemma normalize_name_oe_not_idempotent :
  normalize_name (u "oe") = [0x152] ∧
  normalize_name (normalize_name (u "oe")) = [0x153] ∧
  normalize_name (normalize_name (u "oe")) ≠ normalize_name (u "oe").
Proof. by vm_compute. Qed.

(** C8, amended: [normalize_name (normalize_name s) = normalize_name s] for
    every string [s] whose normal form is not one of the three upper-case
    values of the alias table (U+0152, U+00D8, U+039C); and "escape" gives
    "esc", "Left Arrow" gives "left", and "_" gives "_". *)
Theorem normalize_name_idempotent_on_lower_case_values :
  (∀ s, normalize_name s ∉ upper_case_values →
        normalize_name (normalize_name s) = normalize_name s) ∧
  normalize_name (u "escape") = u "esc" ∧
  normalize_name (u "Left Arrow") = u "left" ∧
  normalize_name (u "_") = u "_".
Proof.
  split; [exact normalize_name_idempotent|]. by vm_compute.
Qed.

Lemma normalize_name_idempotent_on_Escape :
  (normalize_name (u "Escape") ∉ upper_case_values) ∧
  normalize_name (normalize_name (u "Escape")) = normalize_name (u "Escape").
Proof.
  assert (normalize_name (u "Escape") ∉ upper_case_values) as Hs.
  { apply (bool_decide_unpack _). vm_compute. exact I. }
  split; [exact Hs|].
  exact (proj1 normalize_name_idempotent_on_lower_case_values (u "Escape") Hs).
Defined.

(** Underscores inside a longer name become spaces. *)
Lemma normalize_name_inner_underscore :
  normalize_name (u "Caps_Lock") = u "caps lock".
Proof. by vm_compute. Qed.

(** ** The monad *)

Section monad.
Context {A B : Type}.
Implicit Types (m : M A) (k : A → M B).

Lemma bind_run m k s a s1 : m s = (Ok a, s1) → (m ≫= k) s = k a s1.
Proof. intros Hm. unfold mbind, M_bind. by rewrite Hm. Qed.

Lemma bind_raise m k s e s1 : m s = (Raise e, s1) → (m ≫= k) s = (Raise e, s1).
Proof. intros Hm. unfold mbind, M_bind. by rewrite Hm. Qed.

Lemma bind_Ok m k s b s' :
  (m ≫= k) s = (Ok b, s') ↔ ∃ a s1, m s = (Ok a, s1) ∧ k a s1 = (Ok b, s').
Proof.
  unfold mbind, M_bind. destruct (m s) as [[a|e] s1]; split.
  - intros Hk. by exists a, s1.
  - by intros (a' & s1' & [= -> ->] & Hk).
  - intros [=].
  - intros (a' & s1' & [=] & _).
Qed.

Lemma preserves_bind {X} (f : State → X) m k :
  preserves f m → (∀ a, preserves f (k a)) → preserves f (m ≫= k).
Proof.
  intros Hm Hk s. unfold mbind, M_bind. specialize (Hm s).
  destruct (m s) as [[a|e] s1]; simpl in *; [|done]. by rewrite Hk.
Qed.

Lemma preserves_ret {X} (f : State → X) (a : A) : preserves f (mret a).
Proof. by intros s. Qed.

Lemma preserves_raise {X} (f : State → X) e : preserves f (raise (A:=A) e).
Proof. by intros s. Qed.

Lemma preserves_lift {X} (f : State → X) (o : outcome A) : preserves f (lift o).
Proof. by intros s. Qed.

Lemma preserves_raise_WinError {X} (f : State → X) : preserves f (raise_WinError (A:=A)).
Proof. by intros s. Qed.

End monad.

Lemma callbacks_performed e s :
  callbacks (performed e s) =
  callbacks s ++ (match e with Call_callback event => [event] | _ => [] end).
Proof. unfold callbacks. simpl. rewrite omap_app. by destruct e. Qed.

Lemma preserves_GetLastError {X} (f : State → X) : preserves f GetLastError.
Proof. by intros s. Qed.

Lemma preserves_get_cache {X} (f : State → X) : preserves f get_cache.
Proof. by intros s. Qed.

Lemma callbacks_os_call {A} e (r : Resp A) :
  match e with Call_callback _ => False | _ => True end →
  preserves callbacks (os_call e r).
Proof.
  intros He s. unfold callbacks. simpl. rewrite omap_app.
  destruct e; simpl; by rewrite ?app_nil_r.
Qed.

Lemma callbacks_log e :
  match e with Call_callback _ => False | _ => True end →
  preserves callbacks (log e).
Proof.
  intros He s. simpl. rewrite callbacks_performed. destruct e; by rewrite ?app_nil_r.
Qed.

Lemma callbacks_set_cache c : preserves callbacks (set_cache c).
Proof. by intros s. Qed.

Lemma callbacks_keep_alive r : preserves callbacks (keep_alive r).
Proof. by intros s. Qed.

Lemma cache_os_call {A} e (r : Resp A) : preserves CACHED_DEVICES (os_call e r).
Proof. by intros s. Qed.

Lemma cache_log e : preserves CACHED_DEVICES (log e).
Proof. by intros s. Qed.

Lemma preserves_get_device_name {X} (f : State → X) handle :
  preserves f (get_device_name handle).
Proof. by intros s. Qed.

Create HintDb frame.
#[global] Hint Resolve preserves_ret preserves_raise preserves_lift
  preserves_raise_WinError preserves_GetLastError preserves_get_cache
  preserves_get_device_name
  callbacks_os_call callbacks_log callbacks_set_cache callbacks_keep_alive
  cache_os_call cache_log : frame.

(** Splits a goal [preserves f m] along the structure of [m]. *)
Ltac frame :=
  repeat (intros;
    match goal with
    | |- preserves _ (mbind _ _) => apply preserves_bind
    | |- preserves _ (if ?b then _ else _) => destruct b
    | |- preserves _ (match ?x with _ => _ end) => destruct x
    | |- preserves _ _ => solve [auto with frame | apply callbacks_os_call; exact I
                                | apply callbacks_log; exact I]
    end).

Lemma callbacks_get_device_info os device :
  preserves callbacks (get_device_info os device).
Proof. unfold get_device_info. frame. Qed.

Lemma cache_get_device_info os device :
  preserves CACHED_DEVICES (get_device_info os device).
Proof. unfold get_device_info. frame. Qed.

Lemma callbacks_get_device os dw_type h :
  preserves callbacks (get_device os dw_type h).
Proof.
  unfold get_device. pose proof (callbacks_get_device_info os). frame.
Qed.

Lemma callbacks_fetch_raw_input os lParam :
  preserves callbacks (fetch_raw_input os lParam).
Proof. unfold fetch_raw_input. frame. Qed.

Lemma cache_get_raw_input_device_list os :
  preserves CACHED_DEVICES (get_raw_input_device_list os).
Proof. unfold get_raw_input_device_list. frame. Qed.

(** ** Connectivity *)

(** C4, counterexample: when the name query fails with the platform's
    invalid-handle code the result is [False], not an error; and when it
    fails with the element-not-found code an error is raised. *)
Lemma is_connected_invalid_handle_is_false :
  (is_connected (Demo.platform Demo.attached [Demo.mouse_handle] ERROR_INVALID_HANDLE)
     (hDevice Demo.mouse_handle) initial_state).1 = Ok false ∧
  (is_connected (Demo.platform Demo.attached [Demo.mouse_handle] ERROR_NOT_FOUND)
     (hDevice Demo.mouse_handle) initial_state).1 = Raise (WinError ERROR_NOT_FOUND).
Proof. split; reflexivity. Qed.

(** The result of [is_connected], by the return value of the size query
    and the last-error code it leaves. *)
Lemma is_connected_outcome os device s :
  (is_connected os device s).1 =
    (let answer := GetRawInputDeviceInfoW_size os (device_handle device) RIDI_DEVICENAME in
     if decide (ret answer = 0) then Ok true
     else if decide (err answer = 6) then Ok false
     else Raise (WinError (err answer))).
Proof.
  unfold is_connected, raise_WinError, GetLastError, os_call, raise,
    mbind, M_bind, mret, M_ret.
  simpl. by repeat case_decide.
Qed.

Lemma is_connected_false_iff os device s :
  (is_connected os device s).1 = Ok false ↔
  ret (GetRawInputDeviceInfoW_size os (device_handle device) RIDI_DEVICENAME) ≠ 0 ∧
  err (GetRawInputDeviceInfoW_size os (device_handle device) RIDI_DEVICENAME) = 6.
Proof.
  rewrite is_connected_outcome. simpl.
  repeat case_decide; split; try done; intros [? ?]; done.
Qed.

(** C4, amended: [is_connected] makes one size query for the device name;
    it returns [True] when the query returns 0, returns [False] exactly
    when the query fails and the last-error code is 6 (the platform's
    invalid-handle code), and raises [WinError] with the last-error code for
    every other failure, such as access denied (5) or element not found
    (1168). *)
Theorem is_connected_by_last_error os device s :
  (is_connected os device s).1 =
    (let answer := GetRawInputDeviceInfoW_size os (device_handle device) RIDI_DEVICENAME in
     if decide (ret answer = 0) then Ok true
     else if decide (err answer = ERROR_INVALID_HANDLE) then Ok false
     else Raise (WinError (err answer))) ∧
  platform_calls (is_connected os device s).2 =
    platform_calls s ++ [OS_GetRawInputDeviceInfoW (device_handle device) RIDI_DEVICENAME false].
Proof.
  split; [apply is_connected_outcome|].
  unfold is_connected, raise_WinError, GetLastError, os_call, raise,
    mbind, M_bind, mret, M_ret.
  simpl. repeat case_decide; simpl; unfold platform_calls; simpl; by rewrite omap_app.
Qed.

(** ** The device cache *)

Lemma get_device_cached os dw_type h s d :
  CACHED_DEVICES s !! h = Some d → get_device os dw_type h s = (Ok d, s).
Proof.
  intros Hd. unfold get_device, mbind, M_bind, get_cache. by rewrite Hd.
Qed.

(** [get_device] on a handle that is not cached: the call of
    [get_device_name] raises, and nothing has been done by then. *)
Lemma get_device_uncached os dw_type h s :
  CACHED_DEVICES s !! h = None → get_device os dw_type h s = (Raise NameError, s).
Proof.
  intros Hc. unfold get_device, mbind, M_bind, get_cache. by rewrite Hc.
Qed.

Lemma get_device_outcome os dw_type h s :
  get_device os dw_type h s =
    match CACHED_DEVICES s !! h with
    | Some d => (Ok d, s)
    | None => (Raise NameError, s)
    end.
Proof.
  destruct (CACHED_DEVICES s !! h) as [d|] eqn:Hc.
  - by apply get_device_cached.
  - by apply get_device_uncached.
Qed.

Lemma get_device_state os dw_type h s : (get_device os dw_type h s).2 = s.
Proof. rewrite get_device_outcome. by destruct (CACHED_DEVICES s !! h). Qed.

Lemma make_device_handle dw_type h name info d :
  make_device dw_type h name info = Ok d → handle d = h.
Proof.
  unfold make_device. repeat case_decide; try done.
  - by intros [= <-].
  - by intros [= <-].
  - destruct (get USAGE_PAGE_NAMES _ _). by intros [= <-].
Qed.

Lemma make_device_unsupported dw_type h name info :
  make_device dw_type h name info = Raise NotImplementedError ↔
  dw_type ≠ 0 ∧ dw_type ≠ 1 ∧ dw_type ≠ 2.
Proof.
  unfold make_device. repeat case_decide; try (split; [done|lia]).
  - destruct (get USAGE_PAGE_NAMES _ _). split; [done|lia].
  - done.
Qed.

(** Where [get_device] returns a device, the handle was cached and
    nothing has changed. *)
Lemma get_device_inv os dw_type h s d s' :
  get_device os dw_type h s = (Ok d, s') →
  CACHED_DEVICES s !! h = Some d ∧ s' = s.
Proof.
  rewrite get_device_outcome.
  destruct (CACHED_DEVICES s !! h) as [d'|]; [|done]. by intros [= -> ->].
Qed.

Lemma get_device_consistent os dw_type h s o s' :
  get_device os dw_type h s = (o, s') → cache_consistent s → cache_consistent s'.
Proof.
  intros Hg Hs. pose proof (get_device_state os dw_type h s) as Hst.
  rewrite Hg in Hst. simpl in Hst. by subst.
Qed.

(** C10: what [get_device] does as the code stands.  For a handle in the
    cache it returns the cached entry and leaves the state as it is,
    whatever [dw_type] is and without any platform call.  For a handle not
    in the cache it raises [NameError] where it calls [get_device_name], a
    name that neither module binds: this comes before the info lookup and
    before [dw_type] is examined, the state is as before, and the
    unsupported-class error of the last branch is raised for no input. *)
Theorem get_device_by_cache os dw_type h s :
  get_device os dw_type h s =
    match CACHED_DEVICES s !! h with
    | Some d => (Ok d, s)
    | None => (Raise NameError, s)
    end ∧
  (get_device os dw_type h s).1 ≠ Raise NotImplementedError.
Proof.
  rewrite get_device_outcome. split; [done|].
  by destruct (CACHED_DEVICES s !! h).
Qed.

Lemma get_device_class_3_raises_NameError :
  get_device Demo.os 3 Demo.keyboard_handle initial_state = (Raise NameError, initial_state).
Proof.
  exact (proj1 (get_device_by_cache Demo.os 3 Demo.keyboard_handle initial_state)).
Defined.

(** What the branch on [dw_type] builds from a name and an info block. *)
Lemma make_device_metadata dw_type h name info :
  dw_type = 0 ∨ dw_type = 1 ∨ dw_type = 2 →
  ∃ d,
    make_device dw_type h name info = Ok d ∧
    match d with
    | Mouse _ _ mouse_type _ sample_rate _ =>
        let mouse := RID_DEVICE_INFO.mouse info in
        dw_type = 0 ∧
        mouse_type = default (u "unknown") (MOUSE_TYPES !! RID_DEVICE_INFO_MOUSE.dwId mouse) ∧
        sample_rate = (if decide (RID_DEVICE_INFO_MOUSE.dwSampleRate mouse = 0) then None
                       else Some (RID_DEVICE_INFO_MOUSE.dwSampleRate mouse))
    | Keyboard _ _ keyboard_type _ _ _ _ _ =>
        dw_type = 1 ∧
        keyboard_type =
          default (u "unknown")
            (KEYBOARD_TYPES !! RID_DEVICE_INFO_KEYBOARD.dwType (RID_DEVICE_INFO.keyboard info))
    | HID _ _ _ _ _ usage_page usage_page_name usage usage_name =>
        dw_type = 2 ∧
        usage_page = RID_DEVICE_INFO_HID.usUsagePage (RID_DEVICE_INFO.hid info) ∧
        usage = RID_DEVICE_INFO_HID.usUsage (RID_DEVICE_INFO.hid info) ∧
        usage_page_name = default (u "unknown") (fst <$> USAGE_PAGE_NAMES !! usage_page) ∧
        usage_name =
          default (u "unknown") (USAGE_PAGE_NAMES !! usage_page ≫= λ page, page.2 !! usage)
    end.
Proof.
  intros Hdw. unfold make_device, get.
  destruct Hdw as [-> | [-> | ->]]; simpl.
  - eexists. split; [done|]. simpl. split; [done|]. split.
    + by case_match.
    + unfold truthy. destruct (Z.eqb_spec (RID_DEVICE_INFO_MOUSE.dwSampleRate
                                             (RID_DEVICE_INFO.mouse info)) 0);
        by case_decide.
  - eexists. split; [done|]. simpl. split; [done|]. by case_match.
  - destruct (USAGE_PAGE_NAMES !! _) as [[page_name entries]|] eqn:Hp; simpl.
    + eexists. split; [done|]. simpl. rewrite Hp. simpl.
      do 4 (split; [done|]). by case_match.
    + eexists. split; [done|]. simpl. rewrite Hp. by simpl.
Qed.

(** C9: the metadata are resolved as the claim says by the branch of
    [get_device] on [dw_type], for all numbers that an info block can hold:
    the mouse type, the keyboard type, the usage-page name and the usage
    name are the entries of [MOUSE_TYPES], [KEYBOARD_TYPES],
    [USAGE_PAGE_NAMES] and of the page's usage table when the code is a key
    there and "unknown" otherwise, and a sample rate of zero becomes
    [None].  But the branch is not reached: for every handle that is not
    cached, [get_device] raises [NameError] at the call of
    [get_device_name] before it, whatever the device class. *)
Theorem get_device_metadata_not_reached os dw_type h s :
  CACHED_DEVICES s !! h = None →
  get_device os dw_type h s = (Raise NameError, s) ∧
  ∀ name info,
    dw_type = 0 ∨ dw_type = 1 ∨ dw_type = 2 →
    ∃ d,
      make_device dw_type h name info = Ok d ∧
      match d with
      | Mouse _ _ mouse_type _ sample_rate _ =>
          let mouse := RID_DEVICE_INFO.mouse info in
          dw_type = 0 ∧
          mouse_type =
            default (u "unknown") (MOUSE_TYPES !! RID_DEVICE_INFO_MOUSE.dwId mouse) ∧
          sample_rate = (if decide (RID_DEVICE_INFO_MOUSE.dwSampleRate mouse = 0) then None
                         else Some (RID_DEVICE_INFO_MOUSE.dwSampleRate mouse))
      | Keyboard _ _ keyboard_type _ _ _ _ _ =>
          dw_type = 1 ∧
          keyboard_type =
            default (u "unknown")
              (KEYBOARD_TYPES
                 !! RID_DEVICE_INFO_KEYBOARD.dwType (RID_DEVICE_INFO.keyboard info))
      | HID _ _ _ _ _ usage_page usage_page_name usage usage_name =>
          dw_type = 2 ∧
          usage_page = RID_DEVICE_INFO_HID.usUsagePage (RID_DEVICE_INFO.hid info) ∧
          usage = RID_DEVICE_INFO_HID.usUsage (RID_DEVICE_INFO.hid info) ∧
          usage_page_name = default (u "unknown") (fst <$> USAGE_PAGE_NAMES !! usage_page) ∧
          usage_name =
            default (u "unknown") (USAGE_PAGE_NAMES !! usage_page ≫= λ page, page.2 !! usage)
      end.
Proof.
  intros Hc. split; [by apply get_device_uncached|].
  intros name info. apply make_device_metadata.
Qed.

Lemma get_device_metadata_not_reached_for_mouse :
  CACHED_DEVICES initial_state !! Demo.mouse_handle = None ∧
  get_device Demo.os 0 Demo.mouse_handle initial_state = (Raise NameError, initial_state) ∧
  make_device 0 Demo.mouse_handle (u "device") Demo.info
    = Ok (Mouse Demo.mouse_handle (u "device") (u "HID wheel mouse") 5 None false).
Proof.
  assert (CACHED_DEVICES initial_state !! Demo.mouse_handle = None) as Hc by reflexivity.
  split; [exact Hc|].
  split; [exact (proj1 (get_device_metadata_not_reached Demo.os 0 Demo.mouse_handle
                          initial_state Hc))|].
  vm_compute. reflexivity.
Defined.

(** The entries of the fixed tables, and two codes that are in none. *)
Lemma lookup_tables :
  MOUSE_TYPES =
    {[ 0x0080 := u "HID mouse"; 0x0100 := u "HID wheel mouse";
       0x8000 := u "Mouse with horizontal wheel" ]} ∧
  KEYBOARD_TYPES =
    {[ 0x4 := u "Enhanced 101- or 102-key keyboards (and compatibles)";
       0x7 := u "Japanese Keyboard"; 0x8 := u "Korean Keyboard";
       0x51 := u "Unknown type or HID keyboard" ]} ∧
  (fst <$> USAGE_PAGE_NAMES) =
    {[ 0x01 := u "Generic Desktop Controls"; 0x05 := u "Game Controls";
       0x08 := u "LEDs"; 0x09 := u "Button" ]} ∧
  get MOUSE_TYPES 0x0200 (u "unknown") = u "unknown" ∧
  get KEYBOARD_TYPES 0 (u "unknown") = u "unknown".
Proof.
  repeat split; vm_compute; reflexivity.
Qed.

(** ** The decoder *)

Lemma process_message_other os K callback hwnd msg wParam lParam s :
  msg ≠ WM_INPUT → process_message os K callback hwnd msg wParam lParam s = (Ok (), s).
Proof. intros Hm. unfold process_message. by case_decide. Qed.

(** A raw-input message: the payload is fetched, the device resolved, the
    event built and handed to the callback; the first step that raises ends
    the call. *)
Lemma process_message_WM_INPUT os K callback hwnd wParam lParam s :
  process_message os K callback hwnd WM_INPUT wParam lParam s =
    match fetch_raw_input os lParam s with
    | (Raise e, s1) => (Raise e, s1)
    | (Ok (dwSize, raw), s1) =>
        match get_device os (RAWINPUTHEADER.dwType (RAWINPUT.header raw))
                (RAWINPUTHEADER.hDevice (RAWINPUT.header raw)) s1 with
        | (Raise e, s2) => (Raise e, s2)
        | (Ok device, s2) =>
            match decode K raw dwSize device hwnd (perf_counter os) with
            | Raise e => (Raise e, s2)
            | Ok event => (callback event, performed (Call_callback event) s2)
            end
        end
    end.
Proof.
  unfold process_message. case_decide; [|done].
  unfold mbind at 1, M_bind at 1.
  destruct (fetch_raw_input os lParam s) as [[[dwSize raw]|e] s1]; [|done].
  unfold mbind at 1, M_bind at 1.
  destruct (get_device _ _ _ _) as [[device|e] s2]; [|done].
  unfold mbind, M_bind, lift, log.
  by destruct (decode _ _ _ _ _ _).
Qed.

(** When the payload is fetched, the device resolved and the event built,
    the callback is called once, with that event. *)
Lemma process_message_delivers os K callback hwnd wParam lParam s
    dwSize raw s1 device s2 event :
  fetch_raw_input os lParam s = (Ok (dwSize, raw), s1) →
  get_device os (RAWINPUTHEADER.dwType (RAWINPUT.header raw))
    (RAWINPUTHEADER.hDevice (RAWINPUT.header raw)) s1 = (Ok device, s2) →
  decode K raw dwSize device hwnd (perf_counter os) = Ok event →
  process_message os K callback hwnd WM_INPUT wParam lParam s =
    (callback event, performed (Call_callback event) s2) ∧
  callbacks (performed (Call_callback event) s2) = callbacks s ++ [event].
Proof.
  intros Hf Hg Hd. rewrite process_message_WM_INPUT, Hf, Hg, Hd. split; [done|].
  rewrite callbacks_performed.
  pose proof (callbacks_fetch_raw_input os lParam s) as H1.
  pose proof (callbacks_get_device os (RAWINPUTHEADER.dwType (RAWINPUT.header raw))
                (RAWINPUTHEADER.hDevice (RAWINPUT.header raw)) s1) as H2.
  rewrite Hf in H1. rewrite Hg in H2. simpl in *. by rewrite H2, H1.
Qed.


Lemma cache_fetch_raw_input os lParam :
  preserves CACHED_DEVICES (fetch_raw_input os lParam).
Proof. unfold fetch_raw_input. frame. Qed.

(** A raw-input message from a device that is not cached: the payload is
    fetched, and resolving the device raises [NameError]; nothing is
    decoded and the callback is not called. *)
Lemma process_message_uncached os K callback hwnd wParam lParam s dwSize raw s1 :
  fetch_raw_input os lParam s = (Ok (dwSize, raw), s1) →
  CACHED_DEVICES s !! RAWINPUTHEADER.hDevice (RAWINPUT.header raw) = None →
  process_message os K callback hwnd WM_INPUT wParam lParam s = (Raise NameError, s1) ∧
  callbacks s1 = callbacks s.
Proof.
  intros Hf Hc. rewrite process_message_WM_INPUT, Hf.
  pose proof (cache_fetch_raw_input os lParam s) as H1.
  pose proof (callbacks_fetch_raw_input os lParam s) as H2.
  rewrite Hf in H1, H2. simpl in H1, H2.
  rewrite get_device_uncached by (by rewrite H1). done.
Qed.

(** C1: the keyboard branch builds the event of the claim from a payload of
    40 bytes with virtual-key code 0x41 and message code 256: type "down",
    device type "keyboard", name "a", and the payload's scan code as its
    code.  But [process_message] does not get there: it resolves the device
    first, and for a device that is not in the cache this raises
    [NameError] at the call of [get_device_name], so that the notification
    is dropped and the callback is not called. *)
Theorem keyboard_a_key_down_not_delivered os K callback hwnd wParam lParam s raw s1 :
  fetch_raw_input os lParam s = (Ok (40, raw), s1) →
  RAWINPUTHEADER.dwType (RAWINPUT.header raw) = 1 →
  RAWKEYBOARD.vk_code (RAWINPUT.keyboard raw) = 0x41 →
  RAWKEYBOARD.message (RAWINPUT.keyboard raw) = 256 →
  CACHED_DEVICES s !! RAWINPUTHEADER.hDevice (RAWINPUT.header raw) = None →
  process_message os K callback hwnd WM_INPUT wParam lParam s = (Raise NameError, s1) ∧
  callbacks s1 = callbacks s ∧
  ∀ device, ∃ event,
    decode K raw 40 device hwnd (perf_counter os) = Ok event ∧
    RawInputEvent.event_type event = u "down" ∧
    RawInputEvent.device_type event = u "keyboard" ∧
    RawInputEvent.name event = Some (u "a") ∧
    RawInputEvent.code event = RAWKEYBOARD.scan_code (RAWINPUT.keyboard raw) ∧
    RawInputEvent.device event = device.
Proof.
  intros Hf Ht Hvk Hm Hc.
  destruct (process_message_uncached os K callback hwnd wParam lParam s 40 raw s1 Hf Hc)
    as [Hp Hcb].
  split; [exact Hp|]. split; [exact Hcb|].
  intros device. eexists. split.
  - unfold decode, keyboard_event. rewrite Ht, Hvk, Hm. reflexivity.
  - done.
Qed.

Lemma keyboard_a_key_down_not_delivered_on_sample :
  process_message Demo.os Demo.KEY_NAMES_LOWER Demo.callback (Some 7) WM_INPUT 0 1
    initial_state = (Raise NameError, (fetch_raw_input Demo.os 1 initial_state).2) ∧
  callbacks (process_message Demo.os Demo.KEY_NAMES_LOWER Demo.callback (Some 7) WM_INPUT 0 1
               initial_state).2 = [].
Proof.
  destruct (keyboard_a_key_down_not_delivered Demo.os Demo.KEY_NAMES_LOWER Demo.callback
              (Some 7) 0 1 initial_state (Demo.key 30 0x41 WM_KEYDOWN)
              (fetch_raw_input Demo.os 1 initial_state).2) as (Hp & Hc & _).
  - vm_compute. reflexivity.
  - reflexivity.
  - reflexivity.
  - reflexivity.
  - reflexivity.
  - split; [exact Hp|]. rewrite Hp. exact Hc.
Defined.

(** C2: the mouse branch builds the events of the claim from a payload of
    48 bytes: with button field 0, a "move" event whose [delta_x] and
    [delta_y] are the payload's [lLastX] and [lLastY], whose name is [None]
    and whose code is the placeholder -1; with button field 1, a "down"
    event for button 1, named "left".  But [process_message] does not get
    there: it resolves the device first, and for a device that is not in
    the cache this raises [NameError] at the call of [get_device_name], so
    that the notification is dropped and the callback is not called. *)
Theorem mouse_move_or_left_down_not_delivered os K callback hwnd wParam lParam s raw s1 :
  fetch_raw_input os lParam s = (Ok (48, raw), s1) →
  RAWINPUTHEADER.dwType (RAWINPUT.header raw) = 0 →
  RAWMOUSE.ulButtons (RAWINPUT.mouse raw) = 0 ∨ RAWMOUSE.ulButtons (RAWINPUT.mouse raw) = 1 →
  CACHED_DEVICES s !! RAWINPUTHEADER.hDevice (RAWINPUT.header raw) = None →
  process_message os K callback hwnd WM_INPUT wParam lParam s = (Raise NameError, s1) ∧
  callbacks s1 = callbacks s ∧
  ∀ device, ∃ event,
    decode K raw 48 device hwnd (perf_counter os) = Ok event ∧
    RawInputEvent.device_type event = u "mouse" ∧
    RawInputEvent.device event = device ∧
    if decide (RAWMOUSE.ulButtons (RAWINPUT.mouse raw) = 0) then
      RawInputEvent.event_type event = u "move" ∧
      RawInputEvent.delta_x event = Some (RAWMOUSE.lLastX (RAWINPUT.mouse raw)) ∧
      RawInputEvent.delta_y event = Some (RAWMOUSE.lLastY (RAWINPUT.mouse raw)) ∧
      RawInputEvent.code event = -1 ∧
      RawInputEvent.name event = None
    else
      RawInputEvent.event_type event = u "down" ∧
      RawInputEvent.name event = Some (u "left") ∧
      RawInputEvent.code event = 1 ∧
      RawInputEvent.delta_x event = None ∧
      RawInputEvent.delta_y event = None.
Proof.
  intros Hf Ht Hb Hc.
  destruct (process_message_uncached os K callback hwnd wParam lParam s 48 raw s1 Hf Hc)
    as [Hp Hcb].
  split; [exact Hp|]. split; [exact Hcb|].
  intros device. unfold decode, mouse_event. rewrite Ht. simpl.
  destruct Hb as [-> | ->]; simpl; eexists; (split; [reflexivity|]); by simpl.
Qed.

Lemma mouse_move_and_left_down_not_delivered_on_sample :
  (process_message Demo.os Demo.KEY_NAMES_LOWER Demo.callback (Some 7) WM_INPUT 0 2
     initial_state = (Raise NameError, (fetch_raw_input Demo.os 2 initial_state).2) ∧
   callbacks (fetch_raw_input Demo.os 2 initial_state).2 = []) ∧
  (process_message Demo.os Demo.KEY_NAMES_LOWER Demo.callback (Some 7) WM_INPUT 0 3
     initial_state = (Raise NameError, (fetch_raw_input Demo.os 3 initial_state).2) ∧
   callbacks (fetch_raw_input Demo.os 3 initial_state).2 = []).
Proof.
  split.
  - destruct (mouse_move_or_left_down_not_delivered Demo.os Demo.KEY_NAMES_LOWER
                Demo.callback (Some 7) 0 2 initial_state (Demo.pointer 0 5 (-3))
                (fetch_raw_input Demo.os 2 initial_state).2) as (Hp & Hc & _).
    + vm_compute. reflexivity.
    + reflexivity.
    + left. reflexivity.
    + reflexivity.
    + split; [exact Hp|exact Hc].
  - destruct (mouse_move_or_left_down_not_delivered Demo.os Demo.KEY_NAMES_LOWER
                Demo.callback (Some 7) 0 3 initial_state (Demo.pointer 1 0 0)
                (fetch_raw_input Demo.os 3 initial_state).2) as (Hp & Hc & _).
    + vm_compute. reflexivity.
    + reflexivity.
    + right. reflexivity.
    + reflexivity.
    + split; [exact Hp|exact Hc].
Defined.

Lemma tail_length raw :
  length (RAWINPUT.tail raw)
  = Z.to_nat (RAWINPUT.sizeof - RAWINPUT.offsetof_bRawData).
Proof.
  unfold RAWINPUT.tail. rewrite length_take, length_app, length_replicate. lia.
Qed.

(** C3: the HID branch copies the first [size_hid * count] bytes that the
    [RAWINPUT] object holds from [bRawData] on, and no others, and names
    the event "<count> x <size_hid> bytes", as long as these bytes lie
    inside the object, which is created with a fixed size and has 16 bytes
    from [bRawData] on; for a longer report array the read leaves the
    object.  But [process_message] does not get to this branch: it
    resolves the device first, and for a device that is not in the cache
    this raises [NameError] at the call of [get_device_name], so that the
    notification is dropped and the callback is not called. *)
Theorem hid_reports_not_delivered os K callback hwnd wParam lParam s dwSize raw s1 :
  fetch_raw_input os lParam s = (Ok (dwSize, raw), s1) →
  RAWINPUTHEADER.dwType (RAWINPUT.header raw) = 2 →
  0 ≤ RAWHID.dwSizeHid (RAWINPUT.hid raw) →
  0 ≤ RAWHID.dwCount (RAWINPUT.hid raw) →
  CACHED_DEVICES s !! RAWINPUTHEADER.hDevice (RAWINPUT.header raw) = None →
  process_message os K callback hwnd WM_INPUT wParam lParam s = (Raise NameError, s1) ∧
  callbacks s1 = callbacks s ∧
  ∀ device,
    if decide (RAWHID.dwSizeHid (RAWINPUT.hid raw) * RAWHID.dwCount (RAWINPUT.hid raw) ≤ 16)
    then
      ∃ event bytes,
        decode K raw dwSize device hwnd (perf_counter os) = Ok event ∧
        RawInputEvent.event_type event = u "data" ∧
        RawInputEvent.name event =
          Some (str_of_int (RAWHID.dwCount (RAWINPUT.hid raw)) ++ u " x " ++
                str_of_int (RAWHID.dwSizeHid (RAWINPUT.hid raw)) ++ u " bytes") ∧
        RawInputEvent.data event = Some bytes ∧
        Z.of_nat (length bytes) =
          RAWHID.dwSizeHid (RAWINPUT.hid raw) * RAWHID.dwCount (RAWINPUT.hid raw) ∧
        bytes `prefix_of` RAWINPUT.tail raw
    else decode K raw dwSize device hwnd (perf_counter os) = Raise Undefined_read.
Proof.
  intros Hf Ht Hs Hn Hc.
  destruct (process_message_uncached os K callback hwnd wParam lParam s dwSize raw s1 Hf Hc)
    as [Hp Hcb].
  split; [exact Hp|]. split; [exact Hcb|].
  intros device. unfold decode, hid_event. rewrite Ht. simpl.
  change (RAWINPUT.sizeof - RAWINPUT.offsetof_bRawData) with 16.
  destruct (decide (_ ≤ 16)) as [Hle|Hgt]; [|reflexivity].
  eexists _, _. split; [reflexivity|]. simpl. do 3 (split; [reflexivity|]). split.
  - rewrite length_take, tail_length.
    change (RAWINPUT.sizeof - RAWINPUT.offsetof_bRawData) with 16. nia.
  - apply prefix_take.
Qed.

Lemma hid_reports_not_delivered_on_sample :
  process_message Demo.os Demo.KEY_NAMES_LOWER Demo.callback (Some 7) WM_INPUT 0 4
    initial_state = (Raise NameError, (fetch_raw_input Demo.os 4 initial_state).2) ∧
  callbacks (fetch_raw_input Demo.os 4 initial_state).2 = [] ∧
  ∃ event,
    decode Demo.KEY_NAMES_LOWER Demo.report 44
      (HID Demo.hid_handle [] 0 0 0 0 [] 0 []) (Some 7) 1000 = Ok event ∧
    RawInputEvent.name event = Some (u "3 x 4 bytes") ∧
    RawInputEvent.data event = Some (take 12 Demo.reports).
Proof.
  destruct (hid_reports_not_delivered Demo.os Demo.KEY_NAMES_LOWER Demo.callback (Some 7)
              0 4 initial_state 44 Demo.report
              (fetch_raw_input Demo.os 4 initial_state).2) as (Hp & Hc & _).
  - vm_compute. reflexivity.
  - reflexivity.
  - simpl. lia.
  - simpl. lia.
  - reflexivity.
  - split; [exact Hp|]. split; [exact Hc|].
    eexists. split; [vm_compute; reflexivity|]. split; reflexivity.
Defined.

(** The field of an f-string for a number below ten is its digit. *)
Lemma str_of_int_digits :
  str_of_int 0 = u "0" ∧ str_of_int 3 = u "3" ∧ str_of_int 4 = u "4" ∧
  str_of_int 12 = u "12" ∧ str_of_int 4294967295 = u "4294967295".
Proof. repeat split; by vm_compute. Qed.

(** The event built for a keyboard payload: its name and keypad flag come
    from [VIRTUAL_KEYBOARD] when the virtual-key code is a key there, and
    its name from the scan-code table otherwise. *)
Lemma keyboard_event_name (K : gmap Z str) raw dwSize device hwnd event_time event :
  keyboard_event K raw dwSize device hwnd event_time = Ok event →
  match VIRTUAL_KEYBOARD !! RAWKEYBOARD.vk_code (RAWINPUT.keyboard raw) with
  | Some (key_name, is_keypad) =>
      RawInputEvent.name event = Some key_name ∧
      RawInputEvent.device_type event = (if is_keypad : bool then u "keypad" else u "keyboard")
  | None =>
      RawInputEvent.name event = K !! RAWKEYBOARD.scan_code (RAWINPUT.keyboard raw) ∧
      RawInputEvent.device_type event = u "keyboard"
  end.
Proof.
  unfold keyboard_event, assert, subscript.
  destruct (VIRTUAL_KEYBOARD !! _) as [[key_name is_keypad]|];
    destruct (KEY_EVENT_TYPE !! _) as [evt_type|];
    [| |destruct (K !! _) as [scan_name|]..];
    case_bool_decide; simpl; intros [=]; subst event; simpl; split; reflexivity.
Qed.

(** A keyboard payload is decoded whenever it has the keyboard payload
    size, its message code is a key of [KEY_EVENT_TYPE], and its
    virtual-key code is in [VIRTUAL_KEYBOARD] or its scan code in the
    scan-code table. *)
Lemma keyboard_event_decoded (K : gmap Z str) raw device hwnd event_time :
  is_Some (KEY_EVENT_TYPE !! RAWKEYBOARD.message (RAWINPUT.keyboard raw)) →
  is_Some (VIRTUAL_KEYBOARD !! RAWKEYBOARD.vk_code (RAWINPUT.keyboard raw)) ∨
  is_Some (K !! RAWKEYBOARD.scan_code (RAWINPUT.keyboard raw)) →
  ∃ event, keyboard_event K raw 40 device hwnd event_time = Ok event.
Proof.
  intros [evt_type He] Hk.
  unfold keyboard_event, assert, subscript. rewrite He.
  destruct (VIRTUAL_KEYBOARD !! _) as [[key_name is_keypad]|].
  - simpl. eexists. reflexivity.
  - destruct Hk as [[? [=]]|[key_name ->]]. simpl. eexists. reflexivity.
Qed.

(** C7: the event that the keyboard branch builds from a payload of 40
    bytes whose message code is a key of [KEY_EVENT_TYPE].  If the
    virtual-key code is a key of [VIRTUAL_KEYBOARD], the event's name is
    that entry's name and its device type is "keypad" or "keyboard" by that
    entry's keypad flag, whatever the scan-code table holds.  Otherwise the
    event's name is the entry of the scan-code table [KEY_NAMES_LOWER] for
    the payload's scan code and its device type is "keyboard"; a scan code
    that is not in that table raises [KeyError]. *)
Theorem keyboard_name_from_tables (K : gmap Z str) raw device hwnd event_time evt_type :
  RAWINPUTHEADER.dwType (RAWINPUT.header raw) = 1 →
  KEY_EVENT_TYPE !! RAWKEYBOARD.message (RAWINPUT.keyboard raw) = Some evt_type →
  let scan_code := RAWKEYBOARD.scan_code (RAWINPUT.keyboard raw) in
  decode K raw 40 device hwnd event_time =
    match VIRTUAL_KEYBOARD !! RAWKEYBOARD.vk_code (RAWINPUT.keyboard raw) with
    | Some (key_name, is_keypad) =>
        Ok (RawInputEvent.Build_t evt_type scan_code (Some key_name)
              (if is_keypad : bool then u "keypad" else u "keyboard")
              device None None hwnd event_time None)
    | None =>
        match K !! scan_code with
        | Some key_name =>
            Ok (RawInputEvent.Build_t evt_type scan_code (Some key_name) (u "keyboard")
                  device None None hwnd event_time None)
        | None => Raise KeyError
        end
    end.
Proof.
  intros Ht He. unfold decode, keyboard_event, assert, subscript. rewrite Ht, He. simpl.
  destruct (VIRTUAL_KEYBOARD !! _) as [[key_name is_keypad]|]; [reflexivity|].
  by destruct (K !! _).
Qed.

Lemma keyboard_name_from_tables_on_sample :
  let device := Keyboard Demo.keyboard_handle [] [] 0 0 0 0 0 in
  decode Demo.KEY_NAMES_LOWER (Demo.key 30 0x41 WM_KEYDOWN) 40 device (Some 7) 1000 =
    Ok (RawInputEvent.Build_t (u "down") 30 (Some (u "a")) (u "keyboard")
          device None None (Some 7) 1000 None) ∧
  decode Demo.KEY_NAMES_LOWER (Demo.key 82 0x60 WM_KEYUP) 40 device (Some 7) 1000 =
    Ok (RawInputEvent.Build_t (u "up") 82 (Some (u "0")) (u "keypad")
          device None None (Some 7) 1000 None) ∧
  decode Demo.KEY_NAMES_LOWER (Demo.key 39 0xba WM_KEYDOWN) 40 device (Some 7) 1000 =
    Ok (RawInputEvent.Build_t (u "down") 39 (Some (u ";")) (u "keyboard")
          device None None (Some 7) 1000 None) ∧
  decode ∅ (Demo.key 39 0xba WM_KEYDOWN) 40 device (Some 7) 1000 = Raise KeyError.
Proof.
  cbn zeta. split; [|split; [|split]].
  - rewrite (keyboard_name_from_tables Demo.KEY_NAMES_LOWER (Demo.key 30 0x41 WM_KEYDOWN)
               _ _ _ (u "down")) by (vm_compute; reflexivity).
    vm_compute. reflexivity.
  - rewrite (keyboard_name_from_tables Demo.KEY_NAMES_LOWER (Demo.key 82 0x60 WM_KEYUP)
               _ _ _ (u "up")) by (vm_compute; reflexivity).
    vm_compute. reflexivity.
  - rewrite (keyboard_name_from_tables Demo.KEY_NAMES_LOWER (Demo.key 39 0xba WM_KEYDOWN)
               _ _ _ (u "down")) by (vm_compute; reflexivity).
    vm_compute. reflexivity.
  - rewrite (keyboard_name_from_tables ∅ (Demo.key 39 0xba WM_KEYDOWN)
               _ _ _ (u "down")) by (vm_compute; reflexivity).
    vm_compute. reflexivity.
Defined.

(** The keypad digits are classified as "keypad". *)
Lemma keypad_entries :
  VIRTUAL_KEYBOARD !! 0x60 = Some (u "0", true) ∧
  VIRTUAL_KEYBOARD !! 0x41 = Some (u "a", false) ∧
  VIRTUAL_KEYBOARD !! 0x15 = Some (u "ime hangul mode", false) ∧
  VIRTUAL_KEYBOARD !! 0xba = None.
Proof. repeat split; by vm_compute. Qed.

(** ** The installed window procedure *)

Lemma set_window_procedure_process_message_run os procedure call_original prevWndProc
    hwnd msg wParam lParam s :
  set_window_procedure_process_message os procedure call_original prevWndProc
    hwnd msg wParam lParam s =
    match procedure hwnd msg wParam lParam s with
    | (Raise e, s1) => (Raise e, s1)
    | (Ok _, s1) =>
        if call_original then
          (Ok (CallWindowProc os prevWndProc hwnd msg wParam lParam),
           performed (OS_CallWindowProc prevWndProc hwnd msg wParam lParam) s1)
        else
          (Ok (DefWindowProcA os hwnd msg wParam lParam),
           performed (OS_DefWindowProcA hwnd msg wParam lParam) s1)
    end.
Proof.
  unfold set_window_procedure_process_message, mbind, M_bind.
  destruct (procedure hwnd msg wParam lParam s) as [[[]|e] s1]; [|done].
  by destruct call_original.
Qed.

(** A raw-input message for which the hook returns was decoded, and the
    callback called once. *)
Lemma process_message_Ok_callbacks os K callback hwnd wParam lParam s r s1 :
  process_message os K callback hwnd WM_INPUT wParam lParam s = (Ok r, s1) →
  ∃ event, callbacks s1 = callbacks s ++ [event].
Proof.
  rewrite process_message_WM_INPUT.
  pose proof (callbacks_fetch_raw_input os lParam s) as H1.
  destruct (fetch_raw_input os lParam s) as [[[dwSize raw]|e] s']; simpl in H1; [|done].
  pose proof (callbacks_get_device os (RAWINPUTHEADER.dwType (RAWINPUT.header raw))
                (RAWINPUTHEADER.hDevice (RAWINPUT.header raw)) s') as H2.
  destruct (get_device _ _ _ _) as [[device|e] s2]; simpl in H2; [|done].
  destruct (decode _ _ _ _ _ _) as [event|e]; [|done].
  intros [= _ <-]. exists event. by rewrite callbacks_performed, H2, H1.
Qed.

(** *** What [hook_raw_input_for_window] installs *)

Lemma hook_raw_input_for_window_run os hwnd callback device_types s :
  hook_raw_input_for_window os hwnd callback device_types s =
    if truthy_handle hwnd then
      match set_window_procedure os hwnd (hook_process_message callback) true s with
      | (Ok _, s1) => for_each (enable_raw_input_for_window os hwnd) device_types s1
      | (Raise e, s1) => (Raise e, s1)
      end
    else
      match invisible_window os (hook_process_message callback) s with
      | (Ok h_window, s1) =>
          for_each (enable_raw_input_for_window os h_window) device_types s1
      | (Raise e, s1) => (Raise e, s1)
      end.
Proof.
  unfold hook_raw_input_for_window, mbind, M_bind, mret, M_ret.
  destruct (truthy_handle hwnd).
  - by destruct (set_window_procedure _ _ _ _ _) as [[[]|e] s1].
  - by destruct (invisible_window _ _ _) as [[h|e] s1].
Qed.

Lemma set_window_procedure_run os hwnd procedure call_original s :
  let answer := SetWindowLongPtrA os hwnd in
  let wndproc := set_window_procedure_process_message_of procedure call_original in
  (set_window_procedure os hwnd procedure call_original s).1 =
    (if decide (ret answer = 0) then Raise (WinError (err answer)) else Ok ()) ∧
  trace (set_window_procedure os hwnd procedure call_original s).2 =
    trace s ++ [OS_SetWindowLongPtrA hwnd wndproc] ∧
  _REGISTERED_PROCEDURES_REFS (set_window_procedure os hwnd procedure call_original s).2 =
    _REGISTERED_PROCEDURES_REFS s ++ [new_window_procedure wndproc] ∧
  CACHED_DEVICES (set_window_procedure os hwnd procedure call_original s).2 =
    CACHED_DEVICES s.
Proof.
  unfold set_window_procedure, keep_alive, raise_WinError, GetLastError, os_call, raise,
    mbind, M_bind, mret, M_ret, truthy. simpl.
  destruct (Z.eqb_spec (ret (SetWindowLongPtrA os hwnd)) 0); by case_decide.
Qed.




Lemma preserves_for_each {X A} (g : State → X) (f : A → M ()) l :
  (∀ x, preserves g (f x)) → preserves g (for_each f l).
Proof.
  intros Hf. induction l as [|x l IH]; simpl; [by intros s|].
  apply preserves_bind; [apply Hf|]. by intros _.
Qed.




(** ** Enumeration *)


Lemma comprehension_get_device os array : ∀ s devices s1,
  cache_consistent s →
  comprehension (λ dev, get_device os (RAWINPUTDEVICELIST.dwType dev)
                          (RAWINPUTDEVICELIST.hDevice dev)) array s = (Ok devices, s1) →
  handle <$> devices = RAWINPUTDEVICELIST.hDevice <$> array ∧
  cache_consistent s1 ∧
  CACHED_DEVICES s ⊆ CACHED_DEVICES s1 ∧
  ∀ d, d ∈ devices → CACHED_DEVICES s1 !! handle d = Some d.
Proof.
  induction array as [|dev array IH]; intros s devices s1 Hs; simpl.
  - intros [= <- <-]. repeat split; [done..|]. by intros d Hd%elem_of_nil.
  - intros (y & sa & Hy & Hrest)%bind_Ok.
    apply bind_Ok in Hrest as (ys & sb & Hys & [= <- <-]).
    assert (cache_consistent sa) as Hsa by (by eapply get_device_consistent).
    destruct (IH _ _ _ Hsa Hys) as (Hh & Hsb & Hsub & Hin).
    assert (handle y = RAWINPUTDEVICELIST.hDevice dev ∧
            CACHED_DEVICES sa !! handle y = Some y ∧
            CACHED_DEVICES s ⊆ CACHED_DEVICES sa) as (Hhy & Hcy & Hsub').
    { destruct (get_device_inv _ _ _ _ _ _ Hy) as [Hc ->].
      by rewrite (Hs _ _ Hc). }
    split; [by rewrite fmap_cons, Hh, Hhy|]. split; [done|].
    split; [by etrans|].
    intros d [->|Hd]%elem_of_cons; [|by apply Hin].
    by eapply lookup_weaken.
Qed.


Lemma dict_by_handle_lookup (devices : list RawInputDevice) (c : gmap HANDLE RawInputDevice) d :
  (∀ d, d ∈ devices → c !! handle d = Some d) →
  d ∈ devices →
  dict_display ((λ d, (handle d, d)) <$> devices) !! handle d = Some d.
Proof.
  intros Hc Hd.
  assert (is_Some (dict_display ((λ d, (handle d, d)) <$> devices) !! handle d))
    as [d' Hd'].
  { apply dict_display_is_Some. rewrite <- list_fmap_compose.
    apply list_elem_of_fmap. by exists d. }
  rewrite Hd'. f_equal.
  apply dict_display_lookup, list_elem_of_fmap in Hd' as (d'' & [= Hh ->] & Hin).
  apply Hc in Hin. apply Hc in Hd. rewrite <- Hh in Hin. congruence.
Qed.



(** C5: [list_devices] enumerates the devices and resolves them one by
    one before it touches the cache, and resolving a device that is not in
    the cache raises [NameError] at the call of [get_device_name].  So when
    the enumeration gives an array whose first entry is not cached, as it
    does whenever a device is attached and nothing has been cached,
    [list_devices] raises [NameError] after the two enumeration calls:
    nothing is returned, and the cache is left as it was. *)
Theorem list_devices_raises_at_first_device os s dev array s1 :
  get_raw_input_device_list os s = (Ok (dev :: array), s1) →
  CACHED_DEVICES s !! RAWINPUTDEVICELIST.hDevice dev = None →
  list_devices os s = (Raise NameError, s1) ∧
  CACHED_DEVICES s1 = CACHED_DEVICES s ∧
  trace s1 = trace s ++ [OS_GetRawInputDeviceList false; OS_GetRawInputDeviceList true].
Proof.
  intros Ha Hc.
  pose proof (cache_get_raw_input_device_list os s) as Hc1.
  rewrite Ha in Hc1. simpl in Hc1.
  split; [|split; [exact Hc1|]].
  - unfold list_devices. unfold mbind at 1, M_bind at 1. rewrite Ha.
    unfold mbind at 1, M_bind at 1. simpl.
    unfold mbind at 1, M_bind at 1.
    by rewrite get_device_uncached by (by rewrite Hc1).
  - revert Ha.
    unfold get_raw_input_device_list, raise_WinError, GetLastError, os_call, raise,
      mbind, M_bind, mret, M_ret. cbn [fst snd].
    case_decide; [done|]. case_decide; [done|]. intros [= _ <-]. simpl.
    by rewrite <- app_assoc.
Qed.

Lemma list_devices_raises_on_sample :
  list_devices Demo.os initial_state =
    (Raise NameError, (get_raw_input_device_list Demo.os initial_state).2) ∧
  CACHED_DEVICES (list_devices Demo.os initial_state).2 = ∅ ∧
  trace (list_devices Demo.os initial_state).2 =
    [OS_GetRawInputDeviceList false; OS_GetRawInputDeviceList true].
Proof.
  destruct (list_devices_raises_at_first_device Demo.os initial_state
              (RAWINPUTDEVICELIST.Build_t Demo.keyboard_handle 1)
              [ RAWINPUTDEVICELIST.Build_t Demo.mouse_handle 0;
                RAWINPUTDEVICELIST.Build_t Demo.hid_handle 2 ]
              (get_raw_input_device_list Demo.os initial_state).2) as (Hl & Hc & Ht).
  - vm_compute. reflexivity.
  - reflexivity.
  - split; [exact Hl|]. rewrite Hl. split; [exact Hc|exact Ht].
Defined.


(** ** The scan-code name tables *)

Lemma key_names_for_scan_code_dom os scan_code_to_vk acc scan_code acc' :
  key_names_for_scan_code os scan_code_to_vk acc scan_code = Ok acc' →
  dom acc'.1 = {[scan_code]} ∪ dom acc.1.
Proof.
  unfold key_names_for_scan_code. destruct acc as [names buffer]. simpl.
  unfold subscript, mbind, outcome_bind.
  repeat case_match; try discriminate;
    repeat match goal with
           | H : (_, _) = (_, _) |- _ => injection H as ? ?; subst
           | H : Ok _ = Ok _ |- _ => injection H as ?; subst
           | H : Raise _ = Ok _ |- _ => discriminate H
           end;
    intros [= <-]; simpl; rewrite ?dom_insert_L;
    apply set_eq; intros x; rewrite ?elem_of_union, ?elem_of_singleton; tauto.
Qed.

Lemma foldlM_key_names_dom os scan_code_to_vk scan_codes : ∀ acc acc',
  foldlM (key_names_for_scan_code os scan_code_to_vk) scan_codes acc = Ok acc' →
  dom acc'.1 = list_to_set scan_codes ∪ dom acc.1.
Proof.
  induction scan_codes as [|scan_code scan_codes IH]; intros acc acc'; simpl.
  - intros [= <-]. by rewrite ?list_to_set_nil, (left_id_L ∅ (∪)).
  - unfold mbind, outcome_bind.
    destruct (key_names_for_scan_code _ _ _ _) as [acc1|e] eqn:H1; [|done].
    intros H2. rewrite (IH _ _ H2), (key_names_for_scan_code_dom _ _ _ _ _ H1).
    rewrite ?list_to_set_cons. apply set_eq. intros x.
    rewrite !elem_of_union. tauto.
Qed.

(** When the tables are built, both have an entry for each of the scan
    codes 0 to 127 and for 541, and for no other. *)
Lemma _create_key_name_tables_keys os lower upper scan_code :
  _create_key_name_tables os = Ok (lower, upper) →
  (is_Some (lower !! scan_code) ↔ 0 ≤ scan_code < 128 ∨ scan_code = 541) ∧
  (is_Some (upper !! scan_code) ↔ 0 ≤ scan_code < 128 ∨ scan_code = 541).
Proof.
  unfold _create_key_name_tables.
  destruct (foldlM _ _ _) as [[names buffer]|e] eqn:Hf; [|done].
  intros [= <- <-]. apply foldlM_key_names_dom in Hf. cbn [fst] in Hf.
  rewrite dom_empty_L, (right_id_L ∅ (∪)) in Hf.
  rewrite <- !elem_of_dom, !dom_fmap_L, dom_insert_L, Hf.
  rewrite elem_of_union, elem_of_singleton, elem_of_list_to_set, elem_of_seqZ.
  change (2 ^ (23 - 16)) with 128. split; split; intros; lia.
Qed.

(** The override for the scan code 541 is in both tables. *)
Lemma _create_key_name_tables_alt_gr os lower upper :
  _create_key_name_tables os = Ok (lower, upper) →
  lower !! 541 = Some (u "alt gr") ∧ upper !! 541 = Some (u "alt gr").
Proof.
  unfold _create_key_name_tables.
  destruct (foldlM _ _ _) as [[names buffer]|e]; [|done].
  intros [= <- <-]. by rewrite !lookup_fmap, lookup_insert_eq.
Qed.

(** * Further properties *)

(** ** The device cache, continued *)

(** What [get_device] does to the cache, whatever its outcome. *)
Lemma get_device_cache os dw_type h s :
  match get_device os dw_type h s with
  | (Ok d, s') =>
      CACHED_DEVICES s' = <[h := d]> (CACHED_DEVICES s) ∧
      (CACHED_DEVICES s !! h = None ∨ CACHED_DEVICES s !! h = Some d)
  | (Raise _, s') => CACHED_DEVICES s' = CACHED_DEVICES s
  end.
Proof.
  rewrite get_device_outcome.
  destruct (CACHED_DEVICES s !! h) as [d'|] eqn:Hc; [|done].
  split; [|by right]. by rewrite insert_id.
Qed.

Lemma get_device_cache_subseteq os dw_type h s :
  CACHED_DEVICES s ⊆ CACHED_DEVICES (get_device os dw_type h s).2.
Proof. by rewrite get_device_state. Qed.

(** X2: [get_device] changes the cache in one way only.  When it returns a
    device, the cache afterwards is the cache before with that device
    stored under the handle, and a device that was already stored there is
    the one returned, so no entry is ever replaced by a different one; when
    it raises, the cache is as before. *)
Theorem get_device_changes_cache_only_by_adding os dw_type h s :
  match get_device os dw_type h s with
  | (Ok d, s') =>
      CACHED_DEVICES s' = <[h := d]> (CACHED_DEVICES s) ∧
      (CACHED_DEVICES s !! h = None ∨ CACHED_DEVICES s !! h = Some d) ∧
      CACHED_DEVICES s ⊆ CACHED_DEVICES s'
  | (Raise _, s') => CACHED_DEVICES s' = CACHED_DEVICES s
  end.
Proof.
  pose proof (get_device_cache os dw_type h s) as Hc.
  pose proof (get_device_cache_subseteq os dw_type h s) as Hsub.
  destruct (get_device os dw_type h s) as [[d|e] s']; [|done].
  destruct Hc as [H1 H2]. done.
Qed.

(** ** Enumeration, continued *)




(** ** The decoder, continued *)

Lemma KEY_EVENT_TYPE_entries :
  KEY_EVENT_TYPE = {[ 256 := u "down"; 257 := u "up"; 260 := u "down" ]}.
Proof. vm_compute. reflexivity. Qed.

Lemma KEY_EVENT_TYPE_lookup message evt_type :
  KEY_EVENT_TYPE !! message = Some evt_type ↔
  (message = 256 ∨ message = 260) ∧ evt_type = u "down" ∨
  message = 257 ∧ evt_type = u "up".
Proof.
  rewrite KEY_EVENT_TYPE_entries.
  rewrite !lookup_insert_Some, lookup_singleton_Some.
  split.
  - intros [[<- <-]|[_ [[<- <-]|[_ [<- <-]]]]]; auto.
  - intros [[[-> | ->] ->]|[-> ->]].
    + by left.
    + right. split; [lia|]. right. split; [lia|done].
    + right. split; [lia|]. by left.
Qed.

Lemma keyboard_event_inv (K : gmap Z str) raw dwSize device hwnd event_time event :
  keyboard_event K raw dwSize device hwnd event_time = Ok event →
  dwSize = 40 ∧
  KEY_EVENT_TYPE !! RAWKEYBOARD.message (RAWINPUT.keyboard raw)
    = Some (RawInputEvent.event_type event) ∧
  (is_Some (VIRTUAL_KEYBOARD !! RAWKEYBOARD.vk_code (RAWINPUT.keyboard raw)) ∨
   is_Some (K !! RAWKEYBOARD.scan_code (RAWINPUT.keyboard raw))) ∧
  RawInputEvent.code event = RAWKEYBOARD.scan_code (RAWINPUT.keyboard raw) ∧
  RawInputEvent.device event = device ∧
  RawInputEvent.hwnd event = hwnd ∧
  RawInputEvent.time event = event_time ∧
  RawInputEvent.delta_x event = None ∧
  RawInputEvent.delta_y event = None ∧
  RawInputEvent.data event = None.
Proof.
  unfold keyboard_event, assert, subscript.
  destruct (KEY_EVENT_TYPE !! _) as [evt_type|];
    (destruct (VIRTUAL_KEYBOARD !! _) as [[key_name is_keypad]|];
       [|destruct (K !! _) as [scan_name|]]);
    case_bool_decide; simpl; intros [=]; subst event; simpl;
    (split; [done|]); (split; [done|]); (split; [eauto|]); done.
Qed.

(** X6: which keyboard payloads are decoded.  A keyboard payload gives an
    event exactly when its size is 40, its message code is 256, 257 or 260,
    and its virtual-key code is a key of [VIRTUAL_KEYBOARD] or its scan code
    a key of the scan-code table; every other keyboard payload raises.  The
    event's type is "up" for message code 257 and "down" for 256 and 260,
    its code is the scan code, and it carries no deltas and no data. *)
Theorem keyboard_event_decoded_iff (K : gmap Z str) raw dwSize device hwnd event_time :
  let keyboard := RAWINPUT.keyboard raw in
  ((∃ event, keyboard_event K raw dwSize device hwnd event_time = Ok event) ↔
   dwSize = 40 ∧
   (RAWKEYBOARD.message keyboard = 256 ∨ RAWKEYBOARD.message keyboard = 257 ∨
    RAWKEYBOARD.message keyboard = 260) ∧
   (is_Some (VIRTUAL_KEYBOARD !! RAWKEYBOARD.vk_code keyboard) ∨
    is_Some (K !! RAWKEYBOARD.scan_code keyboard))) ∧
  (∀ event, keyboard_event K raw dwSize device hwnd event_time = Ok event →
     RawInputEvent.event_type event =
       (if decide (RAWKEYBOARD.message keyboard = 257) then u "up" else u "down") ∧
     RawInputEvent.code event = RAWKEYBOARD.scan_code keyboard ∧
     RawInputEvent.device event = device ∧
     RawInputEvent.hwnd event = hwnd ∧
     RawInputEvent.time event = event_time ∧
     RawInputEvent.delta_x event = None ∧
     RawInputEvent.delta_y event = None ∧
     RawInputEvent.data event = None).
Proof.
  simpl. split; [split|].
  - intros [event (Hs & He & Hk & _)%keyboard_event_inv].
    apply KEY_EVENT_TYPE_lookup in He. split; [done|]. split; [|done].
    destruct He as [[[?|?] _]|[? _]]; auto.
  - intros (-> & Hm & Hk). apply keyboard_event_decoded; [|done].
    destruct Hm as [Hm|[Hm|Hm]]; rewrite Hm; eexists; apply KEY_EVENT_TYPE_lookup;
      auto.
  - intros event (_ & He & _ & Hrest)%keyboard_event_inv. split; [|done].
    apply KEY_EVENT_TYPE_lookup in He.
    destruct He as [[[?|?] ->]|[? ->]]; case_decide; done || lia.
Qed.

Lemma keyboard_event_decoded_iff_on_sample :
  ∃ event,
    keyboard_event Demo.KEY_NAMES_LOWER (Demo.key 30 0x41 WM_KEYUP) 40
      (Mouse None [] [] 0 None false) (Some 7) 1000 = Ok event ∧
    RawInputEvent.event_type event = u "up" ∧
    RawInputEvent.code event = 30.
Proof.
  destruct (keyboard_event_decoded_iff Demo.KEY_NAMES_LOWER (Demo.key 30 0x41 WM_KEYUP) 40
              (Mouse None [] [] 0 None false) (Some 7) 1000) as [[_ Hex] Hshape].
  destruct Hex as [event He].
  - split; [reflexivity|]. split; [right; left; reflexivity|].
    left. vm_compute. eexists. reflexivity.
  - exists event. split; [exact He|].
    destruct (Hshape event He) as (Ht & Hc & _). split; [exact Ht|exact Hc].
Defined.

Lemma MOUSE_BUTTONS_entries :
  map_Forall (λ button entry,
      button ∈ [1; 2; 4; 8; 16; 32; 64; 128; 256; 512; 7865344; 4287104000] ∧
      entry.1.1 ∈ [u "down"; u "up"; u "wheel-up"; u "wheel-down"] ∧
      1 ≤ entry.1.2 ≤ 5 ∧
      (entry.1.1 = u "down" ↔ button ∈ [1; 4; 16; 64; 256]) ∧
      (entry.1.1 = u "up" ↔ button ∈ [2; 8; 32; 128; 512]))
    MOUSE_BUTTONS ∧
  Forall (λ button, is_Some (MOUSE_BUTTONS !! button))
    [1; 2; 4; 8; 16; 32; 64; 128; 256; 512; 7865344; 4287104000].
Proof. split; apply (bool_decide_unpack _); vm_compute; exact I. Qed.

(** X7: which mouse payloads are decoded.  A mouse payload gives an event
    exactly when its size is 48 and its button field is 0 or one of the
    twelve keys of [MOUSE_BUTTONS]; a button field that combines flags, such
    as 3, raises.  Only the event for button field 0 carries deltas and only
    it has no name; the event for any other button field has a button index
    from 1 to 5, and its type is "down" or "up" exactly for the ten
    pressed and released codes. *)
Theorem mouse_event_decoded_iff raw dwSize device hwnd event_time :
  let button := RAWMOUSE.ulButtons (RAWINPUT.mouse raw) in
  ((∃ event, mouse_event raw dwSize device hwnd event_time = Ok event) ↔
   dwSize = 48 ∧
   button ∈ [0; 1; 2; 4; 8; 16; 32; 64; 128; 256; 512; 7865344; 4287104000]) ∧
  (∀ event, mouse_event raw dwSize device hwnd event_time = Ok event →
     RawInputEvent.device_type event = u "mouse" ∧
     RawInputEvent.data event = None ∧
     if decide (button = 0) then
       RawInputEvent.event_type event = u "move" ∧
       RawInputEvent.name event = None ∧
       is_Some (RawInputEvent.delta_x event) ∧ is_Some (RawInputEvent.delta_y event)
     else
       is_Some (RawInputEvent.name event) ∧
       1 ≤ RawInputEvent.code event ≤ 5 ∧
       (RawInputEvent.event_type event = u "down" ↔ button ∈ [1; 4; 16; 64; 256]) ∧
       (RawInputEvent.event_type event = u "up" ↔ button ∈ [2; 8; 32; 128; 512]) ∧
       RawInputEvent.delta_x event = None ∧ RawInputEvent.delta_y event = None).
Proof.
  simpl. destruct MOUSE_BUTTONS_entries as [Hall Hkeys].
  rewrite Forall_forall in Hkeys.
  unfold mouse_event, assert, subscript.
  split; [split|].
  - intros [event He]. case_bool_decide; [|done]. split; [done|].
    simpl in He. case_decide as Hb; [rewrite Hb; by left|]. right.
    destruct (MOUSE_BUTTONS !! _) as [entry|] eqn:Hl; [|done].
    by destruct (Hall _ _ Hl) as [? _].
  - intros [-> [->|Hb]%elem_of_cons]; simpl; [by eexists|].
    case_decide; [by eexists|].
    destruct (Hkeys _ Hb) as [[[evt_type button_id] button_name] ->]. by eexists.
  - intros event. case_bool_decide; [|done]. simpl.
    case_decide as Hb.
    + intros [= <-]. simpl. by eauto.
    + destruct (MOUSE_BUTTONS !! _) as [[[evt_type button_id] button_name]|] eqn:Hl;
        [|done].
      intros [= <-]. simpl.
      destruct (Hall _ _ Hl) as (_ & _ & ? & ? & ?). simpl in *. by eauto 10.
Qed.

Lemma mouse_event_decoded_iff_on_sample :
  (∃ event, mouse_event (Demo.pointer 7865344 0 0) 48 (Mouse None [] [] 0 None false)
              (Some 7) 1000 = Ok event) ∧
  ¬ (∃ event, mouse_event (Demo.pointer 3 0 0) 48 (Mouse None [] [] 0 None false)
                (Some 7) 1000 = Ok event).
Proof.
  split.
  - apply (proj1 (mouse_event_decoded_iff (Demo.pointer 7865344 0 0) 48
                    (Mouse None [] [] 0 None false) (Some 7) 1000)).
    split; [reflexivity|]. apply (bool_decide_unpack _). vm_compute. exact I.
  - intros Hex.
    apply (proj1 (mouse_event_decoded_iff (Demo.pointer 3 0 0) 48
                    (Mouse None [] [] 0 None false) (Some 7) 1000)) in Hex.
    destruct Hex as [_ Hin]. revert Hin. apply (bool_decide_unpack _).
    vm_compute. exact I.
Defined.

(** ** Notifications that are not delivered *)

(** X8: a keyboard payload whose virtual-key code is not a key of
    [VIRTUAL_KEYBOARD] and whose scan code is neither between 0 and 127 nor
    541 is outside the scan-code table that [_create_key_name_tables]
    builds: the keyboard branch raises [KeyError] for it, whatever its
    message code, and builds no event. *)
Theorem keyboard_scan_code_outside_table os lower upper raw device hwnd event_time :
  _create_key_name_tables os = Ok (lower, upper) →
  RAWINPUTHEADER.dwType (RAWINPUT.header raw) = 1 →
  VIRTUAL_KEYBOARD !! RAWKEYBOARD.vk_code (RAWINPUT.keyboard raw) = None →
  ¬ (0 ≤ RAWKEYBOARD.scan_code (RAWINPUT.keyboard raw) < 128 ∨
     RAWKEYBOARD.scan_code (RAWINPUT.keyboard raw) = 541) →
  decode lower raw 40 device hwnd event_time = Raise KeyError.
Proof.
  intros Ht Hty Hvk Hsc.
  destruct (_create_key_name_tables_keys os lower upper
              (RAWKEYBOARD.scan_code (RAWINPUT.keyboard raw)) Ht) as [Hlow _].
  assert (lower !! RAWKEYBOARD.scan_code (RAWINPUT.keyboard raw) = None) as Hn.
  { apply eq_None_not_Some. by rewrite Hlow. }
  unfold decode. rewrite Hty. simpl.
  unfold keyboard_event, assert, subscript. by rewrite Hvk, Hn.
Qed.

Lemma keyboard_scan_code_outside_table_on_sample :
  decode Demo.KEY_NAMES_LOWER (Demo.key 284 0xba WM_KEYDOWN) 40
    (Keyboard Demo.keyboard_handle [] [] 0 0 0 0 0) (Some 7) 1000 = Raise KeyError.
Proof.
  refine (keyboard_scan_code_outside_table Demo.os Demo.KEY_NAMES_LOWER
            (match _create_key_name_tables Demo.os with
             | Ok (_, up) => up
             | Raise _ => ∅
             end) (Demo.key 284 0xba WM_KEYDOWN) _ _ _ _ _ _ _).
  - vm_compute. reflexivity.
  - reflexivity.
  - vm_compute. reflexivity.
  - simpl. lia.
Defined.

(** X9: a notification of a device class other than 0, 1 and 2 is never
    delivered: once it is fetched, [process_message] raises, the callback
    is not called and the cache is left as it was; when the handle is
    cached, the error is the unsupported-class error. *)
Theorem unsupported_class_not_delivered os K callback hwnd wParam lParam s dwSize raw s1 :
  fetch_raw_input os lParam s = (Ok (dwSize, raw), s1) →
  RAWINPUTHEADER.dwType (RAWINPUT.header raw) ≠ 0 →
  RAWINPUTHEADER.dwType (RAWINPUT.header raw) ≠ 1 →
  RAWINPUTHEADER.dwType (RAWINPUT.header raw) ≠ 2 →
  ∃ e s',
    process_message os K callback hwnd WM_INPUT wParam lParam s = (Raise e, s') ∧
    callbacks s' = callbacks s ∧
    CACHED_DEVICES s' = CACHED_DEVICES s ∧
    (is_Some (CACHED_DEVICES s !! RAWINPUTHEADER.hDevice (RAWINPUT.header raw)) →
     e = NotImplementedError).
Proof.
  intros Hf H0 H1 H2.
  pose proof (callbacks_fetch_raw_input os lParam s) as Hcb.
  assert (preserves CACHED_DEVICES (fetch_raw_input os lParam)) as Hca
    by (unfold fetch_raw_input; frame).
  specialize (Hca s). rewrite Hf in Hcb, Hca. simpl in Hcb, Hca.
  rewrite process_message_WM_INPUT, Hf.
  assert (∀ device, decode K raw dwSize device hwnd (perf_counter os)
                    = Raise NotImplementedError) as Hd.
  { intros device. unfold decode. by repeat case_decide. }
  pose proof (callbacks_get_device os (RAWINPUTHEADER.dwType (RAWINPUT.header raw))
                (RAWINPUTHEADER.hDevice (RAWINPUT.header raw)) s1) as Hcb2.
  pose proof (get_device_cache os (RAWINPUTHEADER.dwType (RAWINPUT.header raw))
                (RAWINPUTHEADER.hDevice (RAWINPUT.header raw)) s1) as Hca2.
  destruct (get_device _ _ _ _) as [[device|e] s2] eqn:Hg; simpl in Hcb2.
  - destruct (get_device_inv _ _ _ _ _ _ Hg) as [Hc ->].
    rewrite Hd. eexists _, _. by repeat split.
  - eexists _, _. split; [done|]. split; [congruence|]. split; [congruence|].
    intros [device Hc]. rewrite <- Hca in Hc.
    rewrite (get_device_cached _ _ _ _ _ Hc) in Hg. done.
Qed.

Lemma unsupported_class_not_delivered_on_sample :
  ∃ e s',
    process_message (Sample.with_notification 40 Sample.unknown_class)
      Demo.KEY_NAMES_LOWER Demo.callback (Some 7) WM_INPUT 0 1 initial_state
      = (Raise e, s') ∧
    callbacks s' = callbacks initial_state ∧
    CACHED_DEVICES s' = CACHED_DEVICES initial_state ∧
    (is_Some (CACHED_DEVICES initial_state !! Demo.keyboard_handle) →
     e = NotImplementedError).
Proof.
  refine (unsupported_class_not_delivered (Sample.with_notification 40 Sample.unknown_class)
            Demo.KEY_NAMES_LOWER Demo.callback (Some 7) 0 1 initial_state 40
            Sample.unknown_class
            (fetch_raw_input (Sample.with_notification 40 Sample.unknown_class) 1
               initial_state).2 _ _ _ _).
  - vm_compute. reflexivity.
  - simpl. lia.
  - simpl. lia.
  - simpl. lia.
Defined.

(** X10: when the payload cannot be fetched, nothing else happens.  If the
    size query returns a value other than 0, [process_message] raises
    [WinError] with the last-error code after that one call; if the fetch
    returns a byte count that differs from the size it stored,
    [process_message] raises [AssertionError] after the two calls.  In both
    cases no device is looked up and the callback is not called. *)
Theorem fetch_failure_stops_process_message os K callback hwnd wParam lParam s :
  let query := GetRawInputData_size os lParam in
  let fetch := GetRawInputData_data os lParam (out query) in
  let result := process_message os K callback hwnd WM_INPUT wParam lParam s in
  (ret query ≠ 0 →
   result.1 = Raise (WinError (err query)) ∧
   trace result.2 = trace s ++ [OS_GetRawInputData lParam false] ∧
   CACHED_DEVICES result.2 = CACHED_DEVICES s) ∧
  (ret query = 0 → ret fetch ≠ (out fetch).1 →
   result.1 = Raise AssertionError ∧
   trace result.2 =
     trace s ++ [OS_GetRawInputData lParam false; OS_GetRawInputData lParam true] ∧
   CACHED_DEVICES result.2 = CACHED_DEVICES s).
Proof.
  simpl. rewrite process_message_WM_INPUT.
  unfold fetch_raw_input, raise_WinError, GetLastError, os_call, raise, lift, assert,
    mbind, M_bind, mret, M_ret, truthy. simpl.
  split.
  - intros Hq. destruct (Z.eqb_spec (ret (GetRawInputData_size os lParam)) 0); done.
  - intros -> Hf. simpl. destruct (out (GetRawInputData_data _ _ _)) as [dwSize raw].
    simpl in *. rewrite bool_decide_false by done. simpl.
    by rewrite <- app_assoc.
Qed.

Lemma fetch_failure_stops_process_message_on_sample :
  ((process_message Demo.os Demo.KEY_NAMES_LOWER Demo.callback (Some 7) WM_INPUT 0 9
      initial_state).1 = Raise (WinError ERROR_INVALID_HANDLE) ∧
   trace (process_message Demo.os Demo.KEY_NAMES_LOWER Demo.callback (Some 7) WM_INPUT 0 9
            initial_state).2 = trace initial_state ++ [OS_GetRawInputData 9 false] ∧
   CACHED_DEVICES (process_message Demo.os Demo.KEY_NAMES_LOWER Demo.callback (Some 7)
                     WM_INPUT 0 9 initial_state).2 = CACHED_DEVICES initial_state) ∧
  ((process_message (Sample.short_fetch 24) Demo.KEY_NAMES_LOWER Demo.callback (Some 7)
      WM_INPUT 0 1 initial_state).1 = Raise AssertionError ∧
   trace (process_message (Sample.short_fetch 24) Demo.KEY_NAMES_LOWER Demo.callback
            (Some 7) WM_INPUT 0 1 initial_state).2
     = trace initial_state ++ [OS_GetRawInputData 1 false; OS_GetRawInputData 1 true] ∧
   CACHED_DEVICES (process_message (Sample.short_fetch 24) Demo.KEY_NAMES_LOWER
                     Demo.callback (Some 7) WM_INPUT 0 1 initial_state).2
     = CACHED_DEVICES initial_state).
Proof.
  split.
  - refine (proj1 (fetch_failure_stops_process_message Demo.os Demo.KEY_NAMES_LOWER
                     Demo.callback (Some 7) 0 9 initial_state) _).
    simpl. lia.
  - refine (proj2 (fetch_failure_stops_process_message (Sample.short_fetch 24)
                     Demo.KEY_NAMES_LOWER Demo.callback (Some 7) 0 1 initial_state) _ _).
    + reflexivity.
    + simpl. lia.
Defined.

(** ** Installing the hook *)

Lemma USAGE_NAME_TO_VALUE_entries :
  map_Forall (λ (name : str) (entry : Z * Z),
                entry.1 = 1 ∧ entry.2 ∈ [1; 2; 4; 5; 6; 7; 8] ∧
                (lower <$> GENERIC_DESKTOP_CONTROLS_PAGE !! entry.2) = Some name)
    USAGE_NAME_TO_VALUE ∧
  map_Forall (λ (usage : Z) (name : str),
                USAGE_NAME_TO_VALUE !! lower name = Some (1, usage))
    GENERIC_DESKTOP_CONTROLS_PAGE ∧
  USAGE_NAME_TO_VALUE !! lower (u "controller") = None.
Proof.
  split; [|split]; [apply (bool_decide_unpack _); vm_compute; exact I..|].
  vm_compute. reflexivity.
Qed.

(** X11: [USAGE_NAME_TO_VALUE] is [GENERIC_DESKTOP_CONTROLS_PAGE] read
    backwards: a lower-case name is a key of it exactly when it is the
    lower-cased name of a usage of the page, and its entry is then usage
    page 1 with that usage. *)
Theorem USAGE_NAME_TO_VALUE_inverts_page name page usage :
  USAGE_NAME_TO_VALUE !! name = Some (page, usage) ↔
  page = 1 ∧ (lower <$> GENERIC_DESKTOP_CONTROLS_PAGE !! usage) = Some name.
Proof.
  destruct USAGE_NAME_TO_VALUE_entries as (Hto & Hfrom & _). split.
  - intros Hn. by destruct (Hto _ _ Hn) as (? & _ & ?).
  - intros [-> Hu].
    destruct (GENERIC_DESKTOP_CONTROLS_PAGE !! usage) as [full|] eqn:Hp; [|done].
    injection Hu as <-. by apply Hfrom.
Qed.

Lemma USAGE_NAME_TO_VALUE_inverts_page_on_sample :
  USAGE_NAME_TO_VALUE !! u "game pad" = Some (1, 5) ∧
  USAGE_NAME_TO_VALUE !! u "keyboard" = Some (1, 6) ∧
  USAGE_NAME_TO_VALUE !! u "mouse" = Some (1, 2).
Proof.
  split; [|split].
  - apply (proj2 (USAGE_NAME_TO_VALUE_inverts_page (u "game pad") 1 5)).
    split; vm_compute; reflexivity.
  - apply (proj2 (USAGE_NAME_TO_VALUE_inverts_page (u "keyboard") 1 6)).
    split; vm_compute; reflexivity.
  - apply (proj2 (USAGE_NAME_TO_VALUE_inverts_page (u "mouse") 1 2)).
    split; vm_compute; reflexivity.
Defined.

Lemma registrations_performed e s :
  registrations (performed e s) =
  registrations s ++
    (match e with
     | OS_RegisterRawInputDevices page usage flags target => [(page, usage, flags, target)]
     | _ => []
     end).
Proof. unfold registrations. simpl. rewrite omap_app. by destruct e. Qed.

(** One registration: a device type that is not a key of
    [USAGE_NAME_TO_VALUE] raises before any call; otherwise the usage is
    registered for the window as an input sink, and the call fails when
    the platform returns 0. *)
Lemma enable_raw_input_for_window_run os hwnd device_type s :
  match USAGE_NAME_TO_VALUE !! lower device_type with
  | None => enable_raw_input_for_window os hwnd device_type s = (Raise KeyError, s)
  | Some (page, usage) =>
      let answer := RegisterRawInputDevices os page usage RIDEV_INPUTSINK hwnd in
      (enable_raw_input_for_window os hwnd device_type s).1 =
        (if decide (ret answer = 0) then Raise (WinError (err answer)) else Ok ()) ∧
      registrations (enable_raw_input_for_window os hwnd device_type s).2 =
        registrations s ++ [(page, usage, RIDEV_INPUTSINK, hwnd)]
  end.
Proof.
  unfold enable_raw_input_for_window, subscript, lift, raise_WinError, GetLastError,
    os_call, raise, mbind, M_bind, mret, M_ret, truthy.
  destruct (USAGE_NAME_TO_VALUE !! _) as [[page usage]|]; [|done]. simpl.
  destruct (Z.eqb_spec (ret (RegisterRawInputDevices os page usage RIDEV_INPUTSINK hwnd)) 0);
    case_decide; try done; simpl; split; try done;
    unfold registrations; simpl; by rewrite omap_app.
Qed.

Lemma enable_raw_input_for_window_Ok os hwnd device_type page usage s :
  USAGE_NAME_TO_VALUE !! lower device_type = Some (page, usage) →
  ret (RegisterRawInputDevices os page usage RIDEV_INPUTSINK hwnd) ≠ 0 →
  ∃ s', enable_raw_input_for_window os hwnd device_type s = (Ok (), s') ∧
        registrations s' = registrations s ++ [(page, usage, RIDEV_INPUTSINK, hwnd)].
Proof.
  intros Hn Hr. pose proof (enable_raw_input_for_window_run os hwnd device_type s) as Hrun.
  rewrite Hn in Hrun. destruct Hrun as [Ho Hs].
  destruct (enable_raw_input_for_window _ _ _ _) as [o s']. exists s'.
  cbn [fst snd] in *. by rewrite decide_False in Ho by done; subst.
Qed.

Lemma for_each_registrations os hwnd device_types : ∀ s,
  ∃ regs,
    registrations (for_each (enable_raw_input_for_window os hwnd) device_types s).2
      = registrations s ++ regs ∧
    Forall (λ r, r.1.1.1 = 1 ∧ r.1.1.2 ∈ [1; 2; 4; 5; 6; 7; 8] ∧
                 r.1.2 = RIDEV_INPUTSINK ∧ r.2 = hwnd) regs ∧
    (length regs ≤ length device_types)%nat ∧
    ((for_each (enable_raw_input_for_window os hwnd) device_types s).1 = Ok () →
     length regs = length device_types ∧
     Forall (λ device_type, is_Some (USAGE_NAME_TO_VALUE !! lower device_type))
       device_types).
Proof.
  destruct USAGE_NAME_TO_VALUE_entries as (Hto & _ & _).
  induction device_types as [|device_type device_types IH]; intros s; simpl.
  - exists []. by rewrite app_nil_r.
  - unfold mbind, M_bind.
    pose proof (enable_raw_input_for_window_run os hwnd device_type s) as Hrun.
    destruct (USAGE_NAME_TO_VALUE !! lower device_type) as [[page usage]|] eqn:Hn.
    + destruct Hrun as [Ho Hr]. destruct (Hto _ _ Hn) as (Hp & Hu & _). simpl in *.
      destruct (enable_raw_input_for_window os hwnd device_type s) as [[[]|e] s1];
        simpl in *.
      * destruct (IH s1) as (regs & Hregs & Hall & Hlen & Hok).
        exists ((page, usage, RIDEV_INPUTSINK, hwnd) :: regs).
        rewrite Hregs, Hr, <- app_assoc. split; [reflexivity|].
        split; [constructor; [exact (conj Hp (conj Hu (conj eq_refl eq_refl)))|exact Hall]|].
        split; [simpl; lia|]. intros Hres. destruct (Hok Hres) as [Hl Hsome].
        split; [simpl; lia|]. constructor; [by eexists|exact Hsome].
      * exists [(page, usage, RIDEV_INPUTSINK, hwnd)]. split; [exact Hr|].
        split; [apply Forall_singleton;
                exact (conj Hp (conj Hu (conj eq_refl eq_refl)))|].
        split; [simpl; lia|]. intros [=].
    + rewrite Hrun. simpl. exists []. rewrite app_nil_r. split; [done|].
      split; [done|]. split; [simpl; lia|]. done.
Qed.

Lemma invisible_window_run os procedure s :
  let class := RegisterClassExW os in
  let window := CreateWindowExW os in
  invisible_window os procedure s =
    let lpfnWndProc := invisible_window_actual_procedure_of procedure in
    let registered := (os_call (OS_RegisterClassExW lpfnWndProc) class s).2 in
    if decide (ret class = 0) then (Raise (WinError (err class)), registered)
    else if truthy_handle (out window) then
      (Ok (out window),
       (keep_alive (window_class lpfnWndProc)
          (os_call OS_CreateWindowExW window registered).2).2)
    else (Raise RuntimeError, (os_call OS_CreateWindowExW window registered).2).
Proof.
  unfold invisible_window, keep_alive, raise_WinError, GetLastError, os_call, raise,
    mbind, M_bind, mret, M_ret, truthy. simpl.
  destruct (Z.eqb_spec (ret (RegisterClassExW os)) 0); case_decide; try done. simpl.
  by destruct (truthy_handle _).
Qed.

(** X12: whatever the device types, [hook_raw_input_for_window] registers
    nothing but usages of the generic desktop page (usage page 1), each as
    an input sink (flag 0x100) for the window it hooks: the window passed,
    or the helper window it created.  It makes at most one registration per
    device type, in their order, and when it returns it has made one for
    each, and every device type is a key of [USAGE_NAME_TO_VALUE] up to
    case. *)
Theorem hook_registers_input_sinks os hwnd callback device_types s :
  let result := hook_raw_input_for_window os hwnd callback device_types s in
  let window := if truthy_handle hwnd then hwnd else out (CreateWindowExW os) in
  ∃ regs,
    registrations result.2 = registrations s ++ regs ∧
    Forall (λ r, r.1.1.1 = 1 ∧ r.1.1.2 ∈ [1; 2; 4; 5; 6; 7; 8] ∧
                 r.1.2 = RIDEV_INPUTSINK ∧ r.2 = window) regs ∧
    (length regs ≤ length device_types)%nat ∧
    (result.1 = Ok () →
     length regs = length device_types ∧
     Forall (λ device_type, is_Some (USAGE_NAME_TO_VALUE !! lower device_type))
       device_types).
Proof.
  simpl. rewrite hook_raw_input_for_window_run.
  destruct (truthy_handle hwnd).
  - pose proof (set_window_procedure_run os hwnd (hook_process_message callback) true s)
      as (_ & Ht & _).
    destruct (set_window_procedure _ _ _ _ _) as [[[]|e] s1]; simpl in Ht.
    + destruct (for_each_registrations os hwnd device_types s1) as (regs & Hr & Hrest).
      exists regs. split; [|done]. rewrite Hr. unfold registrations.
      by rewrite Ht, omap_app, app_nil_r.
    + exists []. simpl. unfold registrations.
      rewrite Ht, omap_app, !app_nil_r. split; [done|]. split; [done|].
      split; [lia|done].
  - rewrite invisible_window_run. simpl. case_decide.
    + exists []. simpl. unfold registrations. simpl.
      rewrite omap_app, !app_nil_r. split; [done|]. split; [done|].
      split; [lia|done].
    + destruct (truthy_handle _).
      * match goal with
        | |- context [for_each _ _ ?s1] =>
            destruct (for_each_registrations os (out (CreateWindowExW os))
                        device_types s1) as (regs & Hr & Hrest)
        end.
        exists regs. split; [|done]. rewrite Hr. unfold registrations. simpl.
        by rewrite !omap_app, !app_nil_r.
      * exists []. simpl. unfold registrations. simpl.
        rewrite !omap_app, !app_nil_r. split; [done|]. split; [done|].
        split; [lia|done].
Qed.

Lemma hook_registers_input_sinks_on_sample :
  ∃ regs,
    registrations (hook_raw_input_for_window Demo.os None
                     Demo.callback [u "Keyboard"; u "Game Pad"] initial_state).2 = regs ∧
    length regs = 2%nat ∧
    Forall (λ r, r.1.1.1 = 1 ∧ r.1.2 = RIDEV_INPUTSINK ∧ r.2 = Some 8192) regs.
Proof.
  destruct (hook_registers_input_sinks Demo.os None Demo.callback
              [u "Keyboard"; u "Game Pad"] initial_state) as (regs & Hr & Hall & _ & Hok).
  exists regs. split; [exact Hr|]. split.
  - apply Hok. vm_compute. reflexivity.
  - eapply Forall_impl; [exact Hall|]. simpl. intros r (? & _ & ? & ?). by repeat split.
Defined.

Lemma for_each_default_device_types_raises os hwnd s :
  ∃ e, (for_each (enable_raw_input_for_window os hwnd) default_device_types s).1 = Raise e.
Proof.
  destruct (for_each_registrations os hwnd default_device_types s)
    as (regs & _ & _ & _ & Hok).
  destruct (for_each _ _ _) as [[[]|e] s']; [|by eexists].
  destruct (Hok eq_refl) as [_ Hall].
  rewrite Forall_forall in Hall.
  destruct (Hall (u "controller")) as [found He].
  { unfold default_device_types. rewrite !elem_of_cons. auto. }
  by rewrite (proj2 (proj2 USAGE_NAME_TO_VALUE_entries)) in He.
Qed.

(** X13: called with the default device types ("keyboard", "mouse",
    "controller"), [hook_raw_input_for_window] never returns: "controller"
    is not a key of [USAGE_NAME_TO_VALUE].  When the window procedure is
    replaced and the first two registrations succeed, the keyboard and the
    mouse are registered and then [KeyError] is raised. *)
Theorem hook_with_default_device_types_raises os hwnd callback s :
  let result := hook_raw_input_for_window os hwnd callback default_device_types s in
  (∃ e, result.1 = Raise e) ∧
  (truthy_handle hwnd = true →
   ret (SetWindowLongPtrA os hwnd) ≠ 0 →
   ret (RegisterRawInputDevices os 1 6 RIDEV_INPUTSINK hwnd) ≠ 0 →
   ret (RegisterRawInputDevices os 1 2 RIDEV_INPUTSINK hwnd) ≠ 0 →
   result.1 = Raise KeyError ∧
   registrations result.2 =
     registrations s ++ [(1, 6, RIDEV_INPUTSINK, hwnd); (1, 2, RIDEV_INPUTSINK, hwnd)]).
Proof.
  simpl. split.
  - rewrite hook_raw_input_for_window_run.
    destruct (truthy_handle hwnd).
    + destruct (set_window_procedure _ _ _ _ _) as [[[]|e] s1]; [|by eexists].
      apply for_each_default_device_types_raises.
    + destruct (invisible_window _ _ _) as [[h|e] s1]; [|by eexists].
      apply for_each_default_device_types_raises.
  - intros Hw Hset Hk Hm. rewrite hook_raw_input_for_window_run, Hw.
    pose proof (set_window_procedure_run os hwnd (hook_process_message callback) true s)
      as (Ho & Ht & _).
    destruct (set_window_procedure _ _ _ _ _) as [[[]|e] s1]; simpl in Ho, Ht;
      [|by case_decide].
    assert (registrations s1 = registrations s) as <-.
    { unfold registrations. by rewrite Ht, omap_app, app_nil_r. }
    destruct (enable_raw_input_for_window_Ok os hwnd (u "keyboard") 1 6 s1)
      as (s2 & E1 & R1); [by vm_compute|done|].
    destruct (enable_raw_input_for_window_Ok os hwnd (u "mouse") 1 2 s2)
      as (s3 & E2 & R2); [by vm_compute|done|].
    pose proof (enable_raw_input_for_window_run os hwnd (u "controller") s3) as E3.
    rewrite (proj2 (proj2 USAGE_NAME_TO_VALUE_entries)) in E3.
    unfold default_device_types.
    change (for_each ?f (?a :: ?l) ?s) with (mbind (λ _ : (), for_each f l) (f a) s).
    unfold mbind, M_bind. rewrite E1.
    change (for_each ?f (?a :: ?l) ?s) with (mbind (λ _ : (), for_each f l) (f a) s).
    unfold mbind, M_bind. rewrite E2.
    change (for_each ?f (?a :: ?l) ?s) with (mbind (λ _ : (), for_each f l) (f a) s).
    unfold mbind, M_bind. rewrite E3.
    split; [done|]. simpl. by rewrite R2, R1, <- app_assoc.
Qed.

Lemma hook_with_default_device_types_raises_on_sample :
  (hook_raw_input_for_window Demo.os (Some 7) Demo.callback
     default_device_types initial_state).1 = Raise KeyError ∧
  registrations (hook_raw_input_for_window Demo.os (Some 7)
                   Demo.callback default_device_types initial_state).2
  = registrations initial_state ++
      [(1, 6, RIDEV_INPUTSINK, Some 7); (1, 2, RIDEV_INPUTSINK, Some 7)].
Proof.
  refine (proj2 (hook_with_default_device_types_raises Demo.os
                   (Some 7) Demo.callback initial_state) _ _ _ _).
  - reflexivity.
  - simpl. lia.
  - simpl. lia.
  - simpl. lia.
Defined.

(** X14: when the window procedure cannot be replaced, or the helper
    window cannot be made, [hook_raw_input_for_window] raises before it
    registers any device type: the platform's error when
    [SetWindowLongPtrA] or [RegisterClassExW] returns 0, [RuntimeError]
    when [CreateWindowExW] returns no window.  The new window procedure
    has been appended to [_REGISTERED_PROCEDURES_REFS] by then, in the
    first case; nothing has been appended in the other two. *)
Theorem hook_failure_before_registration os hwnd callback device_types s :
  let result := hook_raw_input_for_window os hwnd callback device_types s in
  (if truthy_handle hwnd then ret (SetWindowLongPtrA os hwnd) = 0
   else ret (RegisterClassExW os) = 0 ∨ truthy_handle (out (CreateWindowExW os)) = false) →
  result.1 =
    Raise (if truthy_handle hwnd then WinError (err (SetWindowLongPtrA os hwnd))
           else if decide (ret (RegisterClassExW os) = 0)
                then WinError (err (RegisterClassExW os))
                else RuntimeError) ∧
  registrations result.2 = registrations s ∧
  _REGISTERED_PROCEDURES_REFS result.2 =
    _REGISTERED_PROCEDURES_REFS s ++
      (if truthy_handle hwnd
       then [new_window_procedure
               (set_window_procedure_process_message_of (hook_process_message callback)
                  true)]
       else []).
Proof.
  simpl. intros Hfail. rewrite hook_raw_input_for_window_run.
  destruct (truthy_handle hwnd).
  - pose proof (set_window_procedure_run os hwnd (hook_process_message callback) true s)
      as (Ho & Ht & Hrefs & _).
    destruct (set_window_procedure _ _ _ _ _) as [o s1]. cbn [fst snd] in *.
    rewrite decide_True in Ho by done. subst o. cbn [fst snd].
    split; [done|]. split; [|done].
    unfold registrations. by rewrite Ht, omap_app, app_nil_r.
  - rewrite invisible_window_run. cbn zeta. case_decide.
    + cbn [fst snd]. split; [done|]. unfold registrations. simpl.
      by rewrite omap_app, !app_nil_r.
    + destruct Hfail as [?|Hw]; [done|]. rewrite Hw. cbn [fst snd].
      split; [done|]. unfold registrations. simpl.
      by rewrite !omap_app, !app_nil_r.
Qed.

Lemma hook_failure_before_registration_on_sample :
  (hook_raw_input_for_window Sample.no_windows (Some 7) Demo.callback
     [u "keyboard"] initial_state).1 = Raise (WinError 1400) ∧
  (hook_raw_input_for_window Sample.no_windows None Demo.callback
     [u "keyboard"] initial_state).1 = Raise RuntimeError.
Proof.
  split.
  - refine (proj1 (hook_failure_before_registration Sample.no_windows
                     (Some 7) Demo.callback [u "keyboard"] initial_state _)).
    reflexivity.
  - refine (proj1 (hook_failure_before_registration Sample.no_windows
                     None Demo.callback [u "keyboard"] initial_state _)).
    right. reflexivity.
Defined.

(** ** The cache over any sequence of calls *)

Lemma cache_is_connected os device : preserves CACHED_DEVICES (is_connected os device).
Proof. unfold is_connected. frame. Qed.

Lemma cache_get_device_path os device : preserves CACHED_DEVICES (get_device_path os device).
Proof. unfold get_device_path. frame. Qed.

Lemma cache_set_window_procedure os hwnd procedure call_original :
  preserves CACHED_DEVICES (set_window_procedure os hwnd procedure call_original).
Proof. intros s. apply set_window_procedure_run. Qed.

Lemma cache_invisible_window os procedure :
  preserves CACHED_DEVICES (invisible_window os procedure).
Proof.
  intros s. rewrite invisible_window_run. simpl.
  case_decide; [done|]. by destruct (truthy_handle _).
Qed.

Lemma cache_enable_raw_input_for_window os hwnd device_type :
  preserves CACHED_DEVICES (enable_raw_input_for_window os hwnd device_type).
Proof. unfold enable_raw_input_for_window. frame. Qed.

Lemma cache_hook_raw_input_for_window os hwnd callback device_types :
  preserves CACHED_DEVICES (hook_raw_input_for_window os hwnd callback device_types).
Proof.
  intros s. rewrite hook_raw_input_for_window_run.
  pose proof (preserves_for_each CACHED_DEVICES (enable_raw_input_for_window os hwnd)
                device_types (cache_enable_raw_input_for_window os hwnd)) as Hw.
  destruct (truthy_handle hwnd).
  - pose proof (cache_set_window_procedure os hwnd (hook_process_message callback) true s)
      as Hs.
    destruct (set_window_procedure _ _ _ _ _) as [[[]|e] s1]; [|done].
    simpl in Hs. by rewrite Hw.
  - pose proof (cache_invisible_window os (hook_process_message callback) s) as Hs.
    destruct (invisible_window _ _ _) as [[h|e] s1]; [|done].
    simpl in Hs. rewrite <- Hs.
    apply (preserves_for_each CACHED_DEVICES (enable_raw_input_for_window os h)
             device_types (cache_enable_raw_input_for_window os h)).
Qed.

Lemma callbacks_is_connected os device : preserves callbacks (is_connected os device).
Proof. unfold is_connected. frame. Qed.

Lemma callbacks_get_device_path os device : preserves callbacks (get_device_path os device).
Proof. unfold get_device_path. frame. Qed.

Lemma callbacks_get_raw_input_device_list os :
  preserves callbacks (get_raw_input_device_list os).
Proof. unfold get_raw_input_device_list. frame. Qed.

Lemma callbacks_set_window_procedure os hwnd procedure call_original :
  preserves callbacks (set_window_procedure os hwnd procedure call_original).
Proof. unfold set_window_procedure. frame. Qed.

Lemma callbacks_invisible_window os procedure :
  preserves callbacks (invisible_window os procedure).
Proof. unfold invisible_window. frame. Qed.

Lemma callbacks_enable_raw_input_for_window os hwnd device_type :
  preserves callbacks (enable_raw_input_for_window os hwnd device_type).
Proof. unfold enable_raw_input_for_window. frame. Qed.

Lemma callbacks_hook_raw_input_for_window os hwnd callback device_types :
  preserves callbacks (hook_raw_input_for_window os hwnd callback device_types).
Proof.
  intros s. rewrite hook_raw_input_for_window_run.
  pose proof (preserves_for_each callbacks (enable_raw_input_for_window os hwnd)
                device_types (callbacks_enable_raw_input_for_window os hwnd)) as Hw.
  destruct (truthy_handle hwnd).
  - pose proof (callbacks_set_window_procedure os hwnd (hook_process_message callback)
                  true s) as Hs.
    destruct (set_window_procedure _ _ _ _ _) as [[[]|e] s1]; [|done].
    simpl in Hs. by rewrite Hw.
  - pose proof (callbacks_invisible_window os (hook_process_message callback) s) as Hs.
    destruct (invisible_window _ _ _) as [[h|e] s1]; [|done].
    simpl in Hs. rewrite <- Hs.
    apply (preserves_for_each callbacks (enable_raw_input_for_window os h)
             device_types (callbacks_enable_raw_input_for_window os h)).
Qed.



(** What a window procedure does to an observation of the state that the
    platform's calls leave alone, it does through the procedure it closes
    over. *)
Lemma call_WNDPROC_frame {X} (f : State → X) os K w prevWndProc hwnd msg wParam lParam s :
  (∀ e s, match e with Call_callback _ => False | _ => True end →
          f (performed e s) = f s) →
  f (call_WNDPROC os K w prevWndProc hwnd msg wParam lParam s).2
  = f (call os K (procedure_of w) hwnd msg wParam lParam s).2.
Proof.
  intros Hf. destruct w as [procedure call_original|procedure]; simpl.
  - rewrite set_window_procedure_process_message_run.
    destruct (call _ _ _ _ _ _ _ _) as [[[]|e] s1]; [|done].
    destruct call_original; simpl; by rewrite Hf.
  - unfold invisible_window_actual_procedure, mbind, M_bind.
    destruct (call _ _ _ _ _ _ _ _) as [[[]|e] s1]; [|done].
    by destruct hwnd.
Qed.

Lemma callbacks_performed_other e s :
  match e with Call_callback _ => False | _ => True end →
  callbacks (performed e s) = callbacks s.
Proof. intros He. rewrite callbacks_performed. destruct e; by rewrite ?app_nil_r. Qed.




(** ** The cache as the code stands *)

Lemma process_message_empty_cache os K callback hwnd msg wParam lParam s :
  CACHED_DEVICES s = ∅ →
  CACHED_DEVICES (process_message os K callback hwnd msg wParam lParam s).2 = ∅ ∧
  callbacks (process_message os K callback hwnd msg wParam lParam s).2 = callbacks s.
Proof.
  intros Hs. destruct (decide (msg = WM_INPUT)) as [->|Hm];
    [|by rewrite process_message_other].
  pose proof (cache_fetch_raw_input os lParam s) as H1.
  pose proof (callbacks_fetch_raw_input os lParam s) as H2.
  destruct (fetch_raw_input os lParam s) as [[[dwSize raw]|e] s1] eqn:Hf;
    simpl in H1, H2.
  - destruct (process_message_uncached os K callback hwnd wParam lParam s dwSize raw s1 Hf)
      as [-> Hc]; [by rewrite Hs, lookup_empty|].
    simpl. by rewrite H1.
  - rewrite process_message_WM_INPUT, Hf. simpl. by rewrite H1.
Qed.

Lemma list_devices_empty_cache os s :
  CACHED_DEVICES s = ∅ →
  CACHED_DEVICES (list_devices os s).2 = ∅ ∧
  callbacks (list_devices os s).2 = callbacks s.
Proof.
  intros Hs. destruct (list_devices os s) as [o s'] eqn:Hl. revert Hl.
  unfold list_devices. unfold mbind at 1, M_bind at 1.
  pose proof (cache_get_raw_input_device_list os s) as H1.
  pose proof (callbacks_get_raw_input_device_list os s) as H2.
  destruct (get_raw_input_device_list os s) as [[array|e] s1]; simpl in H1, H2;
    [|intros [= _ <-]; simpl; by rewrite H1].
  destruct array as [|dev array].
  - intros [= _ <-]. simpl. split; [|done].
    change (dict_display (@nil (HANDLE * RawInputDevice))) with (∅ : gmap HANDLE RawInputDevice).
    by rewrite (left_id_L ∅ (∪)).
  - unfold mbind at 1, M_bind at 1. simpl. unfold mbind at 1, M_bind at 1.
    rewrite get_device_uncached by (by rewrite H1, Hs, lookup_empty).
    intros [= _ <-]. simpl. by rewrite H1.
Qed.

(** X1: no call puts a device into the cache.  In every state that calls
    of the functions of the two modules and of the window procedures they
    make lead to from the state after import, in any order, with any
    arguments and whatever the platform answers each time,
    [CACHED_DEVICES] is empty and the callback has not been called; so in
    such a state [get_device] raises [NameError] for every handle and
    every device class and leaves the state as it is. *)
Theorem cache_stays_empty K s :
  rtc (api_step K) initial_state s →
  CACHED_DEVICES s = ∅ ∧ callbacks s = [] ∧
  ∀ os dw_type h, get_device os dw_type h s = (Raise NameError, s).
Proof.
  intros Hr.
  assert (CACHED_DEVICES s = ∅ ∧ callbacks s = []) as [Hc Hcb].
  { revert s Hr.
    apply (rtc_ind_r (λ s, CACHED_DEVICES s = ∅ ∧ callbacks s = [])); [done|].
    intros s1 s2 _ Hstep [Hc Hcb]. destruct Hstep.
    - by destruct (list_devices_empty_cache os s Hc) as [-> ->].
    - by rewrite get_device_state.
    - by rewrite cache_get_raw_input_device_list, callbacks_get_raw_input_device_list.
    - by rewrite cache_get_device_info, callbacks_get_device_info.
    - by rewrite cache_is_connected, callbacks_is_connected.
    - by rewrite cache_get_device_path, callbacks_get_device_path.
    - by rewrite cache_hook_raw_input_for_window, callbacks_hook_raw_input_for_window.
    - rewrite (call_WNDPROC_frame CACHED_DEVICES) by done.
      rewrite (call_WNDPROC_frame callbacks) by exact callbacks_performed_other.
      destruct (procedure_of procedure) as [callback|f]; simpl; [|done].
      by destruct (process_message_empty_cache os K callback hwnd msg wParam lParam s Hc)
        as [-> ->]. }
  split; [exact Hc|]. split; [exact Hcb|].
  intros os dw_type h. apply get_device_uncached. by rewrite Hc, lookup_empty.
Qed.

Lemma cache_stays_empty_on_sample :
  let s := (call_WNDPROC Demo.os Demo.KEY_NAMES_LOWER
              (set_window_procedure_process_message_of
                 (hook_process_message Demo.callback) true) 4096 (Some 7) WM_INPUT 0 1
              (list_devices Demo.os
                 (hook_raw_input_for_window Demo.os (Some 7) Demo.callback [u "keyboard"]
                    initial_state).2).2).2 in
  rtc (api_step Demo.KEY_NAMES_LOWER) initial_state s ∧
  CACHED_DEVICES s = ∅ ∧ callbacks s = [] ∧
  get_device Demo.os 1 Demo.keyboard_handle s = (Raise NameError, s).
Proof.
  cbn zeta.
  match goal with
  | |- rtc _ _ ?s ∧ _ =>
      assert (rtc (api_step Demo.KEY_NAMES_LOWER) initial_state s) as Hr
  end.
  { eapply rtc_l; [apply (step_hook_raw_input_for_window _ Demo.os (Some 7) Demo.callback
                            [u "keyboard"])|].
    eapply rtc_l; [apply (step_list_devices _ Demo.os)|].
    apply rtc_once. apply step_window_procedure. }
  split; [exact Hr|].
  destruct (cache_stays_empty Demo.KEY_NAMES_LOWER _ Hr) as (Hc & Hcb & Hg).
  split; [exact Hc|]. split; [exact Hcb|]. apply Hg.
Defined.

(** ** The shape of normalized names *)

Lemma canonical_values_shape :
  Forall (λ kv : str * str, kv.2 ≠ [] ∧ (0x5f ∈ kv.2 → kv.2 = u "_"))
    canonical_names_items.
Proof.
  assert (Forall (λ kv : str * str,
            bool_decide (kv.2 ≠ []) && (bool_decide (0x5f ∉ kv.2) ||
                                        bool_decide (kv.2 = u "_")))
            canonical_names_items) as Ht.
  { apply (bool_decide_unpack _). vm_compute. exact I. }
  eapply Forall_impl; [exact Ht|]. intros [k v]. simpl.
  intros [Hne Hu]%andb_prop_elim. apply bool_decide_unpack in Hne.
  split; [done|]. intros Hin.
  apply orb_prop_elim in Hu as [Hu|Hu]; apply bool_decide_unpack in Hu; done.
Qed.

Lemma to_lower_domain_no_underscore :
  Forall (λ c, 0x5f ∉ to_lower c) lower_domain.
Proof. apply (bool_decide_unpack _). vm_compute. exact I. Qed.

Lemma to_lower_underscore c : 0x5f ∈ to_lower c → c = 0x5f.
Proof.
  destruct (to_lower_cases c) as [Hfix|Hin].
  - rewrite Hfix. by intros ->%list_elem_of_singleton.
  - pose proof to_lower_domain_no_underscore as Ht. rewrite Forall_forall in Ht.
    intros Hu. by destruct (Ht _ Hin).
Qed.

Lemma replace_fixed s : 0x5f ∉ s → replace 0x5f 0x20 s = s.
Proof.
  induction s as [|c s IH]; [done|].
  intros [Hc Hs]%not_elem_of_cons.
  change (replace 0x5f 0x20 (c :: s))
    with ((if c =? 0x5f then 0x20 else c) :: replace 0x5f 0x20 s).
  rewrite IH by done. by destruct (Z.eqb_spec c 0x5f).
Qed.

(** Neither the underscore nor the space is cased or case-ignorable. *)
Lemma in_ranges_replace ranges c :
  in_ranges ranges 0x5f = false → in_ranges ranges 0x20 = false →
  in_ranges ranges (if c =? 0x5f then 0x20 else c) = in_ranges ranges c.
Proof. intros Hu Hs. destruct (Z.eqb_spec c 0x5f) as [->|_]; [|done]. by rewrite Hu, Hs. Qed.

Lemma Case_Ignorable_replace c :
  in_ranges Case_Ignorable (if c =? 0x5f then 0x20 else c) = in_ranges Case_Ignorable c.
Proof. apply in_ranges_replace; by vm_compute. Qed.

Lemma Cased_replace c :
  in_ranges Cased (if c =? 0x5f then 0x20 else c) = in_ranges Cased c.
Proof. apply in_ranges_replace; by vm_compute. Qed.

Lemma skip_case_ignorable_replace s :
  skip_case_ignorable (replace 0x5f 0x20 s) = replace 0x5f 0x20 (skip_case_ignorable s).
Proof.
  induction s as [|c s IH]; [done|].
  change (replace 0x5f 0x20 (c :: s))
    with ((if c =? 0x5f then 0x20 else c) :: replace 0x5f 0x20 s).
  cbn [skip_case_ignorable]. rewrite Case_Ignorable_replace.
  by destruct (in_ranges Case_Ignorable c).
Qed.

Lemma final_sigma_replace before after :
  final_sigma (replace 0x5f 0x20 before) (replace 0x5f 0x20 after)
  = final_sigma before after.
Proof.
  unfold final_sigma. rewrite !skip_case_ignorable_replace.
  destruct (skip_case_ignorable before) as [|c ?]; [done|].
  change (replace 0x5f 0x20 (c :: l))
    with ((if c =? 0x5f then 0x20 else c) :: replace 0x5f 0x20 l).
  cbv iota. rewrite Cased_replace. f_equal.
  destruct (skip_case_ignorable after) as [|c' ?]; [done|].
  change (replace 0x5f 0x20 (c' :: l0))
    with ((if c' =? 0x5f then 0x20 else c') :: replace 0x5f 0x20 l0).
  cbv iota. by rewrite Cased_replace.
Qed.

Lemma lower_from_replace s : ∀ before,
  lower_from (replace 0x5f 0x20 before) (replace 0x5f 0x20 s)
  = replace 0x5f 0x20 (lower_from before s).
Proof.
  induction s as [|c s IH]; intros before; [done|].
  change (replace 0x5f 0x20 (c :: s))
    with ((if c =? 0x5f then 0x20 else c) :: replace 0x5f 0x20 s).
  cbn [lower_from].
  change ((if c =? 0x5f then 0x20 else c) :: replace 0x5f 0x20 before)
    with (replace 0x5f 0x20 (c :: before)).
  rewrite IH. unfold replace at 4. rewrite fmap_app. fold (replace 0x5f 0x20).
  f_equal. rewrite final_sigma_replace.
  destruct (Z.eqb_spec c 0x5f) as [->|Hu]; [by vm_compute|].
  destruct (Z.eqb_spec c 0x3a3) as [->|Hs].
  - by destruct (final_sigma before s).
  - symmetry. apply replace_fixed. intros Hin. by apply to_lower_underscore in Hin.
Qed.

Lemma lower_replace s : lower (replace 0x5f 0x20 s) = replace 0x5f 0x20 (lower s).
Proof. apply (lower_from_replace s []). Qed.

Lemma normalize_name_nonempty s :
  s ≠ [] →
  normalize_name s =
    get canonical_names
      (if decide (lower s ≠ u "_") then replace 0x5f 0x20 (lower s) else lower s)
      (if decide (lower s ≠ u "_") then replace 0x5f 0x20 (lower s) else lower s).
Proof. by destruct s. Qed.

(** X16: [normalize_name] never returns the empty string, and the only
    name with an underscore that it returns is "_" itself. *)
Theorem normalize_name_shape name :
  normalize_name name ≠ [] ∧
  (0x5f ∈ normalize_name name → normalize_name name = u "_").
Proof.
  destruct name as [|c name'].
  { split; [by vm_compute|]. intros Hin. vm_compute in Hin.
    exfalso. revert Hin. apply (bool_decide_unpack (0x5f ∉ u "unknown")). exact I. }
  unfold normalize_name. set (name := c :: name'). unfold get.
  set (n := if decide (lower name ≠ u "_") then replace 0x5f 0x20 (lower name)
            else lower name).
  destruct (canonical_names !! n) as [v|] eqn:Hn.
  - rewrite canonical_names_display in Hn. apply dict_display_lookup in Hn.
    pose proof canonical_values_shape as Ht. rewrite Forall_forall in Ht.
    exact (Ht _ Hn).
  - clear Hn. subst n name. destruct (decide (lower (c :: name') ≠ u "_")) as [Hl|Hl].
    + split; [by apply replace_nonempty, lower_nonempty|].
      intros Hin. by apply replace_no_underscore in Hin.
    + apply dec_stable in Hl. rewrite Hl. split; [discriminate|reflexivity].
Qed.

Lemma normalize_name_shape_on_sample :
  0x5f ∈ normalize_name (u "Underscore") ∧ normalize_name (u "Underscore") = u "_".
Proof.
  assert (0x5f ∈ normalize_name (u "Underscore")) as Hin.
  { apply (bool_decide_unpack _). vm_compute. exact I. }
  split; [exact Hin|].
  exact (proj2 (normalize_name_shape (u "Underscore")) Hin).
Defined.

(** X17: [normalize_name] does not tell upper case from lower case, and,
    unless the name lower-cased is "_", does not tell an underscore from a
    space. *)
Theorem normalize_name_ignores_case_and_underscores name :
  normalize_name (lower name) = normalize_name name ∧
  (lower name ≠ u "_" →
   normalize_name (replace 0x5f 0x20 name) = normalize_name name).
Proof.
  destruct (decide (name = [])) as [->|Hne]; [by split|]. split.
  - rewrite (normalize_name_nonempty (lower name)) by (by apply lower_nonempty).
    rewrite (normalize_name_nonempty name) by done.
    by rewrite lower_idempotent.
  - intros Hl.
    rewrite (normalize_name_nonempty (replace 0x5f 0x20 name))
      by (by apply replace_nonempty).
    rewrite (normalize_name_nonempty name) by done.
    rewrite lower_replace, replace_idempotent.
    rewrite (decide_True (P := lower name ≠ u "_")) by done.
    rewrite decide_True; [done|].
    intros Heq. pose proof (replace_no_underscore (lower name)) as Hno.
    rewrite Heq in Hno. apply Hno. by left.
Qed.

Lemma normalize_name_ignores_case_and_underscores_on_sample :
  lower (u "Caps_Lock") ≠ u "_" ∧
  normalize_name (u "Caps Lock") = normalize_name (u "Caps_Lock").
Proof.
  assert (lower (u "Caps_Lock") ≠ u "_") as Hl by (vm_compute; discriminate).
  split; [exact Hl|].
  exact (proj2 (normalize_name_ignores_case_and_underscores (u "Caps_Lock")) Hl).
Defined.

(** ** The enumeration array *)

Lemma device_array_length n written : length (device_array n written) = Z.to_nat n.
Proof.
  unfold device_array. rewrite length_take, length_app, length_replicate. lia.
Qed.

Lemma device_array_lookup n written i dev :
  device_array n written !! i = Some dev →
  (i < Z.to_nat n)%nat ∧
  (written !! i = Some dev ∨
   (length written ≤ i)%nat ∧ dev = RAWINPUTDEVICELIST.Build_t None 0).
Proof.
  unfold device_array. intros [Hd Hi]%lookup_take_Some. split; [done|].
  destruct (decide (i < length written)%nat) as [Hlt|Hge].
  - left. by rewrite lookup_app_l in Hd.
  - right. split; [lia|]. rewrite lookup_app_r in Hd by lia.
    by apply lookup_replicate in Hd as [-> _].
Qed.


(** X19: the array that [get_raw_input_device_list] returns has as many
    entries as the first call announced, whatever the second call wrote:
    an entry that was written is returned as written, and the others are
    zero, with no handle and the device class 0.  Both calls have been
    made then, and the cache is untouched. *)
Theorem get_raw_input_device_list_array os s array s1 :
  get_raw_input_device_list os s = (Ok array, s1) →
  let device_count := out (GetRawInputDeviceList_count os) in
  let written := out (GetRawInputDeviceList_fill os device_count) in
  length array = Z.to_nat device_count ∧
  (∀ i dev, array !! i = Some dev →
     written !! i = Some dev ∨
     (length written ≤ i)%nat ∧ dev = RAWINPUTDEVICELIST.Build_t None 0) ∧
  trace s1 = trace s ++ [OS_GetRawInputDeviceList false; OS_GetRawInputDeviceList true] ∧
  CACHED_DEVICES s1 = CACHED_DEVICES s.
Proof.
  unfold get_raw_input_device_list, raise_WinError, GetLastError, os_call, raise,
    mbind, M_bind, mret, M_ret. cbn [fst snd].
  case_decide; [done|]. case_decide; [done|]. intros [= <- <-]. cbn zeta.
  split; [apply device_array_length|]. split.
  - intros i dev Hd. by apply device_array_lookup in Hd as [_ ?].
  - cbn [trace CACHED_DEVICES]. by rewrite <- app_assoc.
Qed.

Lemma get_raw_input_device_list_array_on_sample :
  (get_raw_input_device_list Demo.unplugged initial_state).1
    = Ok (enumeration Demo.unplugged) ∧
  length (enumeration Demo.unplugged) = 3%nat.
Proof.
  assert (get_raw_input_device_list Demo.unplugged initial_state
          = (Ok (enumeration Demo.unplugged),
             (get_raw_input_device_list Demo.unplugged initial_state).2))
    as Hl by (vm_compute; reflexivity).
  split; [by rewrite Hl|].
  exact (proj1 (get_raw_input_device_list_array Demo.unplugged initial_state _ _ Hl)).
Defined.

(** ** The virtual key of a scan code *)

Lemma scan_code_to_vk_table_after os :
  scan_code_to_vk_table os = scan_code_to_vk_after os 255.
Proof.
  unfold scan_code_to_vk_table, scan_code_to_vk_after.
  replace (Z.of_nat 255) with (0x100 - 0x01) by (vm_compute; reflexivity).
  reflexivity.
Qed.

Lemma scan_code_to_vk_after_S os n :
  scan_code_to_vk_after os (S n) =
    let vk := 1 + Z.of_nat n in
    let scan_code_to_vk := scan_code_to_vk_after os n in
    let scan_code := MapVirtualKey os vk MAPVK_VK_TO_VSC in
    if negb (truthy scan_code) then scan_code_to_vk
    else if decide (official (get scan_code_to_vk scan_code 0))
         then scan_code_to_vk
         else <[scan_code := vk]> scan_code_to_vk.
Proof.
  unfold scan_code_to_vk_after at 1. by rewrite seqZ_S, fold_left_app.
Qed.

Lemma zero_not_official : ¬ official 0.
Proof. intros [entry He]. vm_compute in He. discriminate. Qed.

(** What holds of the dictionary after each round. *)
Lemma scan_code_to_vk_after_inv os n :
  (∀ scan_code vk, scan_code_to_vk_after os n !! scan_code = Some vk →
     1 ≤ vk < 1 + Z.of_nat n ∧
     MapVirtualKey os vk MAPVK_VK_TO_VSC = scan_code ∧ scan_code ≠ 0 ∧
     ∀ vk', 1 ≤ vk' < 1 + Z.of_nat n →
       MapVirtualKey os vk' MAPVK_VK_TO_VSC = scan_code →
       if decide (official vk) then official vk' → vk ≤ vk'
       else ¬ official vk' ∧ vk' ≤ vk) ∧
  (∀ vk', 1 ≤ vk' < 1 + Z.of_nat n →
     MapVirtualKey os vk' MAPVK_VK_TO_VSC ≠ 0 →
     is_Some (scan_code_to_vk_after os n !! MapVirtualKey os vk' MAPVK_VK_TO_VSC)).
Proof.
  induction n as [|n [IH1 IH2]].
  { split; [|intros; lia]. intros scan_code vk Hl.
    change (scan_code_to_vk_after os 0) with (∅ : gmap Z Z) in Hl.
    by rewrite lookup_empty in Hl. }
  rewrite scan_code_to_vk_after_S. cbn zeta. unfold truthy.
  set (t := scan_code_to_vk_after os n) in *.
  set (new := 1 + Z.of_nat n).
  assert (∀ vk', 1 ≤ vk' < 1 + Z.of_nat (S n) → vk' = new ∨ 1 ≤ vk' < 1 + Z.of_nat n)
    as Hrange by (intros; lia).
  destruct (Z.eqb_spec (MapVirtualKey os new MAPVK_VK_TO_VSC) 0) as [Hz|Hnz]; cbn [negb].
  { split.
    - intros scan_code vk Hl. destruct (IH1 _ _ Hl) as (Hvk & Hm & Hsc & Hall).
      split; [lia|]. split; [done|]. split; [done|].
      intros vk' [->|Hvk']%Hrange Hm'; [congruence|]. by apply Hall.
    - intros vk' [->|Hvk']%Hrange Hm'; [done|]. by apply IH2. }
  unfold get. destruct (t !! MapVirtualKey os new MAPVK_VK_TO_VSC) as [old|] eqn:Hold.
  - destruct (IH1 _ _ Hold) as (Hvk & Hm & Hsc & Hall).
    destruct (decide (official old)) as [Ho|Ho].
    + split.
      * intros scan_code vk Hl. destruct (IH1 _ _ Hl) as (Hvk1 & Hm1 & Hsc1 & Hall1).
        split; [lia|]. split; [done|]. split; [done|].
        intros vk' [->|Hvk']%Hrange Hm'; [|by apply Hall1].
        assert (vk = old) as -> by congruence.
        rewrite decide_True by done. lia.
      * intros vk' [->|Hvk']%Hrange Hm'; [by rewrite Hold|]. by apply IH2.
    + split.
      * intros scan_code vk [[<- <-]|[Hne Hl]]%lookup_insert_Some.
        -- split; [lia|]. split; [done|]. split; [done|].
           intros vk' [->|Hvk']%Hrange Hm'.
           ++ destruct (decide (official new)); [lia|]. split; [done|lia].
           ++ destruct (Hall _ Hvk' Hm') as [Hno _].
              destruct (decide (official new)); [done|]. split; [done|lia].
        -- destruct (IH1 _ _ Hl) as (Hvk1 & Hm1 & Hsc1 & Hall1).
           split; [lia|]. split; [done|]. split; [done|].
           intros vk' [->|Hvk']%Hrange Hm'; [contradiction|]. by apply Hall1.
      * intros vk' Hvk' Hm'.
        destruct (decide (MapVirtualKey os vk' MAPVK_VK_TO_VSC
                          = MapVirtualKey os new MAPVK_VK_TO_VSC)) as [->|Hne].
        -- by rewrite lookup_insert_eq.
        -- rewrite lookup_insert_ne by done.
           destruct (Hrange _ Hvk') as [->|?]; [done|]. by apply IH2.
  - rewrite decide_False by apply zero_not_official. split.
    + intros scan_code vk [[<- <-]|[Hne Hl]]%lookup_insert_Some.
      * split; [lia|]. split; [done|]. split; [done|].
        intros vk' [->|Hvk']%Hrange Hm'.
        -- destruct (decide (official new)); [lia|]. split; [done|lia].
        -- destruct (IH2 _ Hvk') as [? Hsome]; [congruence|].
           rewrite Hm' in Hsome. congruence.
      * destruct (IH1 _ _ Hl) as (Hvk1 & Hm1 & Hsc1 & Hall1).
        split; [lia|]. split; [done|]. split; [done|].
        intros vk' [->|Hvk']%Hrange Hm'; [contradiction|]. by apply Hall1.
    + intros vk' Hvk' Hm'.
      destruct (decide (MapVirtualKey os vk' MAPVK_VK_TO_VSC
                        = MapVirtualKey os new MAPVK_VK_TO_VSC)) as [->|Hne].
      * by rewrite lookup_insert_eq.
      * rewrite lookup_insert_ne by done.
        destruct (Hrange _ Hvk') as [->|?]; [done|]. by apply IH2.
Qed.

(** X21: the first loop of [_create_key_name_tables] gives a virtual key
    to exactly the scan codes other than 0 that the platform maps a
    virtual key from 1 to 255 to.  When one of the virtual keys of a scan
    code is defined in [VIRTUAL_KEYBOARD], the key chosen is the smallest
    of these; when none is, it is the largest of all its virtual keys. *)
Theorem scan_code_to_vk_prefers_official os scan_code :
  match scan_code_to_vk_table os !! scan_code with
  | Some vk =>
      1 ≤ vk < 256 ∧ MapVirtualKey os vk MAPVK_VK_TO_VSC = scan_code ∧ scan_code ≠ 0 ∧
      ∀ vk', 1 ≤ vk' < 256 → MapVirtualKey os vk' MAPVK_VK_TO_VSC = scan_code →
        if decide (official vk) then official vk' → vk ≤ vk'
        else ¬ official vk' ∧ vk' ≤ vk
  | None =>
      scan_code = 0 ∨
      ∀ vk', 1 ≤ vk' < 256 → MapVirtualKey os vk' MAPVK_VK_TO_VSC ≠ scan_code
  end.
Proof.
  rewrite scan_code_to_vk_table_after.
  destruct (scan_code_to_vk_after_inv os 255) as [H1 H2].
  destruct (scan_code_to_vk_after os 255 !! scan_code) as [vk|] eqn:Hl.
  - exact (H1 _ _ Hl).
  - destruct (decide (scan_code = 0)) as [?|Hnz]; [by left|]. right.
    intros vk' Hvk' Hm. destruct (H2 vk') as [? Hsome]; [lia|congruence|].
    rewrite Hm in Hsome. congruence.
Qed.

(** ** The names of scan codes without a virtual key *)

Lemma key_names_for_scan_code_other os scan_code_to_vk acc scan_code acc' k :
  key_names_for_scan_code os scan_code_to_vk acc scan_code = Ok acc' →
  k ≠ scan_code → acc'.1 !! k = acc.1 !! k.
Proof.
  unfold key_names_for_scan_code. destruct acc as [names buffer]. simpl.
  unfold subscript, mbind, outcome_bind. intros Hf Hk. revert Hf.
  repeat case_match; try discriminate;
    repeat match goal with
           | H : (_, _) = (_, _) |- _ => injection H as ? ?; subst
           | H : Ok _ = Ok _ |- _ => injection H as ?; subst
           | H : Raise _ = Ok _ |- _ => discriminate H
           end;
    intros [= <-]; simpl; by rewrite ?lookup_insert_ne by done.
Qed.

Lemma key_names_for_scan_code_no_vk os scan_code_to_vk acc scan_code acc' :
  scan_code_to_vk !! scan_code = None →
  key_names_for_scan_code os scan_code_to_vk acc scan_code = Ok acc' →
  ∃ name, acc'.1 !! scan_code = Some (name, name) ∧
    ((∀ enhanced buffer, enhanced ∈ [1; 0] →
        (GetKeyNameText os (Z.lor (scan_code ≪ 16) (enhanced ≪ 24)) buffer).1 = 0) →
     name = u "unknown").
Proof.
  intros Hvk. unfold key_names_for_scan_code. destruct acc as [names buffer].
  cbn [fold_left].
  destruct (GetKeyNameText os (Z.lor (scan_code ≪ 16) (1 ≪ 24)) buffer)
    as [ret1 buffer1] eqn:H1.
  pose proof (f_equal fst H1) as R1. cbn [fst] in R1.
  assert (∀ b (names1 : gmap Z (str * str)) name1,
            names1 !! scan_code = Some (name1, name1) →
            ((∀ enhanced buffer, enhanced ∈ [1; 0] →
                (GetKeyNameText os (Z.lor (scan_code ≪ 16) (enhanced ≪ 24)) buffer).1 = 0) →
             name1 = u "unknown") →
            (let '(names2, buffer2) :=
               let '(ret, name_buffer) :=
                 GetKeyNameText os (Z.lor (scan_code ≪ 16) (0 ≪ 24)) b in
               if negb (truthy ret) then (names1, name_buffer)
               else (<[scan_code := (normalize_name (value name_buffer),
                                     normalize_name (value name_buffer))]> names1,
                     name_buffer) in
             if decide (scan_code_to_vk !! scan_code = None)
             then Ok (names2, buffer2)
             else foldlM
                    (λ '(key_names_by_scan_code, name_buffer) shift_state,
                       let keyboard_state :=
                         <[Z.to_nat 0x10 := shift_state * 0xFF]> (replicate 256 0) in
                       let vk := get scan_code_to_vk scan_code 0 in
                       let '(ret, name_buffer) :=
                         ToUnicode os vk scan_code keyboard_state name_buffer 32 0 in
                       if truthy ret then
                         match last_char (value name_buffer) with
                         | None => Raise IndexError
                         | Some char =>
                             names ← subscript key_names_by_scan_code scan_code;
                             let names := if shift_state =? 0 then (char, names.2)
                                          else (names.1, char) in
                             Ok (<[scan_code := names]> key_names_by_scan_code, name_buffer)
                         end
                       else Ok (key_names_by_scan_code, name_buffer))
                    [0; 1] (names2, buffer2)) = Ok acc' →
            ∃ name, acc'.1 !! scan_code = Some (name, name) ∧
              ((∀ enhanced buffer, enhanced ∈ [1; 0] →
                  (GetKeyNameText os (Z.lor (scan_code ≪ 16) (enhanced ≪ 24)) buffer).1 = 0) →
               name = u "unknown")) as Hsecond.
  { intros b names1 name1 Hn1 Hu1.
    destruct (GetKeyNameText os (Z.lor (scan_code ≪ 16) (0 ≪ 24)) b)
      as [ret0 buffer0] eqn:H0.
    pose proof (f_equal fst H0) as R0. cbn [fst] in R0.
    unfold truthy.
    destruct (Z.eqb_spec ret0 0) as [Hz|Hnz]; cbn [negb]; cbv beta iota;
      rewrite decide_True by done; intros [= <-]; cbn [fst].
    - by exists name1.
    - eexists. split; [by rewrite lookup_insert_eq|].
      intros Hno. destruct Hnz. rewrite <- R0. apply Hno. set_solver. }
  unfold truthy at 1. destruct (Z.eqb_spec ret1 0) as [Hz|Hnz]; cbn [negb].
  - apply (Hsecond buffer1 _ (u "unknown")); [by rewrite lookup_insert_eq|done].
  - apply (Hsecond buffer1 _ (normalize_name (value buffer1)));
      [by rewrite lookup_insert_eq|].
    intros Hno. destruct Hnz. rewrite <- R1. apply Hno. set_solver.
Qed.

Lemma foldlM_key_names_no_vk os scan_code_to_vk scan_code scan_codes : ∀ acc acc',
  scan_code_to_vk !! scan_code = None →
  foldlM (key_names_for_scan_code os scan_code_to_vk) scan_codes acc = Ok acc' →
  if decide (scan_code ∈ scan_codes) then
    ∃ name, acc'.1 !! scan_code = Some (name, name) ∧
      ((∀ enhanced buffer, enhanced ∈ [1; 0] →
          (GetKeyNameText os (Z.lor (scan_code ≪ 16) (enhanced ≪ 24)) buffer).1 = 0) →
       name = u "unknown")
  else acc'.1 !! scan_code = acc.1 !! scan_code.
Proof.
  induction scan_codes as [|x scan_codes IH]; intros acc acc' Hvk; cbn [foldlM].
  - intros [= <-]. destruct (decide _) as [Hin|]; [by apply elem_of_nil in Hin|done].
  - unfold mbind, outcome_bind.
    destruct (key_names_for_scan_code _ _ _ _) as [acc1|e] eqn:H1; [|done].
    intros H2. specialize (IH _ _ Hvk H2).
    destruct (decide (scan_code ∈ scan_codes)) as [Hin|Hnin].
    + rewrite decide_True by (by right). exact IH.
    + destruct (decide (x = scan_code)) as [->|Hne].
      * rewrite decide_True by (by left). rewrite IH.
        by eapply key_names_for_scan_code_no_vk.
      * rewrite decide_False by (by intros [?|?]%elem_of_cons).
        rewrite IH. by eapply key_names_for_scan_code_other.
Qed.

(** X22: in the tables that [_create_key_name_tables] builds, a scan code
    that no virtual key is mapped to has the same name in the lower-case
    and in the upper-case table, as only [ToUnicode] tells the two apart;
    and when the platform has no key name for such a scan code from 0 to
    127 either, it is named "unknown" in both. *)
Theorem key_names_without_virtual_key os lower upper scan_code :
  _create_key_name_tables os = Ok (lower, upper) →
  scan_code_to_vk_table os !! scan_code = None →
  lower !! scan_code = upper !! scan_code ∧
  (0 ≤ scan_code < 128 →
   (∀ enhanced buffer, enhanced ∈ [1; 0] →
      (GetKeyNameText os (Z.lor (scan_code ≪ 16) (enhanced ≪ 24)) buffer).1 = 0) →
   lower !! scan_code = Some (u "unknown")).
Proof.
  unfold _create_key_name_tables.
  destruct (foldlM _ _ _) as [[names buffer]|e] eqn:Hf; [|done].
  intros [= <- <-] Hvk.
  pose proof (foldlM_key_names_no_vk _ _ scan_code _ _ _ Hvk Hf) as Hs. cbn [fst] in Hs.
  rewrite !lookup_fmap.
  destruct (decide (scan_code = 541)) as [->|Hne].
  { rewrite lookup_insert_eq. split; [done|]. intros; lia. }
  rewrite lookup_insert_ne by done.
  destruct (decide (scan_code ∈ seqZ 0 (2 ^ (23 - 16)))) as [Hin|Hnin].
  - destruct Hs as (name & -> & Hname). split; [done|].
    intros _ Hno. by rewrite (Hname Hno).
  - rewrite Hs, lookup_empty. split; [done|]. intros Hr.
    destruct Hnin. apply elem_of_seqZ. change (2 ^ (23 - 16)) with 128. lia.
Qed.

Lemma key_names_without_virtual_key_on_sample :
  Demo.KEY_NAMES_LOWER !! 5 = Some (u "unknown").
Proof.
  refine (proj2 (key_names_without_virtual_key Demo.os Demo.KEY_NAMES_LOWER
                   (match _create_key_name_tables Demo.os with
                    | Ok (_, up) => up
                    | Raise _ => ∅
                    end) 5 _ _) _ _).
  - vm_compute. reflexivity.
  - vm_compute. reflexivity.
  - lia.
  - intros enhanced buffer [->|[->|[]%elem_of_nil]%elem_of_cons]%elem_of_cons;
      reflexivity.
Defined.
